(** * 2SEARX2COOL: engine bridge, JSON-RPC loop and result cache

    A shallow embedding of
    - [engine-bridge/engine_registry.py]  (discovery, [search], [search_all]),
    - [engine-bridge/engine_service.py]   (the RPC handlers),
    - [engine-bridge/protocol.py]         (the JSON-RPC read/dispatch/write loop),
    - [orchestrator/services/cache_service.py] (the Redis result cache),
    - [engines/musicbrainz_adapted.py]    (an engine file: [request], [response]),
    and the properties of the specification that concern them.

    Conventions.
    - A Python [str] is a [string] whose characters are the code points
      0..255; [sorted] on strings is the code-point order [String.le].
      Where a property turns on other characters, a [str] is the list of
      its code points ([Unicode]); on the characters 0..255 the two
      agree.
    - A Python [dict] is an association list in insertion order with
      unique keys ([dict_set] updates in place or appends).
    - A Python [float] is a rational: a binary64 number by its exact
      value where the code computes with floats ([Cache.binary64]), any
      rational where it only passes a float on (the clock).
    - Raising is explicit: a call returns [Ok v] or [Raise e].  Only
      subclasses of [Exception] are modelled (no [KeyboardInterrupt]),
      but for the import of an engine file, which may also end the
      interpreter ([Registry.ExecExits]).
    - What the program does to the outside world (HTTP requests, lines on
      stderr and stdout) is recorded, in order, in an event log. *)

From Stdlib Require Import ZArith QArith Qround Qabs Qpower Lia Lqa.
From Stdlib Require Import String Ascii DecimalString.
From stdpp Require Import base tactics option list strings sorting.

Set Warnings "-register-all".
Local Open Scope string_scope.
Local Open Scope list_scope.

(** ** Python values, exceptions and dictionaries *)

Module Py.

Inductive exn_class : Type :=
| TypeError
| ValueError
| AttributeError
| JSONDecodeError
| OtherException.

Record exn : Type := mk_exn { exn_kind : exn_class; exn_msg : string }.

Inductive result (A : Type) : Type :=
| Ok (a : A)
| Raise (e : exn).

Arguments Ok {A} a.
Arguments Raise {A} e.

Definition is_ok {A} (r : result A) : bool :=
  match r with Ok _ => true | Raise _ => false end.

(** JSON documents, as [json.loads] builds them and [json.dumps] reads them. *)
Inductive json : Type :=
| JNull
| JBool (b : bool)
| JInt (z : Z)
| JFloat (q : Q)
| JStr (s : string)
| JArr (items : list json)
| JObj (fields : list (string * json)).

Definition pydict : Type := list (string * json).

(** [d.get(k)] *)
Fixpoint dict_get {V} (k : string) (d : list (string * V)) : option V :=
  match d with
  | [] => None
  | (k', v) :: d' => if String.eqb k k' then Some v else dict_get k d'
  end.

(** [d[k] = v]: an existing key keeps its place, a new key goes last. *)
Fixpoint dict_set {V} (k : string) (v : V) (d : list (string * V)) : list (string * V) :=
  match d with
  | [] => [(k, v)]
  | (k', v') :: d' =>
      if String.eqb k k' then (k, v) :: d' else (k', v') :: dict_set k v d'
  end.

(** [k in d] *)
Definition dict_has {V} (k : string) (d : list (string * V)) : bool :=
  match dict_get k d with Some _ => true | None => false end.

(** [d.get(k, default)] *)
Definition dict_get_default {V} (k : string) (dflt : V) (d : list (string * V)) : V :=
  match dict_get k d with Some v => v | None => dflt end.

(** [del d[k]], used for keyword binding. *)
Fixpoint dict_remove {V} (k : string) (d : list (string * V)) : list (string * V) :=
  match d with
  | [] => []
  | (k', v) :: d' =>
      if String.eqb k k' then dict_remove k d' else (k', v) :: dict_remove k d'
  end.

Definition dict_keys {V} (d : list (string * V)) : list string := map fst d.

(** Truth value of a JSON document ([if x:], [x or y]). *)
Definition truthy (v : json) : bool :=
  match v with
  | JNull => false
  | JBool b => b
  | JInt z => negb (Z.eqb z 0)
  | JFloat q => negb (Qeq_bool q 0)
  | JStr s => negb (String.eqb s "")
  | JArr l => match l with [] => false | _ => true end
  | JObj d => match d with [] => false | _ => true end
  end.

(** [x or y] *)
Definition py_or (x y : json) : json := if truthy x then x else y.

(** *** Strings *)

Definition code (c : ascii) : nat := nat_of_ascii c.

(** [str.isspace] on one character of the range 0..255. *)
Definition is_space (c : ascii) : bool :=
  let n := code c in
  (((9 <=? n) && (n <=? 13)) || ((28 <=? n) && (n <=? 32))
   || (n =? 133) || (n =? 160))%nat.

(** Characters that [str.lower] changes in the range 0..255: A-Z and the
    Latin-1 capitals (all of 192..222 but the multiplication sign 215). *)
Definition is_upper (c : ascii) : bool :=
  let n := code c in
  (((65 <=? n) && (n <=? 90))
   || ((192 <=? n) && (n <=? 222) && negb (n =? 215)))%nat.

Definition shift32 (c : ascii) : ascii := ascii_of_nat (code c + 32).

Definition lower_char (c : ascii) : ascii :=
  if is_upper c then shift32 c else c.

Definition chars (s : string) : list ascii := list_ascii_of_string s.
Definition of_chars (l : list ascii) : string := string_of_list_ascii l.

(** [s.lower()] on a string of the characters 0..255, where every
    character is lowered by itself.  ([Unicode.lower] is [s.lower()] on
    any text, where a capital sigma depends on its place in the word.) *)
Definition lower (s : string) : string := of_chars (map lower_char (chars s)).

Fixpoint lstrip_chars (l : list ascii) : list ascii :=
  match l with
  | [] => []
  | c :: l' => if is_space c then lstrip_chars l' else l
  end.

Definition rstrip_chars (l : list ascii) : list ascii :=
  rev (lstrip_chars (rev l)).

(** [s.strip()] *)
Definition strip (s : string) : string :=
  of_chars (rstrip_chars (lstrip_chars (chars s))).

(** [sep.join(l)] *)
Fixpoint join (sep : string) (l : list string) : string :=
  match l with
  | [] => ""
  | [s] => s
  | s :: l' => s +:+ sep +:+ join sep l'
  end.

(** [sorted(l)] on a list of strings.  The order is total and
    antisymmetric, so the sorted list is unique and stability is moot. *)
Definition sorted (l : list string) : list string := merge_sort String.le l.

(** [s[:n]] *)
Definition prefix (n : nat) (s : string) : string := String.substring 0 n s.

(** [str(n)] for an integer. *)
Definition str_of_Z (z : Z) : string := NilZero.string_of_int (Z.to_int z).

(** [len(x)]: lists, strings and dicts have a length, the rest raise. *)
Definition py_len (v : json) : result Z :=
  match v with
  | JArr l => Ok (Z.of_nat (List.length l))
  | JStr s => Ok (Z.of_nat (String.length s))
  | JObj d => Ok (Z.of_nat (List.length d))
  | JNull => Raise (mk_exn TypeError "object of type 'NoneType' has no len()")
  | JBool _ => Raise (mk_exn TypeError "object of type 'bool' has no len()")
  | JInt _ => Raise (mk_exn TypeError "object of type 'int' has no len()")
  | JFloat _ => Raise (mk_exn TypeError "object of type 'float' has no len()")
  end.

(** [x[:n]] for [n >= 0]: lists and strings can be sliced. *)
Definition py_take (n : Z) (v : json) : result json :=
  match v with
  | JArr l => Ok (JArr (take (Z.to_nat n) l))
  | JStr s => Ok (JStr (prefix (Z.to_nat n) s))
  | _ => Raise (mk_exn TypeError "object is not subscriptable by a slice")
  end.

(** [for x in v]: what iterating a document yields. *)
Definition py_iter (v : json) : result (list json) :=
  match v with
  | JArr l => Ok l
  | JStr s => Ok (map (fun c => JStr (String c "")) (chars s))
  | JObj d => Ok (map (fun kv => JStr (fst kv)) d)
  | _ => Raise (mk_exn TypeError "object is not iterable")
  end.

(** [target[k] = v] with a string key: only a dict accepts it. *)
Definition set_item (k : string) (v : json) (target : json) : result json :=
  match target with
  | JObj d => Ok (JObj (dict_set k v d))
  | JArr _ => Raise (mk_exn TypeError "list indices must be integers or slices, not str")
  | _ => Raise (mk_exn TypeError "object does not support item assignment")
  end.

(** *** Effects: the event log *)

Record http_request : Type := mk_http_request {
  hr_url : json;
  hr_params : pydict;
  hr_headers : json;
  hr_timeout : Z
}.

Inductive event : Type :=
| HttpGet (r : http_request)       (* [requests.get] *)
| Stderr (line : string)           (* [print(..., file=sys.stderr)] *)
| Stdout (text : string)           (* [sys.stdout.write] *)
| Call (method : string) (kwargs : pydict).
                                   (* a mark, not an effect: the protocol
                                      called the handler of [method] *)

(** A computation: the events it caused, and its value or exception. *)
Definition M (A : Type) : Type := list event * result A.

Definition ret {A} (a : A) : M A := ([], Ok a).
Definition raise {A} (e : exn) : M A := ([], Raise e).
Definition lift {A} (r : result A) : M A := ([], r).
Definition emit (ev : event) : M unit := ([ev], Ok tt).

Definition bind {A B} (m : M A) (k : A -> M B) : M B :=
  match m with
  | (log, Ok a) => let (log', r) := k a in (log ++ log', r)
  | (log, Raise e) => (log, Raise e)
  end.

(** [try: m  except Exception as e: handler e] *)
Definition try_except {A} (m : M A) (handler : exn -> M A) : M A :=
  match m with
  | (log, Raise e) => let (log', r) := handler e in (log ++ log', r)
  | (log, Ok a) => (log, Ok a)
  end.

Definition events {A} (m : M A) : list event := fst m.
Definition value {A} (m : M A) : result A := snd m.

#[global] Instance M_ret : MRet M := @ret.
#[global] Instance M_bind : MBind M := fun A B k m => bind m k.

End Py.

(** ** MD5 (RFC 1321), for [hashlib.md5(s.encode()).hexdigest()] *)

Module MD5.
Local Open Scope Z_scope.

Definition w32 (x : Z) : Z := x mod 4294967296.

Definition rotl (x n : Z) : Z :=
  w32 (Z.lor (Z.shiftl x n) (Z.shiftr x (32 - n))).

Definition not32 (x : Z) : Z := 4294967295 - x.

Definition shifts : list Z :=
  [7; 12; 17; 22; 7; 12; 17; 22; 7; 12; 17; 22; 7; 12; 17; 22;
   5; 9; 14; 20; 5; 9; 14; 20; 5; 9; 14; 20; 5; 9; 14; 20;
   4; 11; 16; 23; 4; 11; 16; 23; 4; 11; 16; 23; 4; 11; 16; 23;
   6; 10; 15; 21; 6; 10; 15; 21; 6; 10; 15; 21; 6; 10; 15; 21].

Definition sines : list Z :=
  [0xd76aa478; 0xe8c7b756; 0x242070db; 0xc1bdceee;
   0xf57c0faf; 0x4787c62a; 0xa8304613; 0xfd469501;
   0x698098d8; 0x8b44f7af; 0xffff5bb1; 0x895cd7be;
   0x6b901122; 0xfd987193; 0xa679438e; 0x49b40821;
   0xf61e2562; 0xc040b340; 0x265e5a51; 0xe9b6c7aa;
   0xd62f105d; 0x02441453; 0xd8a1e681; 0xe7d3fbc8;
   0x21e1cde6; 0xc33707d6; 0xf4d50d87; 0x455a14ed;
   0xa9e3e905; 0xfcefa3f8; 0x676f02d9; 0x8d2a4c8a;
   0xfffa3942; 0x8771f681; 0x6d9d6122; 0xfde5380c;
   0xa4beea44; 0x4bdecfa9; 0xf6bb4b60; 0xbebfbc70;
   0x289b7ec6; 0xeaa127fa; 0xd4ef3085; 0x04881d05;
   0xd9d4d039; 0xe6db99e5; 0x1fa27cf8; 0xc4ac5665;
   0xf4292244; 0x432aff97; 0xab9423a7; 0xfc93a039;
   0x655b59c3; 0x8f0ccc92; 0xffeff47d; 0x85845dd1;
   0x6fa87e4f; 0xfe2ce6e0; 0xa3014314; 0x4e0811a1;
   0xf7537e82; 0xbd3af235; 0x2ad7d2bb; 0xeb86d391].

(** UTF-8 of a code point below 256. *)
Definition utf8 (c : ascii) : list Z :=
  let n := Z.of_nat (nat_of_ascii c) in
  if n <? 128 then [n] else [Z.lor 192 (Z.shiftr n 6); Z.lor 128 (Z.land n 63)].

Fixpoint encode (s : string) : list Z :=
  match s with
  | ""%string => []
  | String c s' => utf8 c ++ encode s'
  end.

(** The [n] low bytes of [x], least significant first. *)
Fixpoint le_bytes (n : nat) (x : Z) : list Z :=
  match n with
  | O => []
  | S n' => (x mod 256) :: le_bytes n' (x / 256)
  end.

Definition pad (msg : list Z) : list Z :=
  let len := Z.of_nat (List.length msg) in
  let zeros := Z.to_nat ((55 - len) mod 64) in
  msg ++ [128] ++ repeat 0 zeros ++ le_bytes 8 (8 * len).

Fixpoint words (n : nat) (bytes : list Z) : list Z :=
  match n with
  | O => []
  | S n' =>
      match bytes with
      | b0 :: b1 :: b2 :: b3 :: rest =>
          (b0 + 256 * b1 + 65536 * b2 + 16777216 * b3) :: words n' rest
      | _ => []
      end
  end.

Record state : Type := mk_state { sa : Z; sb : Z; sc : Z; sd : Z }.

Definition step (m : list Z) (st : state) (i : Z) : state :=
  let '(mk_state a b c d) := st in
  let '(f, g) :=
    if i <? 16 then (Z.lor (Z.land b c) (Z.land (not32 b) d), i)
    else if i <? 32 then (Z.lor (Z.land d b) (Z.land (not32 d) c), (5 * i + 1) mod 16)
    else if i <? 48 then (Z.lxor b (Z.lxor c d), (3 * i + 5) mod 16)
    else (Z.lxor c (Z.lor b (not32 d)), (7 * i) mod 16) in
  let f := w32 (f + a + nth (Z.to_nat i) sines 0 + nth (Z.to_nat g) m 0) in
  mk_state d (w32 (b + rotl f (nth (Z.to_nat i) shifts 0))) b c.

Definition rounds : list Z := map Z.of_nat (seq 0 64).

Definition chunk (st : state) (m : list Z) : state :=
  let st' := fold_left (step m) rounds st in
  mk_state (w32 (sa st + sa st')) (w32 (sb st + sb st'))
           (w32 (sc st + sc st')) (w32 (sd st + sd st')).

Fixpoint chunks (n : nat) (bytes : list Z) (st : state) : state :=
  match n with
  | O => st
  | S n' => chunks n' (skipn 64 bytes) (chunk st (words 16 bytes))
  end.

Definition init : state := mk_state 0x67452301 0xefcdab89 0x98badcfe 0x10325476.

Definition hex_digit (x : Z) : ascii :=
  if x <? 10 then ascii_of_nat (48 + Z.to_nat x) else ascii_of_nat (87 + Z.to_nat x).

Fixpoint hex (bytes : list Z) : string :=
  match bytes with
  | [] => ""%string
  | b :: rest => String (hex_digit (b / 16)) (String (hex_digit (b mod 16)) (hex rest))
  end.

Definition digest_bytes (msg : list Z) : list Z :=
  let padded := pad msg in
  let st := chunks (List.length padded / 64) padded init in
  le_bytes 4 (sa st) ++ le_bytes 4 (sb st) ++ le_bytes 4 (sc st) ++ le_bytes 4 (sd st).

(** [hashlib.md5(s.encode()).hexdigest()] *)
Definition hexdigest (s : string) : string := hex (digest_bytes (encode s)).

End MD5.

(** ** Text of any characters

    Where a property needs more than the characters 0..255, a Python
    [str] is the list of its code points.  The tables are those of
    Unicode 14.0, which Python 3.11 carries. *)

Module Unicode.
Import Py.
Local Open Scope Z_scope.

Definition ustr : Type := list Z.



Definition in_ranges (ranges : list (Z * Z)) (c : Z) : bool :=
  existsb (fun r => (fst r <=? c) && (c <=? snd r)) ranges.

(** [str.isspace] on one character. *)
Definition whitespace : list (Z * Z) :=
  [
   (9, 13); (28, 32); (133, 133); (160, 160); (5760, 5760); (8192, 8202);
   (8232, 8233); (8239, 8239); (8287, 8287); (12288, 12288)].

Definition is_space (c : Z) : bool := in_ranges whitespace c.

(** The characters that [str.lower] looks through when it decides on a
    capital sigma (the property Case_Ignorable). *)
Definition case_ignorable : list (Z * Z) :=
  [
   (39, 39); (46, 46); (58, 58); (94, 94); (96, 96); (168, 168);
   (173, 173); (175, 175); (180, 180); (183, 184); (688, 879); (884, 885);
   (890, 890); (900, 901); (903, 903); (1155, 1161); (1369, 1369); (1375, 1375);
   (1425, 1469); (1471, 1471); (1473, 1474); (1476, 1477); (1479, 1479); (1524, 1524);
   (1536, 1541); (1552, 1562); (1564, 1564); (1600, 1600); (1611, 1631); (1648, 1648);
   (1750, 1757); (1759, 1768); (1770, 1773); (1807, 1807); (1809, 1809); (1840, 1866);
   (1958, 1968); (2027, 2037); (2042, 2042); (2045, 2045); (2070, 2093); (2137, 2139);
   (2184, 2184); (2192, 2193); (2200, 2207); (2249, 2306); (2362, 2362); (2364, 2364);
   (2369, 2376); (2381, 2381); (2385, 2391); (2402, 2403); (2417, 2417); (2433, 2433);
   (2492, 2492); (2497, 2500); (2509, 2509); (2530, 2531); (2558, 2558); (2561, 2562);
   (2620, 2620); (2625, 2626); (2631, 2632); (2635, 2637); (2641, 2641); (2672, 2673);
   (2677, 2677); (2689, 2690); (2748, 2748); (2753, 2757); (2759, 2760); (2765, 2765);
   (2786, 2787); (2810, 2815); (2817, 2817); (2876, 2876); (2879, 2879); (2881, 2884);
   (2893, 2893); (2901, 2902); (2914, 2915); (2946, 2946); (3008, 3008); (3021, 3021);
   (3072, 3072); (3076, 3076); (3132, 3132); (3134, 3136); (3142, 3144); (3146, 3149);
   (3157, 3158); (3170, 3171); (3201, 3201); (3260, 3260); (3263, 3263); (3270, 3270);
   (3276, 3277); (3298, 3299); (3328, 3329); (3387, 3388); (3393, 3396); (3405, 3405);
   (3426, 3427); (3457, 3457); (3530, 3530); (3538, 3540); (3542, 3542); (3633, 3633);
   (3636, 3642); (3654, 3662); (3761, 3761); (3764, 3772); (3782, 3782); (3784, 3789);
   (3864, 3865); (3893, 3893); (3895, 3895); (3897, 3897); (3953, 3966); (3968, 3972);
   (3974, 3975); (3981, 3991); (3993, 4028); (4038, 4038); (4141, 4144); (4146, 4151);
   (4153, 4154); (4157, 4158); (4184, 4185); (4190, 4192); (4209, 4212); (4226, 4226);
   (4229, 4230); (4237, 4237); (4253, 4253); (4348, 4348); (4957, 4959); (5906, 5908);
   (5938, 5939); (5970, 5971); (6002, 6003); (6068, 6069); (6071, 6077); (6086, 6086);
   (6089, 6099); (6103, 6103); (6109, 6109); (6155, 6159); (6211, 6211); (6277, 6278);
   (6313, 6313); (6432, 6434); (6439, 6440); (6450, 6450); (6457, 6459); (6679, 6680);
   (6683, 6683); (6742, 6742); (6744, 6750); (6752, 6752); (6754, 6754); (6757, 6764);
   (6771, 6780); (6783, 6783); (6823, 6823); (6832, 6862); (6912, 6915); (6964, 6964);
   (6966, 6970); (6972, 6972); (6978, 6978); (7019, 7027); (7040, 7041); (7074, 7077);
   (7080, 7081); (7083, 7085); (7142, 7142); (7144, 7145); (7149, 7149); (7151, 7153);
   (7212, 7219); (7222, 7223); (7288, 7293); (7376, 7378); (7380, 7392); (7394, 7400);
   (7405, 7405); (7412, 7412); (7416, 7417); (7468, 7530); (7544, 7544); (7579, 7679);
   (8125, 8125); (8127, 8129); (8141, 8143); (8157, 8159); (8173, 8175); (8189, 8190);
   (8203, 8207); (8216, 8217); (8228, 8228); (8231, 8231); (8234, 8238); (8288, 8292);
   (8294, 8303); (8305, 8305); (8319, 8319); (8336, 8348); (8400, 8432); (11388, 11389);
   (11503, 11505); (11631, 11631); (11647, 11647); (11744, 11775); (11823, 11823);
   (12293, 12293);
   (12330, 12333); (12337, 12341); (12347, 12347); (12441, 12446); (12540, 12542);
   (40981, 40981);
   (42232, 42237); (42508, 42508); (42607, 42610); (42612, 42621); (42623, 42623);
   (42652, 42655);
   (42736, 42737); (42752, 42785); (42864, 42864); (42888, 42890); (42994, 42996);
   (43000, 43001);
   (43010, 43010); (43014, 43014); (43019, 43019); (43045, 43046); (43052, 43052);
   (43204, 43205);
   (43232, 43249); (43263, 43263); (43302, 43309); (43335, 43345); (43392, 43394);
   (43443, 43443);
   (43446, 43449); (43452, 43453); (43471, 43471); (43493, 43494); (43561, 43566);
   (43569, 43570);
   (43573, 43574); (43587, 43587); (43596, 43596); (43632, 43632); (43644, 43644);
   (43696, 43696);
   (43698, 43700); (43703, 43704); (43710, 43711); (43713, 43713); (43741, 43741);
   (43756, 43757);
   (43763, 43764); (43766, 43766); (43867, 43871); (43881, 43883); (44005, 44005);
   (44008, 44008);
   (44013, 44013); (64286, 64286); (64434, 64450); (65024, 65039); (65043, 65043);
   (65056, 65071);
   (65106, 65106); (65109, 65109); (65279, 65279); (65287, 65287); (65294, 65294);
   (65306, 65306);
   (65342, 65342); (65344, 65344); (65392, 65392); (65438, 65439); (65507, 65507);
   (65529, 65531);
   (66045, 66045); (66272, 66272); (66422, 66426); (67456, 67461); (67463, 67504);
   (67506, 67514);
   (68097, 68099); (68101, 68102); (68108, 68111); (68152, 68154); (68159, 68159);
   (68325, 68326);
   (68900, 68903); (69291, 69292); (69446, 69456); (69506, 69509); (69633, 69633);
   (69688, 69702);
   (69744, 69744); (69747, 69748); (69759, 69761); (69811, 69814); (69817, 69818);
   (69821, 69821);
   (69826, 69826); (69837, 69837); (69888, 69890); (69927, 69931); (69933, 69940);
   (70003, 70003);
   (70016, 70017); (70070, 70078); (70089, 70092); (70095, 70095); (70191, 70193);
   (70196, 70196);
   (70198, 70199); (70206, 70206); (70367, 70367); (70371, 70378); (70400, 70401);
   (70459, 70460);
   (70464, 70464); (70502, 70508); (70512, 70516); (70712, 70719); (70722, 70724);
   (70726, 70726);
   (70750, 70750); (70835, 70840); (70842, 70842); (70847, 70848); (70850, 70851);
   (71090, 71093);
   (71100, 71101); (71103, 71104); (71132, 71133); (71219, 71226); (71229, 71229);
   (71231, 71232);
   (71339, 71339); (71341, 71341); (71344, 71349); (71351, 71351); (71453, 71455);
   (71458, 71461);
   (71463, 71467); (71727, 71735); (71737, 71738); (71995, 71996); (71998, 71998);
   (72003, 72003);
   (72148, 72151); (72154, 72155); (72160, 72160); (72193, 72202); (72243, 72248);
   (72251, 72254);
   (72263, 72263); (72273, 72278); (72281, 72283); (72330, 72342); (72344, 72345);
   (72752, 72758);
   (72760, 72765); (72767, 72767); (72850, 72871); (72874, 72880); (72882, 72883);
   (72885, 72886);
   (73009, 73014); (73018, 73018); (73020, 73021); (73023, 73029); (73031, 73031);
   (73104, 73105);
   (73109, 73109); (73111, 73111); (73459, 73460); (78896, 78904); (92912, 92916);
   (92976, 92982);
   (92992, 92995); (94031, 94031); (94095, 94111); (94176, 94177); (94179, 94180);
   (110576, 110579);
   (110581, 110587); (110589, 110590); (113821, 113822); (113824, 113827); (118528, 118573);
   (118576, 118598);
   (119143, 119145); (119155, 119170); (119173, 119179); (119210, 119213); (119362, 119364);
   (121344, 121398);
   (121403, 121452); (121461, 121461); (121476, 121476); (121499, 121503); (121505, 121519);
   (122880, 122886);
   (122888, 122904); (122907, 122913); (122915, 122916); (122918, 122922); (123184, 123197);
   (123566, 123566);
   (123628, 123631); (125136, 125142); (125252, 125259); (127995, 127999); (917505, 917505);
   (917536, 917631);
   (917760, 917999)].

(** The cased characters among those that are not case-ignorable (of
    the others [str.lower] never asks whether they are cased). *)
Definition cased : list (Z * Z) :=
  [
   (65, 90); (97, 122); (170, 170); (181, 181); (186, 186); (192, 214);
   (216, 246); (248, 442); (444, 447); (452, 659); (661, 687); (880, 883);
   (886, 887); (891, 893); (895, 895); (902, 902); (904, 906); (908, 908);
   (910, 929); (931, 1013); (1015, 1153); (1162, 1327); (1329, 1366); (1376, 1416);
   (4256, 4293); (4295, 4295); (4301, 4301); (4304, 4346); (4349, 4351); (5024, 5109);
   (5112, 5117); (7296, 7304); (7312, 7354); (7357, 7359); (7424, 7467); (7531, 7543);
   (7545, 7578); (7680, 7957); (7960, 7965); (7968, 8005); (8008, 8013); (8016, 8023);
   (8025, 8025); (8027, 8027); (8029, 8029); (8031, 8061); (8064, 8116); (8118, 8124);
   (8126, 8126); (8130, 8132); (8134, 8140); (8144, 8147); (8150, 8155); (8160, 8172);
   (8178, 8180); (8182, 8188); (8450, 8450); (8455, 8455); (8458, 8467); (8469, 8469);
   (8473, 8477); (8484, 8484); (8486, 8486); (8488, 8488); (8490, 8493); (8495, 8500);
   (8505, 8505); (8508, 8511); (8517, 8521); (8526, 8526); (8544, 8575); (8579, 8580);
   (9398, 9449); (11264, 11387); (11390, 11492); (11499, 11502); (11506, 11507); (11520, 11557);
   (11559, 11559); (11565, 11565); (42560, 42605); (42624, 42651); (42786, 42863);
   (42865, 42887);
   (42891, 42894); (42896, 42954); (42960, 42961); (42963, 42963); (42965, 42969);
   (42997, 42998);
   (43002, 43002); (43824, 43866); (43872, 43880); (43888, 43967); (64256, 64262);
   (64275, 64279);
   (65313, 65338); (65345, 65370); (66560, 66639); (66736, 66771); (66776, 66811);
   (66928, 66938);
   (66940, 66954); (66956, 66962); (66964, 66965); (66967, 66977); (66979, 66993);
   (66995, 67001);
   (67003, 67004); (68736, 68786); (68800, 68850); (71840, 71903); (93760, 93823);
   (119808, 119892);
   (119894, 119964); (119966, 119967); (119970, 119970); (119973, 119974); (119977, 119980);
   (119982, 119993);
   (119995, 119995); (119997, 120003); (120005, 120069); (120071, 120074); (120077, 120084);
   (120086, 120092);
   (120094, 120121); (120123, 120126); (120128, 120132); (120134, 120134); (120138, 120144);
   (120146, 120485);
   (120488, 120512); (120514, 120538); (120540, 120570); (120572, 120596); (120598, 120628);
   (120630, 120654);
   (120656, 120686); (120688, 120712); (120714, 120744); (120746, 120770); (120772, 120779);
   (122624, 122633);
   (122635, 122654); (125184, 125251); (127280, 127305); (127312, 127337); (127344, 127369)].

(** The characters that have a lower-case form of one character:
    [(first, last, step, shift)] stands for the characters [first],
    [first + step], ... up to [last], each of which becomes the
    character [shift] places on. *)
Definition lower_runs : list (Z * Z * Z * Z) :=
  [
   (65, 90, 1, 32); (192, 214, 1, 32); (216, 222, 1, 32); (256, 302, 2, 1);
   (306, 310, 2, 1); (313, 327, 2, 1); (330, 374, 2, 1); (376, 376, 1, (-121));
   (377, 381, 2, 1); (385, 385, 1, 210); (386, 388, 2, 1); (390, 390, 1, 206);
   (391, 391, 1, 1); (393, 394, 1, 205); (395, 395, 1, 1); (398, 398, 1, 79);
   (399, 399, 1, 202); (400, 400, 1, 203); (401, 401, 1, 1); (403, 403, 1, 205);
   (404, 404, 1, 207); (406, 406, 1, 211); (407, 407, 1, 209); (408, 408, 1, 1);
   (412, 412, 1, 211); (413, 413, 1, 213); (415, 415, 1, 214); (416, 420, 2, 1);
   (422, 422, 1, 218); (423, 423, 1, 1); (425, 425, 1, 218); (428, 428, 1, 1);
   (430, 430, 1, 218); (431, 431, 1, 1); (433, 434, 1, 217); (435, 437, 2, 1);
   (439, 439, 1, 219); (440, 440, 1, 1); (444, 444, 1, 1); (452, 452, 1, 2);
   (453, 453, 1, 1); (455, 455, 1, 2); (456, 456, 1, 1); (458, 458, 1, 2);
   (459, 475, 2, 1); (478, 494, 2, 1); (497, 497, 1, 2); (498, 500, 2, 1);
   (502, 502, 1, (-97)); (503, 503, 1, (-56)); (504, 542, 2, 1); (544, 544, 1, (-130));
   (546, 562, 2, 1); (570, 570, 1, 10795); (571, 571, 1, 1); (573, 573, 1, (-163));
   (574, 574, 1, 10792); (577, 577, 1, 1); (579, 579, 1, (-195)); (580, 580, 1, 69);
   (581, 581, 1, 71); (582, 590, 2, 1); (880, 882, 2, 1); (886, 886, 1, 1);
   (895, 895, 1, 116); (902, 902, 1, 38); (904, 906, 1, 37); (908, 908, 1, 64);
   (910, 911, 1, 63); (913, 929, 1, 32); (931, 939, 1, 32); (975, 975, 1, 8);
   (984, 1006, 2, 1); (1012, 1012, 1, (-60)); (1015, 1015, 1, 1); (1017, 1017, 1, (-7));
   (1018, 1018, 1, 1); (1021, 1023, 1, (-130)); (1024, 1039, 1, 80); (1040, 1071, 1, 32);
   (1120, 1152, 2, 1); (1162, 1214, 2, 1); (1216, 1216, 1, 15); (1217, 1229, 2, 1);
   (1232, 1326, 2, 1); (1329, 1366, 1, 48); (4256, 4293, 1, 7264); (4295, 4295, 1, 7264);
   (4301, 4301, 1, 7264); (5024, 5103, 1, 38864); (5104, 5109, 1, 8); (7312, 7354, 1, (-3008));
   (7357, 7359, 1, (-3008)); (7680, 7828, 2, 1); (7838, 7838, 1, (-7615)); (7840, 7934, 2, 1);
   (7944, 7951, 1, (-8)); (7960, 7965, 1, (-8)); (7976, 7983, 1, (-8)); (7992, 7999, 1, (-8));
   (8008, 8013, 1, (-8)); (8025, 8031, 2, (-8)); (8040, 8047, 1, (-8)); (8072, 8079, 1, (-8));
   (8088, 8095, 1, (-8)); (8104, 8111, 1, (-8)); (8120, 8121, 1, (-8)); (8122, 8123, 1, (-74));
   (8124, 8124, 1, (-9)); (8136, 8139, 1, (-86)); (8140, 8140, 1, (-9)); (8152, 8153, 1, (-8));
   (8154, 8155, 1, (-100)); (8168, 8169, 1, (-8)); (8170, 8171, 1, (-112));
   (8172, 8172, 1, (-7));
   (8184, 8185, 1, (-128)); (8186, 8187, 1, (-126)); (8188, 8188, 1, (-9));
   (8486, 8486, 1, (-7517));
   (8490, 8490, 1, (-8383)); (8491, 8491, 1, (-8262)); (8498, 8498, 1, 28); (8544, 8559, 1, 16);
   (8579, 8579, 1, 1); (9398, 9423, 1, 26); (11264, 11311, 1, 48); (11360, 11360, 1, 1);
   (11362, 11362, 1, (-10743)); (11363, 11363, 1, (-3814)); (11364, 11364, 1, (-10727));
   (11367, 11371, 2, 1);
   (11373, 11373, 1, (-10780)); (11374, 11374, 1, (-10749)); (11375, 11375, 1, (-10783));
   (11376, 11376, 1, (-10782));
   (11378, 11378, 1, 1); (11381, 11381, 1, 1); (11390, 11391, 1, (-10815));
   (11392, 11490, 2, 1);
   (11499, 11501, 2, 1); (11506, 11506, 1, 1); (42560, 42604, 2, 1); (42624, 42650, 2, 1);
   (42786, 42798, 2, 1); (42802, 42862, 2, 1); (42873, 42875, 2, 1);
   (42877, 42877, 1, (-35332));
   (42878, 42886, 2, 1); (42891, 42891, 1, 1); (42893, 42893, 1, (-42280));
   (42896, 42898, 2, 1);
   (42902, 42920, 2, 1); (42922, 42922, 1, (-42308)); (42923, 42923, 1, (-42319));
   (42924, 42924, 1, (-42315));
   (42925, 42925, 1, (-42305)); (42926, 42926, 1, (-42308)); (42928, 42928, 1, (-42258));
   (42929, 42929, 1, (-42282));
   (42930, 42930, 1, (-42261)); (42931, 42931, 1, 928); (42932, 42946, 2, 1);
   (42948, 42948, 1, (-48));
   (42949, 42949, 1, (-42307)); (42950, 42950, 1, (-35384)); (42951, 42953, 2, 1);
   (42960, 42960, 1, 1);
   (42966, 42968, 2, 1); (42997, 42997, 1, 1); (65313, 65338, 1, 32); (66560, 66599, 1, 40);
   (66736, 66771, 1, 40); (66928, 66938, 1, 39); (66940, 66954, 1, 39); (66956, 66962, 1, 39);
   (66964, 66965, 1, 39); (68736, 68786, 1, 64); (71840, 71871, 1, 32); (93760, 93791, 1, 32);
   (125184, 125217, 1, 34)].

Definition in_run (c : Z) (r : Z * Z * Z * Z) : bool :=
  let '(first, last, step, _) := r in
  (first <=? c) && (c <=? last) && ((c - first) mod step =? 0).

Definition lower_simple (c : Z) : Z :=
  match List.find (in_run c) lower_runs with
  | Some (_, _, _, shift) => c + shift
  | None => c
  end.

(** The lower-case form of one character out of context; the capital I
    with a dot above is the one character that becomes two. *)
Definition lower_full (c : Z) : list Z :=
  if c =? 304 then [105; 775] else [lower_simple c].

(** The first character of a text that is not case-ignorable. *)
Fixpoint first_significant (s : ustr) : option Z :=
  match s with
  | [] => None
  | c :: rest => if in_ranges case_ignorable c then first_significant rest else Some c
  end.

(** Whether a capital sigma stands at the end of a word: a cased
    character before it, none after it (case-ignorable characters not
    counted).  [before] is the text before the sigma, last character
    first. *)
Definition final_sigma (before after : ustr) : bool :=
  match first_significant before with
  | None => false
  | Some c =>
      in_ranges cased c
      && match first_significant after with
         | None => true
         | Some c' => negb (in_ranges cased c')
         end
  end.

Fixpoint lower_from (before s : ustr) : ustr :=
  match s with
  | [] => []
  | c :: rest =>
      (if c =? 931
       then [if final_sigma before rest then 962 else 963]
       else lower_full c)
      ++ lower_from (c :: before) rest
  end.

(** [s.lower()] *)
Definition lower (s : ustr) : ustr := lower_from [] s.

Fixpoint lstrip (s : ustr) : ustr :=
  match s with
  | [] => []
  | c :: rest => if is_space c then lstrip rest else s
  end.

(** [s.strip()] *)
Definition strip (s : ustr) : ustr := rev (lstrip (rev (lstrip s))).

(** [sep.join(l)] *)
Fixpoint join (sep : ustr) (l : list ustr) : ustr :=
  match l with
  | [] => []
  | [s] => s
  | s :: rest => s ++ sep ++ join sep rest
  end.

(** The UTF-8 bytes of one character; a surrogate has none. *)
Definition utf8 (c : Z) : result (list Z) :=
  if c <? 128 then Ok [c]
  else if c <? 2048 then Ok [192 + c / 64; 128 + c mod 64]
  else if (55296 <=? c) && (c <=? 57343)
  then Raise (mk_exn ValueError "'utf-8' codec can't encode character: surrogates not allowed")
  else if c <? 65536 then Ok [224 + c / 4096; 128 + (c / 64) mod 64; 128 + c mod 64]
  else Ok [240 + c / 262144; 128 + (c / 4096) mod 64; 128 + (c / 64) mod 64; 128 + c mod 64].

(** [s.encode()] *)
Fixpoint encode (s : ustr) : result (list Z) :=
  match s with
  | [] => Ok []
  | c :: rest =>
      match utf8 c, encode rest with
      | Ok bytes, Ok more => Ok (bytes ++ more)
      | Raise e, _ => Raise e
      | _, Raise e => Raise e
      end
  end.

End Unicode.

(** ** The result cache ([orchestrator/services/cache_service.py]) *)

Module Cache.
Import Py.

(** *** The Redis server, as far as the cache uses it

    String keys carry the instant at which they expire; [cache:stats] is a
    hash of integer counters; [popular:queries] is a sorted set with
    integer scores.  Time is in seconds. *)

Section Server.

(** The serialised form of a document and the codec around it
    ([json.dumps], [json.loads], and the truth value of the stored text). *)
Variable wire : Type.
Variable json_dumps : json -> wire.
Variable json_loads : wire -> result json.
Variable wire_truthy : wire -> bool.

Record server : Type := mk_server {
  strings : list (string * (wire * Z));
  hashes : list (string * list (string * Z));
  zsets : list (string * list (string * Z))
}.

Definition empty_server : server := mk_server [] [] [].

(** GET: an expired key is absent. *)
Definition redis_get (now : Z) (key : string) (srv : server) : option wire :=
  match dict_get key (strings srv) with
  | Some (v, expires) => if (now <? expires)%Z then Some v else None
  | None => None
  end.

(** SETEX: the server refuses a time to live that is not positive. *)
Definition redis_setex (now : Z) (key : string) (ttl : Z) (v : wire)
  (srv : server) : result server :=
  if (ttl <=? 0)%Z
  then Raise (mk_exn OtherException "invalid expire time in 'setex' command")
  else Ok (mk_server (dict_set key (v, (now + ttl)%Z) (strings srv))
                     (hashes srv) (zsets srv)).

Definition incr_field (field : string) (n : Z) (h : list (string * Z)) : list (string * Z) :=
  dict_set field (dict_get_default field 0%Z h + n)%Z h.

(** HINCRBY *)
Definition redis_hincrby (name field : string) (n : Z) (srv : server) : server :=
  mk_server (strings srv)
            (dict_set name (incr_field field n (dict_get_default name [] (hashes srv)))
                      (hashes srv))
            (zsets srv).

(** ZINCRBY *)
Definition redis_zincrby (name : string) (n : Z) (member : string) (srv : server) : server :=
  mk_server (strings srv) (hashes srv)
            (dict_set name (incr_field member n (dict_get_default name [] (zsets srv)))
                      (zsets srv)).

(** HGETALL *)
Definition redis_hgetall (name : string) (srv : server) : list (string * Z) :=
  dict_get_default name [] (hashes srv).

(** KEYS prefix* over the string keys that have not expired. *)
Definition redis_keys_prefix (now : Z) (pre : string) (srv : server) : list string :=
  map fst (filter (fun kv => String.prefix pre (fst kv) = true /\ (now < snd (snd kv))%Z)
                  (strings srv)).

(** The order of ZREVRANGE: higher score first, ties by member, descending. *)
Definition zrev_le (a b : string * Z) : Prop :=
  (snd b < snd a)%Z \/ (snd a = snd b /\ String.le (fst b) (fst a)).

#[local] Instance zrev_le_dec : RelDecision zrev_le.
Proof. unfold zrev_le. solve_decision. Defined.

(** ZREVRANGE name 0 (n-1) WITHSCORES *)
Definition redis_zrevrange_top (name : string) (n : nat) (srv : server) : list (string * Z) :=
  take n (merge_sort zrev_le (dict_get_default name [] (zsets srv))).

(** *** CacheService *)

Record CacheService : Type := mk_cache {
  redis_url : string;
  default_ttl : Z;
  max_results_per_query : Z;
  redis_client : option server   (* [None]: the connection failed *)
}.

Definition with_client (c : CacheService) (srv : server) : CacheService :=
  mk_cache (redis_url c) (default_ttl c) (max_results_per_query c) (Some srv).

(** [",".join(sorted(xs)) if xs else "all"] *)
Definition names_str (xs : option (list string)) : string :=
  match xs with
  | None | Some [] => "all"
  | Some l => join "," (sorted l)
  end.

Definition _generate_cache_key (query : string)
  (engines categories : option (list string)) : string :=
  let query_lower := strip (lower query) in
  let engines_str := names_str engines in
  let categories_str := names_str categories in
  let key_parts := ["query:" +:+ query_lower;
                    "engines:" +:+ engines_str;
                    "categories:" +:+ categories_str] in
  let key_string := join "|" key_parts in
  let key_hash := prefix 16 (MD5.hexdigest key_string) in
  "search:v1:" +:+ key_hash.


Definition get (c : CacheService) (now : Z) (query : string)
  (engines categories : option (list string)) : CacheService * option json :=
  match redis_client c with
  | None => (c, None)
  | Some srv =>
      let cache_key := _generate_cache_key query engines categories in
      match redis_get now cache_key srv with
      | Some cached_data =>
          if wire_truthy cached_data then
            match json_loads cached_data with
            | Ok result =>
                (with_client c (redis_hincrby "cache:stats" "hits" 1 srv), Some result)
            | Raise _ => (c, None)
            end
          else (with_client c (redis_hincrby "cache:stats" "misses" 1 srv), None)
      | None => (with_client c (redis_hincrby "cache:stats" "misses" 1 srv), None)
      end
  end.

(** [x[:n]], also for a negative [n]. *)
Definition slice_to (n : Z) (v : json) : result json :=
  match py_len v with
  | Raise e => Raise e
  | Ok len => py_take (if (n <? 0)%Z then Z.max 0 (len + n) else n) v
  end.

(** The cap on the cached result list. *)
Definition limit_results (max : Z) (results : pydict) : result pydict :=
  match dict_get "results" results with
  | None => Ok results
  | Some r =>
      match py_len r with
      | Raise e => Raise e
      | Ok n =>
          if (max <? n)%Z then
            match slice_to max r with
            | Raise e => Raise e
            | Ok r' => Ok (dict_set "truncated" (JBool true) (dict_set "results" r' results))
            end
          else Ok results
      end
  end.

(** [ttl or self.default_ttl] *)
Definition effective_ttl (c : CacheService) (ttl : option Z) : Z :=
  match ttl with
  | Some t => if (t =? 0)%Z then default_ttl c else t
  | None => default_ttl c
  end.

(** The document stored for a response: the response with the metadata keys. *)
Definition cache_data (results : pydict) (cached_at : string) (ttl : Z)
  (cache_key : string) : pydict :=
  dict_set "cache_key" (JStr cache_key)
    (dict_set "cache_ttl" (JInt ttl)
       (dict_set "cached_at" (JStr cached_at) results)).

(** [set]; [utcnow] is [datetime.utcnow().isoformat()] at the call. *)
Definition set (c : CacheService) (now : Z) (utcnow : string) (query : string)
  (results : pydict) (engines categories : option (list string))
  (ttl : option Z) : CacheService * bool :=
  match redis_client c with
  | None => (c, false)
  | Some srv =>
      let cache_key := _generate_cache_key query engines categories in
      let ttl := effective_ttl c ttl in
      match limit_results (max_results_per_query c) results with
      | Raise _ => (c, false)
      | Ok results =>
          let data := cache_data results utcnow ttl cache_key in
          match redis_setex now cache_key ttl (json_dumps (JObj data)) srv with
          | Raise _ => (c, false)
          | Ok srv =>
              let srv := redis_hincrby "cache:stats" "sets" 1 srv in
              let srv := redis_zincrby "popular:queries" 1 query srv in
              (with_client c srv, true)
          end
      end
  end.

(** To the nearest integer, a tie to the even one. *)
Definition round_half_even (q : Q) : Z :=
  let f := Qfloor q in
  match Qcompare (q - inject_Z f) (1 # 2) with
  | Lt => f
  | Gt => (f + 1)%Z
  | Eq => if Z.even f then f else (f + 1)%Z
  end.

(** The hundredth nearest to [q], a tie to the even one. *)
Definition round2 (q : Q) : Q := Qmake (round_half_even (q * 100)) 100.

(** *** Floats

    A Python [float] is an IEEE 754 binary64 number, taken here by its
    exact value.  [binary64 q] is the float nearest to [q], a tie going
    to the one with the even significand.  (No overflow: what is rounded
    here are quotients of Redis' 64-bit counters and percentages.) *)

(** The integer part of the binary logarithm of a positive rational. *)
Definition floor_log2 (q : Q) : Z :=
  let k := (Z.log2 (Qnum q) - Z.log2 (Zpos (Qden q)))%Z in
  if Qle_bool (2 ^ k) q then k else (k - 1)%Z.

(** The exponent of the last place of the floats next to [q]: 52 places
    below the leading one, and not below that of the subnormals. *)
Definition ulp_exp (q : Q) : Z := Z.max (-1074) (floor_log2 q - 52).

Definition binary64_pos (q : Q) : Q :=
  let e := ulp_exp q in
  Qred (inject_Z (round_half_even (q / 2 ^ e)) * 2 ^ e).

Definition binary64 (q : Q) : Q :=
  match q ?= 0 with
  | Eq => 0
  | Gt => binary64_pos q
  | Lt => Qred (- binary64_pos (- q))
  end.

(** [a / b] on integers, [b] not zero: the float nearest to the quotient. *)
Definition int_truediv (a b : Z) : Q := binary64 (inject_Z a / inject_Z b).

(** [x * y] on floats. *)
Definition float_mul (x y : Q) : Q := binary64 (x * y).

(** [round(x, 2)] on a float: the float nearest to the hundredth nearest
    to [x]. *)
Definition float_round2 (x : Q) : Q := binary64 (round2 x).

Definition _calculate_hit_rate (stats : list (string * Z)) : Q :=
  let hits := dict_get_default "hits" 0%Z stats in
  let misses := dict_get_default "misses" 0%Z stats in
  let total := (hits + misses)%Z in
  if (total =? 0)%Z then 0
  else float_round2 (float_mul (int_truediv hits total) 100).

Definition popular_entry (p : string * Z) : json :=
  JObj [("query", JStr (fst p)); ("count", JInt (snd p))].

Definition get_stats (c : CacheService) (now : Z) : pydict :=
  match redis_client c with
  | None => [("status", JStr "disconnected")]
  | Some srv =>
      let stats := redis_hgetall "cache:stats" srv in
      let popular_queries := redis_zrevrange_top "popular:queries" 10 srv in
      let cache_keys := List.length (redis_keys_prefix now "search:v1:" srv) in
      [("status", JStr "connected");
       ("hits", JInt (dict_get_default "hits" 0%Z stats));
       ("misses", JInt (dict_get_default "misses" 0%Z stats));
       ("sets", JInt (dict_get_default "sets" 0%Z stats));
       ("hit_rate", JFloat (_calculate_hit_rate stats));
       ("cache_entries", JInt (Z.of_nat cache_keys));
       ("popular_queries", JArr (map popular_entry popular_queries))]
  end.

(** *** Invalidation *)

(** The glob matching of KEYS: [glob_match pattern key]. *)
Variable glob_match : string -> string -> bool.

(** The string keys that have not expired at [now]. *)
Definition live_strings (now : Z) (srv : server) : list string :=
  map fst (List.filter (fun kv => (now <? snd (snd kv))%Z) (strings srv)).

(** KEYS pattern: the matching keys of every type. *)
Definition redis_keys (now : Z) (pattern : string) (srv : server) : list string :=
  List.filter (glob_match pattern)
    (live_strings now srv ++ dict_keys (hashes srv) ++ dict_keys (zsets srv)).

Definition key_exists (now : Z) (key : string) (srv : server) : bool :=
  match redis_get now key srv with Some _ => true | None => false end
  || dict_has key (hashes srv) || dict_has key (zsets srv).

(** DEL key ...: the keys are removed one after the other; the reply
    counts those that existed. *)
Fixpoint redis_delete (now : Z) (keys : list string) (srv : server) : server * Z :=
  match keys with
  | [] => (srv, 0%Z)
  | key :: rest =>
      let existed := key_exists now key srv in
      let srv' := mk_server (dict_remove key (strings srv))
                            (dict_remove key (hashes srv))
                            (dict_remove key (zsets srv)) in
      let (srv'', n) := redis_delete now rest srv' in
      (srv'', if existed then (1 + n)%Z else n)
  end.

Definition invalidate (c : CacheService) (now : Z) (pattern : option string)
  : CacheService * Z :=
  match redis_client c with
  | None => (c, 0%Z)
  | Some srv =>
      let use_pattern := match pattern with
                         | Some p => negb (String.eqb p "")
                         | None => false
                         end in
      if use_pattern then
        match redis_keys now (default "" pattern) srv with
        | [] => (c, 0%Z)
        | keys => let (srv', n) := redis_delete now keys srv in (with_client c srv', n)
        end
      else
        match redis_keys now "search:v1:*" srv with
        | [] => (c, 0%Z)
        | keys => let (srv', n) := redis_delete now keys srv in (with_client c srv', n)
        end
  end.

End Server.

End Cache.

(** ** The engine registry ([engine-bridge/engine_registry.py]) *)

Module Registry.
Import Py.

(** What [requests.get] returns, as far as the code reads it. *)
Record http_response : Type := mk_http_response {
  status_code : Z;
  body_json : result json;     (* what [.json()] returns or raises *)
  text : string;
  url : string
}.

(** The object handed to an engine's [response] function. *)
Inductive response_obj : Type :=
| Response (r : http_response)
| MinimalResponse.              (* [text = ""], [status_code = 200], [url = ""] *)

(** An imported engine file: the attributes the registry looks at. *)
Record py_module : Type := mk_module {
  attr_request : option (json -> pydict -> result pydict);
  attr_response : option (response_obj -> result json);
  attr_categories : option (list string);
  attr_about : option pydict
}.

Record EngineInfo : Type := mk_engine {
  name : string;
  module_path : string;
  categories : list string;
  about : pydict;
  module : option py_module;
  enabled : bool
}.

Definition to_dict (e : EngineInfo) : json :=
  JObj [("name", JStr (name e));
        ("module_path", JStr (module_path e));
        ("categories", JArr (map JStr (categories e)));
        ("about", JObj (about e));
        ("enabled", JBool (enabled e))].

(** [engine.enabled = b] *)
Definition set_enabled (b : bool) (e : EngineInfo) : EngineInfo :=
  mk_engine (name e) (module_path e) (categories e) (about e) (module e) b.

(** *** Discovery *)

(** What importing a file does: no import spec, an exception while the
    file runs, the end of the interpreter while the file runs
    ([sys.exit()], an interrupt: a [BaseException] that is no
    [Exception], which [except Exception] lets pass), or a module. *)
Inductive load_outcome : Type :=
| NoSpec
| ExecRaises (e : exn)
| ExecExits (e : exn)
| Loaded (m : py_module).

Record py_file : Type := mk_file { file_name : string; file_load : load_outcome }.

(** A file system: a path that does not exist, or the entries under it. *)
Definition filesystem : Type := string -> option (list py_file).

Definition ends_with (suffix s : string) : bool :=
  let n := String.length s in
  let k := String.length suffix in
  (k <=? n)%nat && String.eqb (String.substring (n - k) k s) suffix.

(** [name.rfind(".")]: the place of the last dot, counted from [i]. *)
Fixpoint rfind_dot (s : string) (i : nat) : option nat :=
  match s with
  | "" => None
  | String c s' =>
      match rfind_dot s' (Datatypes.S i) with
      | Some j => Some j
      | None => if Ascii.eqb c "." then Some i else None
      end
  end.

(** [file_path.stem]: the name up to its last dot, unless that dot is
    the first or the last character of the name. *)
Definition stem (file : string) : string :=
  match rfind_dot file 0 with
  | Some i =>
      if ((0 <? i) && (i <? String.length file - 1))%nat
      then String.substring 0 i file
      else file
  | None => file
  end.

(** [glob("*.py")] *)
Definition glob_py (entries : list py_file) : list py_file :=
  List.filter (fun f => ends_with ".py" (file_name f)) entries.

Definition skipped (f : py_file) : bool :=
  String.prefix "__" (file_name f) || String.eqb (file_name f) "base_music.py".

Definition _load_engine_info (dir : string) (f : py_file) : result (option EngineInfo) :=
  let module_name := stem (file_name f) in
  match file_load f with
  | NoSpec => Ok None
  | ExecRaises e => Raise e
  | ExecExits e => Raise e
  | Loaded m =>
      match attr_request m, attr_response m with
      | Some _, Some _ =>
          Ok (Some (mk_engine module_name
                              (dir +:+ "/" +:+ file_name f)
                              (default ["general"] (attr_categories m))
                              (default [] (attr_about m))
                              (Some m)
                              true))
      | _, _ => Ok None
      end
  end.

Definition engines_dict : Type := list (string * EngineInfo).

(** The loop of [_discover_engines] over the matched files. *)
Fixpoint discover_loop (dir : string) (files : list py_file)
  (engines : engines_dict) : M engines_dict :=
  match files with
  | [] => ret engines
  | f :: rest =>
      if skipped f then discover_loop dir rest engines
      else
        match file_load f with
        | ExecExits e =>
            (* not an [Exception]: it passes the [except] clause and
               ends the discovery *)
            raise e
        | _ =>
            engines' ← try_except
              (engine_info ← lift (_load_engine_info dir f);
               ret (match engine_info with
                    | Some info => dict_set (name info) info engines
                    | None => engines
                    end))
              (fun e =>
                 _ ← emit (Stderr ("Failed to load engine " +:+ file_name f +:+ ": "
                                   +:+ exn_msg e));
                 ret engines);
            discover_loop dir rest engines'
        end
  end.

Definition _discover_engines (fs : filesystem) (dir : string) : M engines_dict :=
  match fs dir with
  | None => raise (mk_exn ValueError ("Engines directory not found: " +:+ dir))
  | Some entries => discover_loop dir (glob_py entries) []
  end.

Record EngineRegistry : Type := mk_registry {
  engines_dir : string;
  engines : engines_dict
}.

(** [EngineRegistry(engines_dir)] *)
Definition __init__ (fs : filesystem) (dir : string) : M EngineRegistry :=
  engines ← _discover_engines fs dir;
  ret (mk_registry dir engines).

(** *** Lookup and listing *)

Section Search.

(** The network: what a GET request returns or raises. *)
Variable http_get : http_request -> result http_response.

(** [str(v)] of a document that is not a string. *)
Variable py_repr : json -> string.

Definition py_str (v : json) : string :=
  match v with JStr s => s | _ => py_repr v end.

(** [self.engines.get(name)]: a list or a dict is not hashable. *)
Definition get_engine (r : EngineRegistry) (name : json) : result (option EngineInfo) :=
  match name with
  | JStr s => Ok (dict_get s (engines r))
  | JArr _ => Raise (mk_exn TypeError "unhashable type: 'list'")
  | JObj _ => Raise (mk_exn TypeError "unhashable type: 'dict'")
  | _ => Ok None
  end.

Definition list_engines (r : EngineRegistry) : list json :=
  map (fun kv => to_dict (snd kv)) (engines r).

Definition get_enabled_engines (r : EngineRegistry) : list EngineInfo :=
  List.filter enabled (map snd (engines r)).

(** *** [search] *)

Definition requests_get (req : http_request) : M http_response :=
  ([HttpGet req], http_get req).

Definition raise_for_status (resp : http_response) : result unit :=
  if ((400 <=? status_code resp) && (status_code resp <? 600))%Z
  then Raise (mk_exn OtherException "HTTPError")
  else Ok tt.

Definition call_request (m : py_module) (query : json) (params : pydict) : result pydict :=
  match attr_request m with
  | Some f => f query params
  | None => Raise (mk_exn AttributeError "module has no attribute 'request'")
  end.

Definition call_response (m : py_module) (resp : response_obj) : result json :=
  match attr_response m with
  | Some f => f resp
  | None => Raise (mk_exn AttributeError "module has no attribute 'response'")
  end.

Fixpoint stamp_each (engine_name : json) (items : list json) : result (list json) :=
  match items with
  | [] => Ok []
  | x :: rest =>
      match set_item "engine" engine_name x with
      | Raise e => Raise e
      | Ok x' =>
          match stamp_each engine_name rest with
          | Raise e => Raise e
          | Ok rest' => Ok (x' :: rest')
          end
      end
  end.

(** [for result in results: result['engine'] = engine_name], then
    [results] itself.  Iterating a string or a dict yields strings, which
    refuse the assignment. *)
Definition stamp_results (engine_name : json) (results : json) : result json :=
  match results with
  | JArr l =>
      match stamp_each engine_name l with
      | Raise e => Raise e
      | Ok l' => Ok (JArr l')
      end
  | _ =>
      match py_iter results with
      | Raise e => Raise e
      | Ok [] => Ok results
      | Ok (x :: _) =>
          match set_item "engine" engine_name x with
          | Raise e => Raise e
          | Ok _ => Ok results
          end
      end
  end.

Definition searxng_url : string := "http://localhost:8888/search".

Definition search_params (engine_name query : json) (params : pydict) : pydict :=
  [("q", query);
   ("format", JStr "json");
   ("engines", engine_name);
   ("pageno", dict_get_default "page" (JInt 1) params);
   ("language", dict_get_default "language" (JStr "all") params);
   ("time_range", dict_get_default "time_range" (JStr "") params);
   ("safesearch", dict_get_default "safesearch" (JInt 0) params)].

Definition request_params (query : json) (params : pydict) : pydict :=
  [("query", query);
   ("pageno", dict_get_default "page" (JInt 1) params);
   ("language", dict_get_default "language" (JStr "all") params);
   ("time_range", dict_get_default "time_range" JNull params);
   ("safesearch", dict_get_default "safesearch" (JInt 0) params)].

(** The body of the first [try]: ask the SearXNG instance. *)
Definition searxng_fetch (engine_name query : json) (params : pydict) : M json :=
  response ← requests_get
    (mk_http_request (JStr searxng_url) (search_params engine_name query params) JNull 5);
  _ ← lift (raise_for_status response);
  data ← lift (body_json response);
  results ← lift (match data with
                  | JObj d => Ok (dict_get_default "results" (JArr []) d)
                  | _ => Raise (mk_exn AttributeError "object has no attribute 'get'")
                  end);
  lift (stamp_results engine_name results).

(** The [except] branch: run the engine's own [request] and [response]. *)
Definition direct_execution (m : py_module) (engine_name query : json)
  (params : pydict) : M json :=
  request_result ← lift (call_request m query (request_params query params));
  match dict_get "url" request_result with
  | Some target =>
      try_except
        (resp ← requests_get
           (mk_http_request target []
              (dict_get_default "headers" (JObj []) request_result) 10);
         results ← lift (call_response m (Response resp));
         lift (stamp_results engine_name results))
        (fun direct_error =>
           _ ← emit (Stderr ("Direct engine execution failed: " +:+ exn_msg direct_error));
           ret (JArr []))
  | None =>
      results ← lift (call_response m MinimalResponse);
      lift (stamp_results engine_name results)
  end.

Definition not_found_msg (engine_name : json) : string :=
  "Engine '" +:+ py_str engine_name +:+ "' not found or disabled".

Definition search (r : EngineRegistry) (engine_name query : json)
  (params : pydict) : M json :=
  engine ← lift (get_engine r engine_name);
  match engine with
  | None => raise (mk_exn ValueError (not_found_msg engine_name))
  | Some engine =>
      if negb (enabled engine)
      then raise (mk_exn ValueError (not_found_msg engine_name))
      else
        match module engine with
        | None =>
            raise (mk_exn ValueError
                     ("Engine '" +:+ py_str engine_name +:+ "' module not loaded"))
        | Some m =>
            try_except (searxng_fetch engine_name query params)
              (fun e =>
                 _ ← emit (Stderr ("SearXNG not available, using direct engine execution: "
                                   +:+ exn_msg e));
                 direct_execution m engine_name query params)
        end
  end.

(** *** [search_all] *)

(** One turn of the loop: the [try] and its [except]. *)
Definition search_all_step (r : EngineRegistry) (query : json) (params : pydict)
  (engine : EngineInfo) (all_results : list json) : M (list json) :=
  try_except
    (results ← search r (JStr (name engine)) query params;
     items ← lift (py_iter results);
     ret (all_results ++ items))
    (fun e =>
       _ ← emit (Stderr ("Engine " +:+ name engine +:+ " failed: " +:+ exn_msg e));
       ret all_results).

Fixpoint search_all_loop (r : EngineRegistry) (query : json) (params : pydict)
  (targets : list EngineInfo) (all_results : list json) : M (list json) :=
  match targets with
  | [] => ret all_results
  | engine :: rest =>
      all_results' ← search_all_step r query params engine all_results;
      search_all_loop r query params rest all_results'
  end.

Definition search_all (r : EngineRegistry) (query : json) (params : pydict) : M (list json) :=
  search_all_loop r query params (get_enabled_engines r) [].

End Search.

End Registry.

(** ** The JSON-RPC layer ([engine-bridge/protocol.py]) *)

Module Protocol.
Import Py.

Record JsonRpcRequest : Type := mk_request {
  req_jsonrpc : string;
  method : json;
  params : json;
  id : json
}.

Record JsonRpcResponse : Type := mk_response {
  resp_jsonrpc : string;
  result_ : json;                (* [None] is [JNull] *)
  error_ : option pydict;
  resp_id : json
}.

Definition PARSE_ERROR : Z := (-32700)%Z.
Definition INVALID_REQUEST : Z := (-32600)%Z.
Definition METHOD_NOT_FOUND : Z := (-32601)%Z.
Definition INVALID_PARAMS : Z := (-32602)%Z.
Definition INTERNAL_ERROR : Z := (-32603)%Z.

(** [JsonRpcRequest.to_dict]: [params] is left out when it is empty. *)
Definition request_to_dict (r : JsonRpcRequest) : pydict :=
  let d := [("jsonrpc", JStr (req_jsonrpc r)); ("method", method r); ("id", id r)] in
  if truthy (params r) then dict_set "params" (params r) d else d.

(** [JsonRpcResponse.to_dict] *)
Definition response_to_dict (r : JsonRpcResponse) : pydict :=
  let d := [("jsonrpc", JStr (resp_jsonrpc r)); ("id", resp_id r)] in
  match error_ r with
  | Some e => dict_set "error" (JObj e) d
  | None => dict_set "result" (result_ r) d
  end.

(** [JsonRpcResponse.success] *)
Definition success (result : json) (id : json) : JsonRpcResponse :=
  mk_response "2.0" result None id.

(** [JsonRpcResponse.error]; it leaves [data] out when it is [None]. *)
Definition error (code : Z) (message : string) (data : json) (id : json) : JsonRpcResponse :=
  let e := [("code", JInt code); ("message", JStr message)] in
  let e := match data with JNull => e | _ => dict_set "data" data e end in
  mk_response "2.0" JNull (Some e) id.

(** What a response puts on stdout ends with the two characters
    backslash and n: the source writes the escape doubled. *)
Definition line_end : string := String "092"%char "n".

Section Loop.

(** The state the handlers work on. *)
Variable S : Type.

(** A registered handler, called with keyword arguments: it may change
    the state, cause events, and return or raise. *)
Definition handler : Type := pydict -> S -> S * M json.

Variable handlers : list (string * handler).

(** [json.loads], [json.dumps], [str(v)] of a document that is not a
    string, [traceback.format_exc()], and the stream of [uuid.uuid4()]. *)
Variable json_loads : string -> result json.
Variable json_dumps : json -> string.
Variable py_repr : json -> string.
Variable format_exc : exn -> string.
Variable uuid4 : nat -> string.

Definition py_str (v : json) : string :=
  match v with JStr s => s | _ => py_repr v end.

(** [JsonRpcRequest.__init__]; [uuids] counts the identifiers drawn so far. *)
Definition new_request (method params id : json) (uuids : nat) : JsonRpcRequest * nat :=
  let params := py_or params (JObj []) in
  if truthy id
  then (mk_request "2.0" method params id, uuids)
  else (mk_request "2.0" method params (JStr (uuid4 uuids)), Datatypes.S uuids).

(** [JsonRpcRequest.from_dict] *)
Definition from_dict (data : json) (uuids : nat) : result (JsonRpcRequest * nat) :=
  match data with
  | JObj d =>
      Ok (new_request (dict_get_default "method" (JStr "") d)
                      (dict_get_default "params" (JObj []) d)
                      (dict_get_default "id" JNull d)
                      uuids)
  | _ => Raise (mk_exn AttributeError "object has no attribute 'get'")
  end.

Definition send_response (response : JsonRpcResponse) : M unit :=
  emit (Stdout (json_dumps (JObj (response_to_dict response)) +:+ line_end)).

(** [read_request], given what [sys.stdin.readline()] returned (the empty
    string at the end of the stream). *)
Definition read_request (line : string) (uuids : nat) : M (option JsonRpcRequest) * nat :=
  if String.eqb line "" then (ret None, uuids)
  else
    match json_loads (strip line) with
    | Ok data =>
        match from_dict data uuids with
        | Ok (request, uuids') => (ret (Some request), uuids')
        | Raise e =>
            (_ ← send_response (error INTERNAL_ERROR "Internal error" (JStr (exn_msg e)) JNull);
             ret None, uuids)
        end
    | Raise e =>
        match exn_kind e with
        | JSONDecodeError =>
            (_ ← send_response (error PARSE_ERROR "Parse error" (JStr (exn_msg e)) JNull);
             ret None, uuids)
        | _ =>
            (_ ← send_response (error INTERNAL_ERROR "Internal error" (JStr (exn_msg e)) JNull);
             ret None, uuids)
        end
    end.

(** The call of a handler with [request.params] as its keyword arguments. *)
Definition call_handler (name : string) (h : handler) (params : json) (st : S) : S * M json :=
  match params with
  | JObj kwargs =>
      let (st', m) := h kwargs st in
      (st', bind (emit (Call name kwargs)) (fun _ => m))
  | _ => (st, raise (mk_exn TypeError "argument after ** must be a mapping"))
  end.

Definition handle_request (request : JsonRpcRequest) (st : S) : S * M JsonRpcResponse :=
  match method request with
  | JArr _ => (st, raise (mk_exn TypeError "unhashable type: 'list'"))
  | JObj _ => (st, raise (mk_exn TypeError "unhashable type: 'dict'"))
  | JStr name =>
      match dict_get name handlers with
      | None =>
          (st, ret (error METHOD_NOT_FOUND ("Method '" +:+ name +:+ "' not found")
                          JNull (id request)))
      | Some h =>
          let (st', m) := call_handler name h (params request) st in
          (st',
           try_except
             (result ← m; ret (success result (id request)))
             (fun e =>
                match exn_kind e with
                | TypeError =>
                    ret (error INVALID_PARAMS "Invalid parameters"
                               (JStr (exn_msg e)) (id request))
                | _ =>
                    ret (error INTERNAL_ERROR "Internal error"
                               (JObj [("error", JStr (exn_msg e));
                                      ("traceback", JStr (format_exc e))])
                               (id request))
                end))
      end
  | other =>
      (st, ret (error METHOD_NOT_FOUND ("Method '" +:+ py_str other +:+ "' not found")
                      JNull (id request)))
  end.

(** Where the loop stands when it stops. *)
Record run_state : Type := mk_run {
  state : S;
  uuids_drawn : nat;
  unread : list string           (* the lines never read *)
}.

(** [run]: the loop over stdin.  [readline] takes the next line; at the
    end of the stream it returns the empty string. *)
Fixpoint run (stdin : list string) (st : S) (uuids : nat) : run_state * M unit :=
  match stdin with
  | [] =>
      let (m, uuids') := read_request "" uuids in
      (mk_run st uuids' [], bind m (fun _ => ret tt))
  | line :: rest =>
      let (m, uuids') := read_request line uuids in
      match m with
      | (log, Raise e) => (mk_run st uuids' rest, (log, Raise e))
      | (log, Ok None) => (mk_run st uuids' rest, (log, Ok tt))
      | (log, Ok (Some request)) =>
          let (st', m') := handle_request request st in
          match bind m' send_response with
          | (log', Raise e) => (mk_run st' uuids' rest, (log ++ log', Raise e))
          | (log', Ok _) =>
              let (final, m'') := run rest st' uuids' in
              (final, (log ++ log' ++ events m'', value m''))
          end
      end
  end.

End Loop.

End Protocol.

(** ** The service ([engine-bridge/engine_service.py]) *)

Module Service.
Import Py.

Section Handlers.

Variable http_get : http_request -> result Registry.http_response.
Variable py_repr : json -> string.

(** [time.time()]: the n-th reading of the clock. *)
Variable clock : nat -> Q.

(** The text of the [TypeError] Python raises when the keyword arguments
    do not fit a handler's signature. *)
Variable signature_error : string -> pydict -> string.

(** The service's mutable state: the registry, and how many times the
    clock has been read. *)
Record EngineService : Type := mk_service {
  registry : Registry.EngineRegistry;
  ticks : nat
}.

Definition tick (n : nat) (s : EngineService) : EngineService :=
  mk_service (registry s) (ticks s + n).

(** Binding keyword arguments to a bound method with the parameters
    [required] and, when [var_kw], a final double-star parameter that
    takes the rest.  A key [self] collides with the bound instance. *)
Definition bind_kwargs (fname : string) (required : list string) (var_kw : bool)
  (kwargs : pydict) : result (list json * pydict) :=
  let rest := fold_right dict_remove kwargs required in
  if dict_has "self" kwargs
     || negb (forallb (fun k => dict_has k kwargs) required)
     || (negb var_kw && match rest with [] => false | _ => true end)
  then Raise (mk_exn TypeError (signature_error fname kwargs))
  else Ok (map (fun k => dict_get_default k JNull kwargs) required, rest).

Definition handle_ping (kwargs : pydict) (s : EngineService) : EngineService * M json :=
  match bind_kwargs "handle_ping" [] false kwargs with
  | Raise e => (s, raise e)
  | Ok _ =>
      (tick 1 s,
       ret (JObj [("status", JStr "ok");
                  ("timestamp", JFloat (clock (ticks s)));
                  ("engines_count",
                   JInt (Z.of_nat (List.length (Registry.engines (registry s)))))]))
  end.

Definition handle_list_engines (kwargs : pydict) (s : EngineService) : EngineService * M json :=
  match bind_kwargs "handle_list_engines" [] false kwargs with
  | Raise e => (s, raise e)
  | Ok _ => (s, ret (JArr (Registry.list_engines (registry s))))
  end.

Definition elapsed (s : EngineService) : json :=
  JFloat (clock (Datatypes.S (ticks s)) - clock (ticks s)).

Definition handle_search (kwargs : pydict) (s : EngineService) : EngineService * M json :=
  match bind_kwargs "handle_search" ["engine"; "query"] true kwargs with
  | Ok ([engine; query], params) =>
      (tick 2 s,
       try_except
         (results ← Registry.search http_get py_repr (registry s) engine query params;
          count ← lift (py_len results);
          ret (JObj [("success", JBool true);
                     ("engine", engine);
                     ("query", query);
                     ("results", results);
                     ("count", JInt count);
                     ("response_time", elapsed s)]))
         (fun e =>
            ret (JObj [("success", JBool false);
                       ("engine", engine);
                       ("query", query);
                       ("error", JStr (exn_msg e));
                       ("response_time", elapsed s)])))
  | Ok _ => (s, raise (mk_exn TypeError (signature_error "handle_search" kwargs)))
  | Raise e => (s, raise e)
  end.

(** [result.get('engine', 'unknown')] as a dictionary key.  [search]
    stamps every result with the engine's name, so the tag is a string. *)
Definition engine_tag (item : json) : result string :=
  match item with
  | JObj d =>
      match dict_get_default "engine" (JStr "unknown") d with
      | JStr s => Ok s
      | _ => Raise (mk_exn TypeError "engine tag is not a string")
      end
  | _ => Raise (mk_exn AttributeError "object has no attribute 'get'")
  end.

(** The grouping loop of [handle_search_all]. *)
Fixpoint group_by_engine (results : list json)
  (results_by_engine : list (string * list json)) : result (list (string * list json)) :=
  match results with
  | [] => Ok results_by_engine
  | r :: rest =>
      match engine_tag r with
      | Raise e => Raise e
      | Ok engine =>
          let group := dict_get_default engine [] results_by_engine in
          group_by_engine rest (dict_set engine (group ++ [r]) results_by_engine)
      end
  end.

Definition groups_json (g : list (string * list json)) : json :=
  JObj (map (fun kv => (fst kv, JArr (snd kv))) g).

Definition handle_search_all (kwargs : pydict) (s : EngineService) : EngineService * M json :=
  match bind_kwargs "handle_search_all" ["query"] true kwargs with
  | Ok ([query], params) =>
      (tick 2 s,
       try_except
         (results ← Registry.search_all http_get py_repr (registry s) query params;
          results_by_engine ← lift (group_by_engine results []);
          ret (JObj [("success", JBool true);
                     ("query", query);
                     ("results", JArr results);
                     ("results_by_engine", groups_json results_by_engine);
                     ("total_count", JInt (Z.of_nat (List.length results)));
                     ("engine_count", JInt (Z.of_nat (List.length results_by_engine)));
                     ("response_time", elapsed s)]))
         (fun e =>
            ret (JObj [("success", JBool false);
                       ("query", query);
                       ("error", JStr (exn_msg e));
                       ("response_time", elapsed s)])))
  | Ok _ => (s, raise (mk_exn TypeError (signature_error "handle_search_all" kwargs)))
  | Raise e => (s, raise e)
  end.

Definition engine_not_found (engine : json) : json :=
  JObj [("success", JBool false);
        ("error", JStr ("Engine '" +:+ Registry.py_str py_repr engine +:+ "' not found"))].

Definition handle_get_engine_info (kwargs : pydict) (s : EngineService) : EngineService * M json :=
  match bind_kwargs "handle_get_engine_info" ["engine"] false kwargs with
  | Ok ([engine], _) =>
      match Registry.get_engine (registry s) engine with
      | Raise e => (s, raise e)
      | Ok None => (s, ret (engine_not_found engine))
      | Ok (Some engine_info) =>
          (s, ret (JObj [("success", JBool true);
                         ("engine", Registry.to_dict engine_info)]))
      end
  | Ok _ => (s, raise (mk_exn TypeError (signature_error "handle_get_engine_info" kwargs)))
  | Raise e => (s, raise e)
  end.

(** [engine_info.enabled = b] on the engine stored under its name. *)
Definition set_engine_enabled (b : bool) (engine_info : Registry.EngineInfo)
  (key : string) (s : EngineService) : EngineService :=
  mk_service
    (Registry.mk_registry
       (Registry.engines_dir (registry s))
       (dict_set key (Registry.set_enabled b engine_info) (Registry.engines (registry s))))
    (ticks s).

Definition toggle_engine (fname : string) (b : bool) (kwargs : pydict)
  (s : EngineService) : EngineService * M json :=
  match bind_kwargs fname ["engine"] false kwargs with
  | Ok ([engine], _) =>
      match engine, Registry.get_engine (registry s) engine with
      | _, Raise e => (s, raise e)
      | JStr key, Ok (Some engine_info) =>
          (set_engine_enabled b engine_info key s,
           ret (JObj [("success", JBool true);
                      ("engine", engine);
                      ("enabled", JBool b)]))
      | _, Ok _ => (s, ret (engine_not_found engine))
      end
  | Ok _ => (s, raise (mk_exn TypeError (signature_error fname kwargs)))
  | Raise e => (s, raise e)
  end.

Definition handle_enable_engine := toggle_engine "handle_enable_engine" true.
Definition handle_disable_engine := toggle_engine "handle_disable_engine" false.

(** The table [__init__] registers. *)
Definition handlers : list (string * Protocol.handler EngineService) :=
  [("ping", handle_ping);
   ("list_engines", handle_list_engines);
   ("search", handle_search);
   ("search_all", handle_search_all);
   ("get_engine_info", handle_get_engine_info);
   ("enable_engine", handle_enable_engine);
   ("disable_engine", handle_disable_engine)].

(** [EngineService(engines_dir)] *)
Definition __init__ (fs : Registry.filesystem) (engines_dir : string) : M EngineService :=
  r ← Registry.__init__ fs engines_dir;
  ret (mk_service r 0).

Variable json_loads : string -> result json.
Variable json_dumps : json -> string.
Variable format_exc : exn -> string.
Variable uuid4 : nat -> string.

Definition protocol_run (stdin : list string) (s : EngineService) (uuids : nat)
  : Protocol.run_state EngineService * M unit :=
  Protocol.run EngineService handlers json_loads json_dumps py_repr format_exc uuid4
               stdin s uuids.

(** [EngineService.run]: two lines on stderr, then the protocol loop. *)
Definition run (stdin : list string) (s : EngineService) (uuids : nat)
  : Protocol.run_state EngineService * M unit :=
  let names := dict_keys (Registry.engines (registry s)) in
  let (final, m) := protocol_run stdin s uuids in
  (final,
   _ ← emit (Stderr ("Engine Service started with "
                     +:+ str_of_Z (Z.of_nat (List.length names)) +:+ " engines"));
   _ ← emit (Stderr ("Available engines: " +:+ join ", " names));
   m).

End Handlers.

End Service.

(** ** [urllib.parse.quote_plus] *)

Module Urllib.
Import Py.

(** The UTF-8 encoding of a character of the range 0..255. *)
Definition utf8 (c : ascii) : list Z :=
  let n := Z.of_nat (code c) in
  if (n <? 128)%Z then [n] else [(192 + n / 64)%Z; (128 + n mod 64)%Z].

(** The bytes that are never quoted: letters, digits, and [_.-~]. *)
Definition always_safe (b : Z) : bool :=
  (((65 <=? b) && (b <=? 90)) || ((97 <=? b) && (b <=? 122))
   || ((48 <=? b) && (b <=? 57))
   || (b =? 95) || (b =? 46) || (b =? 45) || (b =? 126))%Z.

Definition upper_hex_digit (x : Z) : ascii :=
  ascii_of_nat (Z.to_nat (if (x <? 10)%Z then 48 + x else 55 + x)%Z).

Definition quote_byte (b : Z) : list ascii :=
  if always_safe b then [ascii_of_nat (Z.to_nat b)]
  else if (b =? 32)%Z then ["+"%char]
  else ["%"%char; upper_hex_digit (b / 16); upper_hex_digit (b mod 16)].

(** [quote_plus(s)] for a string: a space becomes a plus sign, every
    other byte that is not always safe is written as a percent sign and
    two hexadecimal digits. *)
Definition quote_plus_str (s : string) : string :=
  of_chars (flat_map quote_byte (flat_map utf8 (chars s))).

(** [quote_plus(v)]: only a string can be quoted. *)
Definition quote_plus (v : json) : result string :=
  match v with
  | JStr s => Ok (quote_plus_str s)
  | _ => Raise (mk_exn TypeError "quote_from_bytes() expected bytes")
  end.

End Urllib.

(** ** The MusicBrainz engine ([engines/musicbrainz_adapted.py]) *)

Module Musicbrainz.
Import Py.

Definition about : pydict :=
  [("website", JStr "https://musicbrainz.org");
   ("wikidata_id", JNull);
   ("official_api_documentation", JNull);
   ("use_official_api", JBool false);
   ("require_api_key", JBool false);
   ("results", JStr "HTML")].

Definition categories : list string := ["music"].

Definition base_url : string := "https://musicbrainz.org".

(** [search_url.format(query=q)] *)
Definition search_url (q : string) : string :=
  base_url +:+ "/ws/2/release/?query=" +:+ q +:+ "&fmt=json".

(** [v > 1] *)
Definition gt_one (v : json) : result bool :=
  match v with
  | JInt z => Ok (1 <? z)%Z
  | JBool _ => Ok false
  | JFloat q => Ok (negb (Qle_bool q 1))
  | _ => Raise (mk_exn TypeError "'>' not supported between instances")
  end.

Section Engine.

(** [str(v)] of a document that is not an integer. *)
Variable py_repr : json -> string.

Definition py_str (v : json) : string :=
  match v with JInt z => str_of_Z z | _ => py_repr v end.

(** [request(query, params)]: the parameters, with the address to ask
    under [url]. *)
Definition request (query : json) (params : pydict) : result pydict :=
  match Urllib.quote_plus query with
  | Raise e => Raise e
  | Ok quoted =>
      let params := dict_set "url" (JStr (search_url quoted)) params in
      match gt_one (dict_get_default "pageno" (JInt 1) params) with
      | Raise e => Raise e
      | Ok false => Ok params
      | Ok true =>
          match dict_get "pageno" params with
          | None => Raise (mk_exn OtherException "KeyError: 'pageno'")
          | Some pageno =>
              Ok (dict_set "url"
                    (JStr (search_url quoted +:+ "&page=" +:+ py_str pageno)) params)
          end
      end
  end.

(** [parse_result(item)]: [None] when the item is not a dictionary. *)
Definition parse_result (item : json) : option pydict :=
  match item with
  | JObj d =>
      let result := [("url", dict_get_default "url" (JStr "") d);
                     ("title", dict_get_default "title" (JStr "") d);
                     ("content", dict_get_default "description" (JStr "") d);
                     ("template", JStr "music.html")] in
      let result := match dict_get "artist" d with
                    | Some v => dict_set "artist" v result
                    | None => result
                    end in
      let result := match dict_get "album" d with
                    | Some v => dict_set "album" v result
                    | None => result
                    end in
      let result := match dict_get "duration" d with
                    | Some v => dict_set "duration" v result
                    | None => result
                    end in
      let result := match dict_get "thumbnail" d with
                    | Some v => dict_set "img_src" v result
                    | None => result
                    end in
      Some result
  | _ => None
  end.

(** The loop over the items: what [parse_result] returns is appended,
    unless it is [None]. *)
Fixpoint parse_items (items : list json) : list pydict :=
  match items with
  | [] => []
  | item :: rest =>
      match parse_result item with
      | Some result => result :: parse_items rest
      | None => parse_items rest
      end
  end.

(** [json.loads], and what the second [try] of [response], the parsing
    of the text as HTML, leaves in [results]: dictionaries, none when
    the parsing raises at once. *)
Variable json_loads : string -> result json.
Variable html_results : string -> list pydict.

(** [response(resp)], given [resp.text].  The HTML is only looked at
    when the first [try] raises, and then [results] is still empty. *)
Definition response (text : string) : list pydict :=
  match json_loads text with
  | Raise _ => html_results text
  | Ok (JObj data) =>
      match dict_get "results" data with
      | None => []
      | Some found =>
          match py_iter found with
          | Raise _ => html_results text
          | Ok items => parse_items items
          end
      end
  | Ok _ => []
  end.

Definition text_of (resp : Registry.response_obj) : string :=
  match resp with
  | Registry.Response r => Registry.text r
  | Registry.MinimalResponse => ""
  end.

(** The file as the registry sees it once it is imported. *)
Definition module : Registry.py_module :=
  Registry.mk_module (Some request)
                     (Some (fun resp => Ok (JArr (map JObj (response (text_of resp))))))
                     (Some categories)
                     (Some about).

End Engine.

End Musicbrainz.

(** ** A concrete environment, for evaluating the model *)

Module Sample.
Import Py.

(** The network: no SearXNG instance answers; any other URL is served a
    page with status 200. *)
Definition http_get (req : http_request) : result Registry.http_response :=
  match hr_url req with
  | JStr u =>
      if String.eqb u Registry.searxng_url
      then Raise (mk_exn OtherException "Connection refused")
      else Ok (Registry.mk_http_response 200 (Raise (mk_exn JSONDecodeError "Expecting value"))
                                         "<html></html>" u)
  | _ => Raise (mk_exn OtherException "Invalid URL")
  end.

Definition py_repr (v : json) : string :=
  match v with
  | JNull => "None"
  | JBool true => "True"
  | JBool false => "False"
  | JInt z => str_of_Z z
  | _ => "<object>"
  end.

Definition clock (n : nat) : Q := inject_Z (Z.of_nat n).
Definition uuid4 (n : nat) : string := "uuid-" +:+ str_of_Z (Z.of_nat n).
Definition format_exc (e : exn) : string := "Traceback (most recent call last): " +:+ exn_msg e.
Definition signature_error (fname : string) (kwargs : pydict) : string :=
  fname +:+ "() got unexpected or missing arguments".

Definition quote (s : string) : string := String "034"%char (s +:+ String "034"%char "").

(** A serialiser in the layout of [json.dumps] (no escapes; a float
    that is not a whole number is shown as numerator and denominator). *)
Fixpoint dumps (v : json) : string :=
  match v with
  | JNull => "null"
  | JBool true => "true"
  | JBool false => "false"
  | JInt z => str_of_Z z
  | JFloat q =>
      if Pos.eqb (Qden q) 1 then str_of_Z (Qnum q) +:+ ".0"
      else str_of_Z (Qnum q) +:+ "/" +:+ str_of_Z (Zpos (Qden q))
  | JStr s => quote s
  | JArr l => "[" +:+ join ", " (map dumps l) +:+ "]"
  | JObj d =>
      "{" +:+ join ", " (map (fun kv => let (k, x) := kv : string * json in
                                        quote k +:+ ": " +:+ dumps x) d) +:+ "}"
  end.

(** Engine modules. *)
Definition hit (title : string) : json :=
  JObj [("url", JStr ("http://example.org/" +:+ title)); ("title", JStr title)].

Definition request_with_url (u : string) (query : json) (params : pydict) : result pydict :=
  Ok (dict_set "url" (JStr u) params).

Definition alpha : Registry.py_module :=
  Registry.mk_module
    (Some (request_with_url "http://alpha.example/search"))
    (Some (fun _ => Ok (JArr [hit "a1"; hit "a2"])))
    (Some ["music"]) None.

(** An engine whose [request] raises. *)
Definition beta : Registry.py_module :=
  Registry.mk_module
    (Some (fun _ _ => Raise (mk_exn ValueError "beta cannot build a request")))
    (Some (fun _ => Ok (JArr [hit "b1"])))
    None None.

Definition gamma : Registry.py_module :=
  Registry.mk_module
    (Some (request_with_url "http://gamma.example/q"))
    (Some (fun _ => Ok (JArr [hit "g1"])))
    None None.

(** A file that imports but is no engine: it has no [response]. *)
Definition helper : Registry.py_module :=
  Registry.mk_module (Some (request_with_url "http://x")) None None None.

Definition fs : Registry.filesystem := fun path =>
  if String.eqb path "/srv/engines" then
    Some [Registry.mk_file "alpha.py" (Registry.Loaded alpha);
          Registry.mk_file "beta.py" (Registry.Loaded beta);
          Registry.mk_file "broken.py"
            (Registry.ExecRaises (mk_exn OtherException "invalid syntax"));
          Registry.mk_file "gamma.py" (Registry.Loaded gamma);
          Registry.mk_file "__init__.py" (Registry.Loaded helper);
          Registry.mk_file "README.md" Registry.NoSpec]
  else if String.eqb path "/srv/broken" then
    Some [Registry.mk_file "broken.py"
            (Registry.ExecRaises (mk_exn OtherException "invalid syntax"));
          Registry.mk_file "helper.py" (Registry.Loaded helper)]
  else None.

Definition engines_path : string := "/srv/engines".

(** The registry discovery builds over [engines_path]. *)
Definition registry : Registry.EngineRegistry :=
  match value (Registry.__init__ fs engines_path) with
  | Ok r => r
  | Raise _ => Registry.mk_registry engines_path []
  end.

Definition service : Service.EngineService := Service.mk_service registry 0.

(** The three engines discovery finds there, in the order of the files. *)
Definition alpha_info : Registry.EngineInfo :=
  Registry.mk_engine "alpha" "/srv/engines/alpha.py" ["music"] [] (Some alpha) true.
Definition beta_info : Registry.EngineInfo :=
  Registry.mk_engine "beta" "/srv/engines/beta.py" ["general"] [] (Some beta) true.
Definition gamma_info : Registry.EngineInfo :=
  Registry.mk_engine "gamma" "/srv/engines/gamma.py" ["general"] [] (Some gamma) true.

(** The events of the examples. *)
Definition searxng_get (engine : string) (query : json) : event :=
  HttpGet (mk_http_request (JStr Registry.searxng_url)
             (Registry.search_params (JStr engine) query []) JNull 5).

Definition direct_get (target : string) : event :=
  HttpGet (mk_http_request (JStr target) [] (JObj []) 10).

Definition searxng_down : event :=
  Stderr "SearXNG not available, using direct engine execution: Connection refused".

(** Request documents, and the lines that carry them. *)
Definition newline : string := String "010"%char "".

Definition ping_request : json :=
  JObj [("jsonrpc", JStr "2.0"); ("method", JStr "ping"); ("id", JInt 1)].

(** The request of the repository's [test_notification_request]: no [id]. *)
Definition notification : json :=
  JObj [("jsonrpc", JStr "2.0"); ("method", JStr "list_engines")].

(** The request of the repository's [test_engine_error_handling]. *)
Definition search_missing_engine : json :=
  JObj [("jsonrpc", JStr "2.0");
        ("method", JStr "search");
        ("params", JObj [("engine", JStr "nonexistent_engine");
                         ("query", JStr "test");
                         ("page", JInt 1)]);
        ("id", JInt 8)].

Definition known_requests : list json :=
  [ping_request; notification; search_missing_engine].

Definition line_of (doc : json) : string := dumps doc +:+ newline.

Definition malformed_line : string := "not json" +:+ newline.

(** A decoder for the lines of the examples: it reads back the
    serialisation of each of [known_requests] and finds every other text
    malformed, with the message [json.loads] has for [malformed_line]. *)
Definition loads (s : string) : result json :=
  match List.find (fun doc => String.eqb (dumps doc) s) known_requests with
  | Some doc => Ok doc
  | None => Raise (mk_exn JSONDecodeError "Expecting value: line 1 column 1 (char 0)")
  end.

(** The cache, with the constructor's defaults, on an empty server.  The
    codec of the examples stores a document as it is. *)
Definition cache : Cache.CacheService json :=
  Cache.mk_cache json "redis://localhost:6379/2" 3600 100 (Some (Cache.empty_server json)).

Definition store (v : json) : json := v.
Definition fetch (v : json) : result json := Ok v.
Definition stored_truthy (v : json) : bool := true.

Definition cache_set := Cache.set json store.
Definition cache_get := Cache.get json fetch stored_truthy.

(** A response with 101 results, one more than the cap. *)
Definition long_response : pydict :=
  [("query", JStr "rock"); ("results", JArr (replicate 101 (hit "x")))].

(** The cache after one [set], one [get] that hits and one that misses. *)
Definition used_cache : Cache.CacheService json :=
  let c := fst (cache_set cache 1000 "2024-01-01T00:00:00" "rock"
                          [("results", JArr [hit "x"])] None None None) in
  let c := fst (cache_get c 1001 "rock" None None) in
  fst (cache_get c 1002 "jazz" None None).

(** A glob matcher for the patterns of the examples: a text that ends in
    a star matches the keys that start with the text before the star, any
    other text matches itself only. *)
Definition glob (pattern key : string) : bool :=
  let n := String.length pattern in
  if String.eqb (String.substring (n - 1) 1 pattern) "*"
  then String.prefix (String.substring 0 (n - 1) pattern) key
  else String.eqb pattern key.

Definition cache_invalidate := Cache.invalidate json glob.

(** The cache after two [set]s, for the queries [rock] and [jazz]. *)
Definition filled_cache : Cache.CacheService json :=
  let c := fst (cache_set cache 1000 "2024-01-01T00:00:00" "rock"
                          [("results", JArr [hit "x"])] None None None) in
  fst (cache_set c 1010 "2024-01-01T00:00:10" "jazz"
                 [("results", JArr [hit "y"])] None None None).

(** A decoder that reads back the serialisation of each of [docs] and
    finds every other text malformed. *)
Definition loads_among (docs : list json) (s : string) : result json :=
  match List.find (fun doc => String.eqb (dumps doc) s) docs with
  | Some doc => Ok doc
  | None => Raise (mk_exn JSONDecodeError "Expecting value: line 1 column 1 (char 0)")
  end.

(** The MusicBrainz engine, alone in a registry, with an answer of two
    items: a release, and a text that is no release. *)
Definition release : json :=
  JObj [("url", JStr "https://musicbrainz.org/release/1");
        ("title", JStr "Discovery");
        ("description", JStr "Album by Daft Punk");
        ("artist", JStr "Daft Punk");
        ("thumbnail", JStr "https://coverartarchive.org/release/1/front");
        ("score", JInt 100)].

Definition releases : json := JObj [("results", JArr [release; JStr "noise"])].

Definition no_html (text : string) : list pydict := [].

Definition musicbrainz : Registry.py_module :=
  Musicbrainz.module py_repr (loads_among [releases]) no_html.

Definition musicbrainz_info : Registry.EngineInfo :=
  Registry.mk_engine "musicbrainz_adapted" "/srv/engines/musicbrainz_adapted.py"
                     Musicbrainz.categories Musicbrainz.about (Some musicbrainz) true.

Definition music_registry : Registry.EngineRegistry :=
  Registry.mk_registry engines_path [("musicbrainz_adapted", musicbrainz_info)].

(** A network where no SearXNG instance answers and every other
    address is served the releases, under the status 503. *)
Definition music_http_get (req : http_request) : result Registry.http_response :=
  match hr_url req with
  | JStr u =>
      if String.eqb u Registry.searxng_url
      then Raise (mk_exn OtherException "Connection refused")
      else Ok (Registry.mk_http_response 503 (Ok releases) (dumps releases) u)
  | _ => Raise (mk_exn OtherException "Invalid URL")
  end.

(** The server behind a cache of the examples. *)
Definition server_of (c : Cache.CacheService json) : Cache.server json :=
  default (Cache.empty_server json) (Cache.redis_client json c).

End Sample.

(** ** Notions used to state the properties *)

Module Spec.
Import Py.






(** A response whose [results] entry, when present, is a list. *)
Definition results_listed (results : pydict) : Prop :=
  match dict_get "results" results with
  | None | Some (JArr _) => True
  | Some _ => False
  end.

(** A response with its result list cut to the first [max] entries, and
    marked as truncated when that removes something. *)
Definition capped (max : Z) (results : pydict) : pydict :=
  match dict_get "results" results with
  | Some (JArr l) =>
      if (max <? Z.of_nat (List.length l))%Z
      then dict_set "truncated" (JBool true)
             (dict_set "results" (JArr (take (Z.to_nat max) l)) results)
      else results
  | _ => results
  end.

(** A file that yields no engine: it has no import spec, raises while it
    is imported, or lacks [request] or [response]. *)
Definition malformed (f : Registry.py_file) : Prop :=
  match Registry.file_load f with
  | Registry.NoSpec => True
  | Registry.ExecRaises _ => True
  | Registry.ExecExits _ => False
  | Registry.Loaded m =>
      Registry.attr_request m = None \/ Registry.attr_response m = None
  end.

Section Pipelines.

Variable http_get : http_request -> result Registry.http_response.
Variable py_repr : json -> string.
Variable r : Registry.EngineRegistry.
Variable query : json.
Variable params : pydict.

(** One adapter's pipeline: the call of [search] under the adapter's name. *)
Definition pipeline (engine : Registry.EngineInfo) : M json :=
  Registry.search http_get py_repr r (JStr (Registry.name engine)) query params.

(** What one adapter adds to the merged list: the results of its
    pipeline, nothing when the pipeline raises. *)
Definition contribution (engine : Registry.EngineInfo) : list json :=
  match value (pipeline engine) with
  | Ok results =>
      match py_iter results with
      | Ok items => items
      | Raise _ => []
      end
  | Raise _ => []
  end.

(** The events of one adapter's turn: those of its pipeline, then the
    line on stderr when the pipeline (or the merge of its results) raises. *)
Definition turn_events (engine : Registry.EngineInfo) : list event :=
  events (pipeline engine) ++
  match value (pipeline engine) with
  | Ok results =>
      match py_iter results with
      | Ok _ => []
      | Raise e => [Stderr ("Engine " +:+ Registry.name engine +:+ " failed: " +:+ exn_msg e)]
      end
  | Raise e => [Stderr ("Engine " +:+ Registry.name engine +:+ " failed: " +:+ exn_msg e)]
  end.

(** The adapters run one after another: the log of the whole call is the
    log of the first adapter's complete turn, then that of the second, and
    so on in iteration order. *)
Definition one_after_another (log : list event) : Prop :=
  log = concat (map turn_events (Registry.get_enabled_engines r)).

End Pipelines.

(** A file whose import ends the interpreter, among those discovery
    imports (matched by [*.py], not skipped). *)
Definition exits_on_import (f : Registry.py_file) : bool :=
  Registry.ends_with ".py" (Registry.file_name f)
  && negb (Registry.skipped f)
  && match Registry.file_load f with
     | Registry.ExecExits _ => true
     | _ => false
     end.

(** A file discovery turns into an engine: matched by [*.py], not
    skipped, imported, and with both [request] and [response]. *)
Definition is_engine_file (f : Registry.py_file) : bool :=
  Registry.ends_with ".py" (Registry.file_name f)
  && negb (Registry.skipped f)
  && match Registry.file_load f with
     | Registry.Loaded m =>
         match Registry.attr_request m, Registry.attr_response m with
         | Some _, Some _ => true
         | _, _ => false
         end
     | _ => false
     end.

(** The registry as discovery leaves it: every engine is stored under its
    own name, and no name is stored twice. *)
Definition well_formed (r : Registry.EngineRegistry) : Prop :=
  NoDup (dict_keys (Registry.engines r)) /\
  Forall (fun kv => Registry.name (snd kv) = fst kv) (Registry.engines r).

(** The line a response document puts on stdout. *)
Definition written (json_dumps : json -> string) (doc : pydict) : event :=
  Stdout (json_dumps (JObj doc) +:+ Protocol.line_end).

(** A result that carries the engine tag [name]. *)
Definition tagged_with (name : string) (item : json) : bool :=
  match Service.engine_tag item with
  | Ok tag => String.eqb tag name
  | Raise _ => false
  end.

(** The counter [name] of a cache ([hits], [misses], [sets]), zero when
    the cache is not connected. *)
Definition counter (wire : Type) (name : string) (c : Cache.CacheService wire) : Z :=
  match Cache.redis_client wire c with
  | Some srv => dict_get_default name 0%Z (Cache.redis_hgetall wire "cache:stats" srv)
  | None => 0%Z
  end.


(** How often [query] has been stored, as [popular:queries] records it. *)
Definition popularity (wire : Type) (query : string) (c : Cache.CacheService wire) : Z :=
  match Cache.redis_client wire c with
  | Some srv =>
      dict_get_default query 0%Z
        (dict_get_default "popular:queries" [] (Cache.zsets wire srv))
  | None => 0%Z
  end.

(** The digits of [hexdigest]. *)
Definition is_hex_digit (c : ascii) : bool :=
  let n := code c in
  (((48 <=? n) && (n <=? 57)) || ((97 <=? n) && (n <=? 102)))%nat.

(** A response document: version 2.0, an [id], and exactly one of
    [result] and [error]. *)
Definition envelope (doc : pydict) : Prop :=
  dict_get "jsonrpc" doc = Some (JStr "2.0") /\
  dict_has "id" doc = true /\
  dict_has "result" doc = negb (dict_has "error" doc).

Definition is_stdout (ev : event) : bool :=
  match ev with Stdout _ => true | _ => false end.

(** An event that, if it writes on stdout, writes a response envelope. *)
Definition writes_envelope (json_dumps : json -> string) (ev : event) : Prop :=
  match ev with
  | Stdout text =>
      exists doc, text = json_dumps (JObj doc) +:+ Protocol.line_end /\ envelope doc
  | _ => True
  end.

(** Handlers that write nothing on stdout themselves. *)
Definition quiet_handlers {S : Type} (handlers : list (string * Protocol.handler S)) : Prop :=
  forall name h kwargs st,
    dict_get name handlers = Some h ->
    forallb (fun ev => negb (is_stdout ev)) (events (snd (h kwargs st))) = true.

(** A line the loop can dispatch: not empty, and holding a JSON object
    whose [method] can be looked up in the handler table (it is neither a
    list nor an object). *)
Definition request_line (json_loads : string -> result json) (line : string) : Prop :=
  line <> "" /\
  exists d, json_loads (strip line) = Ok (JObj d) /\
            match dict_get_default "method" (JStr "") d with
            | JArr _ | JObj _ => False
            | _ => True
            end.

(** The handlers of the service as [__init__] registers them: the
    method name, the function behind it, the arguments the function
    requires, and whether it takes further keyword arguments. *)
Definition signatures : list (string * (string * list string * bool)) :=
  [("ping", ("handle_ping", [], false));
   ("list_engines", ("handle_list_engines", [], false));
   ("search", ("handle_search", ["engine"; "query"], true));
   ("search_all", ("handle_search_all", ["query"], true));
   ("get_engine_info", ("handle_get_engine_info", ["engine"], false));
   ("enable_engine", ("handle_enable_engine", ["engine"], false));
   ("disable_engine", ("handle_disable_engine", ["engine"], false))].


(** A result with the engine tag [name]. *)
Definition stamped (name : string) (result : pydict) : json :=
  JObj (dict_set "engine" (JStr name) result).

(** The keys of a result of the MusicBrainz engine. *)
Definition music_keys : list string :=
  ["url"; "title"; "content"; "template"; "artist"; "album"; "duration"; "img_src"].

Definition is_object (v : json) : bool :=
  match v with JObj _ => true | _ => false end.

(** What the MusicBrainz engine makes of one item of the answer: [url]
    and [title] are copied, [description] becomes [content], [thumbnail]
    becomes [img_src], [artist], [album] and [duration] are copied when
    they are there, and nothing else is kept. *)
Definition music_result_of (item : json) (result : pydict) : Prop :=
  exists d,
    item = JObj d /\
    dict_get "url" result = Some (dict_get_default "url" (JStr "") d) /\
    dict_get "title" result = Some (dict_get_default "title" (JStr "") d) /\
    dict_get "content" result = Some (dict_get_default "description" (JStr "") d) /\
    dict_get "template" result = Some (JStr "music.html") /\
    dict_get "artist" result = dict_get "artist" d /\
    dict_get "album" result = dict_get "album" d /\
    dict_get "duration" result = dict_get "duration" d /\
    dict_get "img_src" result = dict_get "thumbnail" d /\
    (forall key, key ∈ dict_keys result -> key ∈ music_keys).

(** The requests a log sends to the network, in order. *)
Definition requests_of (log : list event) : list http_request :=
  flat_map (fun ev => match ev with HttpGet r => [r] | _ => [] end) log.

(** The pattern [invalidate] hands to KEYS: its argument, or the star
    pattern of the cache when there is none or it is empty. *)
Definition used_pattern (pattern : option string) : string :=
  match pattern with
  | Some p => if String.eqb p "" then "search:v1:*" else p
  | None => "search:v1:*"
  end.

End Spec.

(** * Properties *)

Import Py.

(** ** Dictionaries *)

Lemma dict_get_set_eq {V} (k : string) (v : V) d : dict_get k (dict_set k v d) = Some v.
Proof.
  induction d as [|[k' v'] d IH]; simpl.
  - by rewrite String.eqb_refl.
  - destruct (String.eqb k k') eqn:E; simpl; rewrite ?E, ?String.eqb_refl; done.
Qed.

Lemma dict_get_set_ne {V} (k k' : string) (v : V) d :
  k <> k' -> dict_get k' (dict_set k v d) = dict_get k' d.
Proof.
  intros Hne. induction d as [|[k0 v0] d IH]; simpl.
  - destruct (String.eqb k' k) eqn:E; [|done]. apply String.eqb_eq in E. congruence.
  - destruct (String.eqb k k0) eqn:E; simpl.
    + apply String.eqb_eq in E. subst k0.
      destruct (String.eqb k' k) eqn:E'; [|done]. apply String.eqb_eq in E'. congruence.
    + by rewrite IH.
Qed.

(** ** The cache: reading back what was stored *)

Section CacheProperties.

Variable wire : Type.
Variable json_dumps : json -> wire.
Variable json_loads : wire -> result json.
Variable wire_truthy : wire -> bool.

#[local] Abbreviation get := (Cache.get wire json_loads wire_truthy).
#[local] Abbreviation set := (Cache.set wire json_dumps).
#[local] Abbreviation key := Cache._generate_cache_key.

Lemma limit_results_capped max results :
  (0 <= max)%Z -> Spec.results_listed results ->
  Cache.limit_results max results = Ok (Spec.capped max results).
Proof.
  intros Hmax Hl. unfold Cache.limit_results, Spec.capped, Spec.results_listed in *.
  destruct (dict_get "results" results) as [[]|]; try done. simpl.
  destruct (max <? Z.of_nat (length items))%Z eqn:E; [|done].
  unfold Cache.slice_to. simpl.
  destruct (max <? 0)%Z eqn:E'; [lia|done].
Qed.

Hypothesis loads_dumps : forall v, json_loads (json_dumps v) = Ok v.
Hypothesis dumps_truthy : forall v, wire_truthy (json_dumps v) = true.

(** C6 (as amended).  After [set] on a connected cache, with a positive
    time to live and a response whose result list is a list, a [get] of
    the same request before the entry expires returns the stored
    document: the response with its result list cut to the first
    [max_results_per_query] entries (and marked [truncated] when that
    removes something), extended with [cached_at], [cache_ttl] and
    [cache_key]. *)
Theorem get_after_set (c : Cache.CacheService wire) (srv : Cache.server wire)
  (now t : Z) (utcnow query : string) (results : pydict)
  (engines categories : option (list string)) (ttl : option Z) :
  Cache.redis_client wire c = Some srv ->
  (0 <= Cache.max_results_per_query wire c)%Z ->
  Spec.results_listed results ->
  (0 < Cache.effective_ttl wire c ttl)%Z ->
  (t < now + Cache.effective_ttl wire c ttl)%Z ->
  let after := set c now utcnow query results engines categories ttl in
  snd after = true /\
  snd (get (fst after) t query engines categories)
  = Some (JObj (Cache.cache_data
                  (Spec.capped (Cache.max_results_per_query wire c) results)
                  utcnow (Cache.effective_ttl wire c ttl)
                  (key query engines categories))).
Proof.
  intros Hc Hmax Hl Httl Ht. unfold Cache.set. rewrite Hc.
  rewrite (limit_results_capped _ _ Hmax Hl).
  unfold Cache.redis_setex.
  destruct (Cache.effective_ttl wire c ttl <=? 0)%Z eqn:E; [lia|].
  simpl. split; [done|].
  unfold Cache.get. simpl. unfold Cache.redis_get. simpl.
  rewrite dict_get_set_eq.
  destruct (t <? now + Cache.effective_ttl wire c ttl)%Z eqn:E'; [|lia].
  by rewrite dumps_truthy, loads_dumps.
Qed.

End CacheProperties.

(** The round trip on the sample cache, one second before expiry. *)
Lemma get_after_set_witness :
  let after := Sample.cache_set Sample.cache 1000 "2024-01-01T00:00:00" "Rock"
                 [("query", JStr "Rock"); ("results", JArr [Sample.hit "x"])]
                 (Some ["deezer"]) None None in
  snd after = true /\
  snd (Sample.cache_get (fst after) 4599 "Rock" (Some ["deezer"]) None)
  = Some (JObj (Cache.cache_data
                  (Spec.capped 100 [("query", JStr "Rock"); ("results", JArr [Sample.hit "x"])])
                  "2024-01-01T00:00:00" 3600
                  (Cache._generate_cache_key "Rock" (Some ["deezer"]) None))).
Proof.
  apply (get_after_set json Sample.store Sample.fetch Sample.stored_truthy
           (fun v => eq_refl) (fun v => eq_refl)
           Sample.cache (Cache.empty_server json) 1000 4599).
  - reflexivity.
  - discriminate.
  - exact I.
  - reflexivity.
  - reflexivity.
Defined.

(** C6, as stated, fails.  A response with 101 results is cached with
    the default settings; read back a second later, the payload has 100
    results, the mark [truncated], and the three metadata keys: it is not
    the response that was stored. *)
Lemma cached_payload_differs :
  let after := Sample.cache_set Sample.cache 1000 "2024-01-01T00:00:00" "rock"
                 Sample.long_response None None None in
  snd after = true /\
  snd (Sample.cache_get (fst after) 1001 "rock" None None)
  = Some (JObj [("query", JStr "rock");
                ("results", JArr (replicate 100 (Sample.hit "x")));
                ("truncated", JBool true);
                ("cached_at", JStr "2024-01-01T00:00:00");
                ("cache_ttl", JInt 3600);
                ("cache_key", JStr "search:v1:0f2cf30b28afb13e")]) /\
  snd (Sample.cache_get (fst after) 1001 "rock" None None)
  <> Some (JObj Sample.long_response).
Proof.
  split; [reflexivity|]. split; [vm_compute; reflexivity|].
  vm_compute. discriminate.
Qed.

(** ** The cache key *)

Section StringFacts.






End StringFacts.









Lemma sorted_perm (l1 l2 : list string) : l1 ≡ₚ l2 -> sorted l1 = sorted l2.
Proof.
  intros Hp. unfold sorted.
  apply (Sorted_unique String.le); try apply Sorted_merge_sort; try apply _.
  by rewrite !merge_sort_Permutation.
Qed.

Lemma names_str_perm (l1 l2 : list string) :
  l1 ≡ₚ l2 -> Cache.names_str (Some l1) = Cache.names_str (Some l2).
Proof.
  intros Hp. destruct l1 as [|a l1].
  - apply Permutation_nil_l in Hp. by subst.
  - destruct l2 as [|b l2]; [by apply Permutation_nil_r in Hp|].
    unfold Cache.names_str. by rewrite (sorted_perm _ _ Hp).
Qed.

(** *** The characters 0..255 among all characters

    On a query of characters 0..255 the key function for any text
    computes what the key function for strings computes. *)













(** ** The hit rate *)

Section HitRate.
Local Open Scope Q_scope.

Lemma round_half_even_close (q : Q) :
  Qabs (inject_Z (Cache.round_half_even q) - q) <= 1 # 2.
Proof.
  unfold Cache.round_half_even.
  pose proof (Qfloor_le q) as Hlo. pose proof (Qlt_floor q) as Hhi.
  rewrite inject_Z_plus in Hhi. change (inject_Z 1) with 1 in Hhi.
  destruct (Qcompare_spec (q - inject_Z (Qfloor q)) (1 # 2)) as [He|Hl|Hg].
  - destruct (Z.even (Qfloor q)).
    + apply Qabs_case; intros; lra.
    + rewrite inject_Z_plus. change (inject_Z 1) with 1. apply Qabs_case; intros; lra.
  - apply Qabs_case; intros; lra.
  - rewrite inject_Z_plus. change (inject_Z 1) with 1. apply Qabs_case; intros; lra.
Qed.

Lemma round2_close (q : Q) : Qabs (Cache.round2 q - q) <= 1 # 200.
Proof.
  pose proof (round_half_even_close (q * 100)) as H.
  unfold Cache.round2.
  assert (E : Cache.round_half_even (q * 100) # 100
              == inject_Z (Cache.round_half_even (q * 100)) / 100).
  { rewrite Qmake_Qdiv. reflexivity. }
  rewrite E. revert H.
  generalize (inject_Z (Cache.round_half_even (q * 100))). intros z H.
  apply Qabs_Qle_condition in H. apply Qabs_Qle_condition.
  destruct H as [H1 H2]. unfold Qdiv. change (/ 100) with (1 # 100). split; lra.
Qed.

(** Rounding to the nearest integer stays between the integers around. *)
Lemma round_half_even_lower (q : Q) (lo : Z) :
  inject_Z lo - (1 # 2) < q -> (lo <= Cache.round_half_even q)%Z.
Proof.
  intros Hlo. pose proof (round_half_even_close q) as H.
  apply Qabs_Qle_condition in H as [H1 H2].
  set (z := Cache.round_half_even q) in *.
  assert (Ha : inject_Z (lo + -1) < inject_Z z).
  { rewrite inject_Z_plus. change (inject_Z (-1)) with (-1 # 1). lra. }
  rewrite <- Zlt_Qlt in Ha. lia.
Qed.

Lemma round_half_even_upper (q : Q) (hi : Z) :
  q < inject_Z hi + (1 # 2) -> (Cache.round_half_even q <= hi)%Z.
Proof.
  intros Hhi. pose proof (round_half_even_close q) as H.
  apply Qabs_Qle_condition in H as [H1 H2].
  set (z := Cache.round_half_even q) in *.
  assert (Hb : inject_Z z < inject_Z (hi + 1)).
  { rewrite inject_Z_plus. change (inject_Z 1) with 1. lra. }
  rewrite <- Zlt_Qlt in Hb. lia.
Qed.

Lemma pow2_pos (e : Z) : 0 < 2 ^ e.
Proof. by apply Qpower_0_lt. Qed.

(** The binary logarithm of a number below [2 ^ k]. *)
Lemma floor_log2_upper (q : Q) (k : Z) :
  (0 <= k)%Z -> 0 < q -> q < 2 ^ k -> (Cache.floor_log2 q <= k - 1)%Z.
Proof.
  intros Hk Hpos Hlt. unfold Cache.floor_log2.
  destruct q as [n d]. simpl Qnum. simpl Qden.
  assert (Hn : (0 < n)%Z).
  { unfold Qlt in Hpos. simpl in Hpos. lia. }
  set (a := Z.log2 n). set (b := Z.log2 (Z.pos d)).
  assert (Hk0 : (a - b <= k)%Z).
  { assert (Hz : (n < 2 ^ k * Z.pos d)%Z).
    { rewrite <- (Zpower_Qpower 2 k Hk) in Hlt. unfold Qlt in Hlt. simpl in Hlt. lia. }
    destruct (Z.log2_spec n Hn) as [Hn1 _].
    destruct (Z.log2_spec (Z.pos d) (Pos2Z.is_pos d)) as [_ Hd2].
    fold a in Hn1. fold b in Hd2.
    assert (Hab : (2 ^ a < 2 ^ (k + Z.succ b))%Z).
    { rewrite Z.pow_add_r by (unfold b; pose proof (Z.log2_nonneg (Z.pos d)); lia).
      assert (0 < 2 ^ k)%Z by (apply Z.pow_pos_nonneg; lia). nia. }
    apply Z.pow_lt_mono_r_iff in Hab; [lia|lia|].
    unfold b. pose proof (Z.log2_nonneg (Z.pos d)). lia. }
  destruct (Qle_bool (2 ^ (a - b)) (n # d)) eqn:Htest; [|lia].
  apply Qle_bool_iff in Htest.
  assert (Hne : (a - b <> k)%Z).
  { intros E. rewrite E in Htest. lra. }
  lia.
Qed.

Lemma ulp_exp_upper (q : Q) (k : Z) :
  (0 <= k)%Z -> 0 < q -> q < 2 ^ k -> (Cache.ulp_exp q <= k - 53)%Z.
Proof.
  intros Hk Hpos Hlt. unfold Cache.ulp_exp.
  pose proof (floor_log2_upper q k Hk Hpos Hlt). lia.
Qed.

(** A float is within half a unit of its last place of what it rounds. *)
Lemma binary64_pos_close (q : Q) (k : Z) :
  (0 <= k)%Z -> 0 < q -> q < 2 ^ k ->
  0 <= Cache.binary64_pos q /\
  Qabs (Cache.binary64_pos q - q) <= (1 # 2) * 2 ^ (k - 53).
Proof.
  intros Hk Hpos Hlt. unfold Cache.binary64_pos. rewrite Qred_correct.
  pose proof (ulp_exp_upper q k Hk Hpos Hlt) as He.
  set (e := Cache.ulp_exp q) in *.
  pose proof (pow2_pos e) as Hp.
  assert (Hmono : 2 ^ e <= 2 ^ (k - 53)) by (apply Qpower_le_compat_l; [done|lra]).
  assert (Hq : q == q / 2 ^ e * 2 ^ e) by (field; lra).
  pose proof (round_half_even_close (q / 2 ^ e)) as Hclose.
  assert (Hscaled : 0 < q / 2 ^ e).
  { apply Qlt_shift_div_l; lra. }
  assert (Hz : (0 <= Cache.round_half_even (q / 2 ^ e))%Z).
  { apply round_half_even_lower. change (inject_Z 0) with 0. lra. }
  set (z := inject_Z (Cache.round_half_even (q / 2 ^ e))) in *.
  assert (Hz' : 0 <= z).
  { unfold z. change 0 with (inject_Z 0). by rewrite <- Zle_Qle. }
  split.
  - apply Qmult_le_0_compat; lra.
  - apply Qabs_Qle_condition in Hclose as [H1 H2].
    set (w := q / 2 ^ e) in *. apply Qabs_Qle_condition.
    assert (Hd : z * 2 ^ e - q == (z - w) * 2 ^ e) by (rewrite Hq at 1; fold w; ring).
    rewrite Hd. split.
    + assert (- ((1 # 2) * 2 ^ e) <= (z - w) * 2 ^ e) by nra. nra.
    + assert ((z - w) * 2 ^ e <= (1 # 2) * 2 ^ e) by nra. nra.
Qed.

Lemma binary64_close (q : Q) (k : Z) :
  (0 <= k)%Z -> 0 <= q -> q < 2 ^ k ->
  0 <= Cache.binary64 q /\
  Qabs (Cache.binary64 q - q) <= (1 # 2) * 2 ^ (k - 53).
Proof.
  intros Hk Hpos Hlt. unfold Cache.binary64.
  destruct (Qcompare_spec q 0) as [He|Hl|Hg].
  - split; [lra|]. pose proof (pow2_pos (k - 53)).
    apply Qabs_Qle_condition. split; lra.
  - lra.
  - by apply binary64_pos_close.
Qed.

(** The hit rate of [hits] lookups among [total]: a percentage, the
    float nearest to a number of hundredths, and within half a hundredth
    (and the error of three roundings to a float) of the exact
    percentage. *)
Lemma hit_rate_close (hits total : Z) :
  (0 <= hits <= total)%Z -> (0 < total)%Z ->
  let rate := Cache.float_round2
                (Cache.float_mul (Cache.int_truediv hits total) 100) in
  0 <= rate /\ rate <= 100 /\
  Qabs (rate - 100 * (inject_Z hits / inject_Z total))
  <= (1 # 200) + (1 # 35184372088832).
Proof.
  intros Hhits Htotal. unfold Cache.float_round2, Cache.float_mul, Cache.int_truediv.
  set (q := inject_Z hits / inject_Z total).
  assert (Ht : 0 < inject_Z total).
  { change 0 with (inject_Z 0). rewrite <- Zlt_Qlt. lia. }
  assert (Hq : 0 <= q /\ q <= 1).
  { unfold q. split.
    - apply Qle_shift_div_l; [done|]. rewrite Qmult_0_l.
      change 0 with (inject_Z 0). rewrite <- Zle_Qle. lia.
    - apply Qle_shift_div_r; [done|]. rewrite Qmult_1_l. rewrite <- Zle_Qle. lia. }
  destruct Hq as [Hq0 Hq1].
  assert (E52 : (1 # 2) * 2 ^ (1 - 53) == 1 # 9007199254740992) by reflexivity.
  assert (E46 : (1 # 2) * 2 ^ (7 - 53) == 1 # 140737488355328) by reflexivity.
  assert (E1 : 2 ^ 1 == 2) by reflexivity.
  assert (E7 : 2 ^ 7 == 128) by reflexivity.
  destruct (binary64_close q 1) as [Hx1 Hc1]; [lia|done|lra|].
  rewrite E52 in Hc1. apply Qabs_Qle_condition in Hc1 as [Hc1 Hc1'].
  set (x1 := Cache.binary64 q) in *.
  destruct (binary64_close (x1 * 100) 7) as [Hx2 Hc2]; [lia|lra|lra|].
  rewrite E46 in Hc2. apply Qabs_Qle_condition in Hc2 as [Hc2 Hc2'].
  set (x2 := Cache.binary64 (x1 * 100)) in *.
  pose proof (round2_close x2) as Hc3. apply Qabs_Qle_condition in Hc3 as [Hc3 Hc3'].
  assert (Hn0 : (0 <= Cache.round_half_even (x2 * 100))%Z).
  { apply round_half_even_lower. change (inject_Z 0) with 0. lra. }
  assert (Hn1 : (Cache.round_half_even (x2 * 100) <= 10000)%Z).
  { apply round_half_even_upper. change (inject_Z 10000) with 10000. lra. }
  assert (Hd : 0 <= Cache.round2 x2 /\ Cache.round2 x2 <= 100).
  { unfold Cache.round2. unfold Qle. simpl. lia. }
  destruct Hd as [Hd0 Hd1].
  destruct (binary64_close (Cache.round2 x2) 7) as [Hr Hc4]; [lia|done|lra|].
  rewrite E46 in Hc4. apply Qabs_Qle_condition in Hc4 as [Hc4 Hc4'].
  split; [done|]. split.
  - destruct (Z.eq_dec (Cache.round_half_even (x2 * 100)) 10000%Z) as [E|Hne].
    + unfold Cache.round2. rewrite E. by vm_compute.
    + assert (Hd2 : Cache.round2 x2 <= 9999 # 100).
      { unfold Cache.round2. unfold Qle. simpl. lia. }
      lra.
  - apply Qabs_Qle_condition. split; lra.
Qed.

End HitRate.

Section HitRateProperties.

Variable wire : Type.

(** C8 (as amended).  A statistics read on a connected cache reports the
    recorded counters [hits] and [misses], and as [hit_rate] a
    percentage, not a fraction: zero when both counters are zero, and
    otherwise the float nearest to a whole number of hundredths, which
    lies between 0 and 100 and within half a hundredth, and the error of
    the float operations (less than 2^-45), of
    100 * hits / (hits + misses). *)
Theorem stats_hit_rate_is_percentage (c : Cache.CacheService wire)
  (srv : Cache.server wire) (now : Z) :
  Cache.redis_client wire c = Some srv ->
  let stats := Cache.redis_hgetall wire "cache:stats" srv in
  let hits := dict_get_default "hits" 0%Z stats in
  let misses := dict_get_default "misses" 0%Z stats in
  exists rate : Q,
    dict_get "hits" (Cache.get_stats wire c now) = Some (JInt hits) /\
    dict_get "misses" (Cache.get_stats wire c now) = Some (JInt misses) /\
    dict_get "hit_rate" (Cache.get_stats wire c now) = Some (JFloat rate) /\
    ((hits + misses = 0)%Z -> rate = 0%Q) /\
    ((hits + misses <> 0)%Z ->
     exists hundredths : Z, rate = Cache.binary64 (hundredths # 100)) /\
    ((0 <= hits)%Z -> (0 <= misses)%Z -> (hits + misses <> 0)%Z ->
     (0 <= rate)%Q /\ (rate <= 100)%Q /\
     (Qabs (rate - 100 * (inject_Z hits / inject_Z (hits + misses)))
      <= (1 # 200) + (1 # 35184372088832))%Q).
Proof.
  intros Hc stats hits misses.
  exists (Cache._calculate_hit_rate stats).
  unfold Cache.get_stats. rewrite Hc. fold stats.
  split; [reflexivity|]. split; [reflexivity|]. split; [reflexivity|].
  unfold Cache._calculate_hit_rate. fold hits misses.
  split; [|split].
  - intros H. rewrite H. reflexivity.
  - intros H. destruct (hits + misses =? 0)%Z eqn:E; [lia|].
    unfold Cache.float_round2, Cache.round2. by eexists.
  - intros Hh Hm H. destruct (hits + misses =? 0)%Z eqn:E; [lia|].
    apply hit_rate_close; lia.
Qed.

End HitRateProperties.

(** The statistics of the sample cache after one hit and one miss. *)
Lemma stats_hit_rate_is_percentage_witness :
  let stats := Cache.redis_hgetall json "cache:stats"
                 (default (Cache.empty_server json) (Cache.redis_client json Sample.used_cache)) in
  let hits := dict_get_default "hits" 0%Z stats in
  let misses := dict_get_default "misses" 0%Z stats in
  exists rate : Q,
    dict_get "hits" (Cache.get_stats json Sample.used_cache 1003) = Some (JInt hits) /\
    dict_get "misses" (Cache.get_stats json Sample.used_cache 1003) = Some (JInt misses) /\
    dict_get "hit_rate" (Cache.get_stats json Sample.used_cache 1003) = Some (JFloat rate) /\
    ((hits + misses = 0)%Z -> rate = 0%Q) /\
    ((hits + misses <> 0)%Z ->
     exists hundredths : Z, rate = Cache.binary64 (hundredths # 100)) /\
    ((0 <= hits)%Z -> (0 <= misses)%Z -> (hits + misses <> 0)%Z ->
     (0 <= rate)%Q /\ (rate <= 100)%Q /\
     (Qabs (rate - 100 * (inject_Z hits / inject_Z (hits + misses)))
      <= (1 # 200) + (1 # 35184372088832))%Q).
Proof.
  apply (stats_hit_rate_is_percentage json Sample.used_cache). reflexivity.
Defined.

(** C8, as stated, fails.  After one hit and one miss the statistics
    report a hit rate of 50 (a percentage), not hits / (hits + misses),
    which is one half. *)
Lemma hit_rate_is_not_a_fraction :
  dict_get "hits" (Cache.get_stats json Sample.used_cache 1003) = Some (JInt 1) /\
  dict_get "misses" (Cache.get_stats json Sample.used_cache 1003) = Some (JInt 1) /\
  dict_get "hit_rate" (Cache.get_stats json Sample.used_cache 1003)
  = Some (JFloat 50) /\
  ~ (50 == inject_Z 1 / inject_Z (1 + 1))%Q.
Proof.
  split; [reflexivity|]. split; [reflexivity|]. split; [reflexivity|].
  intros H. vm_compute in H. discriminate H.
Qed.

(** [binary64] on a few numbers, against what Python computes: 0.1,
    14.37, 1/3, two integers half way between two floats (the tie goes
    to the even significand), -1/3 and 23/160. *)
Lemma binary64_examples :
  Cache.binary64 (1 # 10) = (3602879701896397 # 36028797018963968) /\
  Cache.binary64 (1437 # 100) = (8089590830664253 # 562949953421312) /\
  Cache.binary64 (1 # 3) = (6004799503160661 # 18014398509481984) /\
  Cache.binary64 (9007199254740993 # 1) = (9007199254740992 # 1) /\
  Cache.binary64 (9007199254740995 # 1) = (9007199254740996 # 1) /\
  Cache.binary64 (-1 # 3) = (-6004799503160661 # 18014398509481984) /\
  Cache.binary64 (23 # 160) = (2589569785738035 # 18014398509481984).
Proof. vm_compute. repeat split. Qed.

(** The rate is computed on floats.  With 23 hits and 137 misses the
    exact percentage is 14.375, which would round to 14.38, but the
    product of the floats is just below it and the rate is the float
    nearest to 14.37.  With 1 hit and 19999 misses the exact percentage
    is 0.005, which would round to 0, but the product is just above it
    and the rate is the float nearest to 0.01. *)
Lemma hit_rate_follows_the_floats :
  Cache._calculate_hit_rate [("hits", 23%Z); ("misses", 137%Z)]
  = Cache.binary64 (1437 # 100) /\
  Cache.round2 (100 * (inject_Z 23 / inject_Z (23 + 137))) = (1438 # 100)%Q /\
  Cache._calculate_hit_rate [("hits", 1%Z); ("misses", 19999%Z)]
  = Cache.binary64 (1 # 100) /\
  Cache.round2 (100 * (inject_Z 1 / inject_Z (1 + 19999))) = (0 # 100)%Q.
Proof. vm_compute. repeat split. Qed.

(** ** [search_all]: merging and order of execution *)

Section RegistryProperties.

Variable http_get : http_request -> result Registry.http_response.
Variable py_repr : json -> string.
Variable r : Registry.EngineRegistry.
Variable query : json.
Variable params : pydict.

#[local] Abbreviation pipeline := (Spec.pipeline http_get py_repr r query params).
#[local] Abbreviation contribution := (Spec.contribution http_get py_repr r query params).
#[local] Abbreviation turn_events := (Spec.turn_events http_get py_repr r query params).
#[local] Abbreviation step := (Registry.search_all_step http_get py_repr r query params).
#[local] Abbreviation loop := (Registry.search_all_loop http_get py_repr r query params).

Lemma search_all_step_spec engine acc :
  step engine acc = (turn_events engine, Ok (acc ++ contribution engine)).
Proof.
  unfold Registry.search_all_step, Spec.turn_events, Spec.contribution, Spec.pipeline.
  destruct (Registry.search http_get py_repr r (JStr (Registry.name engine)) query params)
    as [log [results|e]]; simpl.
  - destruct (py_iter results) as [items|e]; simpl.
    + by rewrite !app_nil_r.
    + by rewrite !app_nil_r.
  - by rewrite app_nil_r.
Qed.

Lemma search_all_loop_spec targets acc :
  loop targets acc
  = (concat (map turn_events targets), Ok (acc ++ concat (map contribution targets))).
Proof.
  revert acc. induction targets as [|engine rest IH]; intros acc; simpl.
  - by rewrite app_nil_r.
  - rewrite search_all_step_spec. simpl. rewrite IH. by rewrite <- app_assoc.
Qed.

End RegistryProperties.

(** C1.  Failure isolation in [search_all]: when the pipeline of one of
    the enabled adapters raises, the call still returns, and the merged
    list is exactly what the adapters before it contributed followed by
    what the adapters after it contributed, in iteration order. *)
Theorem search_all_failure_isolation
  (http_get : http_request -> result Registry.http_response)
  (py_repr : json -> string) (r : Registry.EngineRegistry)
  (query : json) (params : pydict)
  (before after : list Registry.EngineInfo) (failing : Registry.EngineInfo) :
  Registry.get_enabled_engines r = before ++ failing :: after ->
  is_ok (value (Spec.pipeline http_get py_repr r query params failing)) = false ->
  value (Registry.search_all http_get py_repr r query params)
  = Ok (concat (map (Spec.contribution http_get py_repr r query params) before)
        ++ concat (map (Spec.contribution http_get py_repr r query params) after)).
Proof.
  intros Htargets Hfail. unfold Registry.search_all.
  rewrite search_all_loop_spec, Htargets. simpl. f_equal.
  rewrite map_app, concat_app. simpl. f_equal.
  unfold Spec.contribution at 1.
  destruct (value (Spec.pipeline http_get py_repr r query params failing)); [done|done].
Qed.

(** Three adapters, of which [beta] raises while it builds its request. *)
Lemma search_all_failure_isolation_witness :
  value (Registry.search_all Sample.http_get Sample.py_repr Sample.registry (JStr "rock") [])
  = Ok (concat (map (Spec.contribution Sample.http_get Sample.py_repr Sample.registry
                       (JStr "rock") [])
                    [Sample.alpha_info])
        ++ concat (map (Spec.contribution Sample.http_get Sample.py_repr Sample.registry
                          (JStr "rock") [])
                       [Sample.gamma_info])).
Proof.
  apply (search_all_failure_isolation _ _ _ _ _ _ _ Sample.beta_info); reflexivity.
Defined.

(** C9 (as amended).  Within one [search_all] call the adapters'
    pipelines run one after another, in iteration order: the log of the
    call is the log of each adapter's complete turn, one turn after the
    other. *)
Theorem search_all_sequential
  (http_get : http_request -> result Registry.http_response)
  (py_repr : json -> string) (r : Registry.EngineRegistry)
  (query : json) (params : pydict) :
  Spec.one_after_another http_get py_repr r query params
    (events (Registry.search_all http_get py_repr r query params)).
Proof.
  unfold Spec.one_after_another, Registry.search_all.
  by rewrite search_all_loop_spec.
Qed.

(** C9, as stated, fails.  With three enabled adapters the log of one
    [search_all] call is the first adapter's whole pipeline, then the
    second's, then the third's: no request of a later adapter is issued
    before the pipeline of an earlier one has finished (here: [beta] is
    asked only after [alpha]'s direct fetch, [gamma] only after [beta] has
    failed and the failure has been printed). *)
Lemma search_all_not_concurrent :
  Registry.get_enabled_engines Sample.registry
  = [Sample.alpha_info; Sample.beta_info; Sample.gamma_info] /\
  events (Registry.search_all Sample.http_get Sample.py_repr Sample.registry (JStr "rock") [])
  = [Sample.searxng_get "alpha" (JStr "rock"); Sample.searxng_down;
     Sample.direct_get "http://alpha.example/search"]
    ++ [Sample.searxng_get "beta" (JStr "rock"); Sample.searxng_down;
        Stderr "Engine beta failed: beta cannot build a request"]
    ++ [Sample.searxng_get "gamma" (JStr "rock"); Sample.searxng_down;
        Sample.direct_get "http://gamma.example/q"] /\
  Spec.one_after_another Sample.http_get Sample.py_repr Sample.registry (JStr "rock") []
    (events (Registry.search_all Sample.http_get Sample.py_repr Sample.registry
               (JStr "rock") [])).
Proof. repeat split; reflexivity. Qed.

(** ** Discovery *)

Lemma discover_loop_malformed dir files acc :
  Forall Spec.malformed files ->
  value (Registry.discover_loop dir files acc) = Ok acc.
Proof.
  intros H. revert acc. induction H as [|f files Hf _ IH]; intros acc; simpl; [done|].
  destruct (Registry.skipped f); [apply IH|].
  unfold Spec.malformed in Hf. unfold Registry._load_engine_info.
  destruct (Registry.file_load f) as [|e|e|m]; simpl.
  - destruct (Registry.discover_loop dir files acc) as [log v] eqn:E.
    specialize (IH acc). rewrite E in IH. simpl in *. done.
  - destruct (Registry.discover_loop dir files acc) as [log v] eqn:E.
    specialize (IH acc). rewrite E in IH. simpl in *. done.
  - done.
  - assert (Hnone : match Registry.attr_request m, Registry.attr_response m with
                    | Some _, Some _ => false | _, _ => true end = true).
    { destruct Hf as [-> | ->]; [done|]. by destruct (Registry.attr_request m). }
    destruct (Registry.attr_request m), (Registry.attr_response m); try done; simpl;
      destruct (Registry.discover_loop dir files acc) as [log v] eqn:E;
      specialize (IH acc); rewrite E in IH; simpl in *; done.
Qed.

(** C10.  Building a registry over a directory that does not exist
    raises (discovery stops before it scans anything), while a directory
    in which every file is malformed gives an empty registry. *)
Theorem missing_directory_raises (fs : Registry.filesystem)
  (missing broken : string) (entries : list Registry.py_file) :
  fs missing = None ->
  fs broken = Some entries ->
  Forall Spec.malformed entries ->
  Registry.__init__ fs missing
  = ([], Raise (mk_exn ValueError ("Engines directory not found: " +:+ missing))) /\
  value (Registry.__init__ fs broken) = Ok (Registry.mk_registry broken []).
Proof.
  intros Hmissing Hbroken Hbad. split.
  - unfold Registry.__init__, Registry._discover_engines. by rewrite Hmissing.
  - unfold Registry.__init__, Registry._discover_engines. rewrite Hbroken.
    assert (Hglob : Forall Spec.malformed (Registry.glob_py entries)).
    { apply Forall_forall. intros f Hf. apply list_elem_of_In in Hf.
      apply filter_In in Hf as [Hf _]. apply list_elem_of_In in Hf.
      revert f Hf. by apply Forall_forall. }
    pose proof (discover_loop_malformed broken _ [] Hglob) as H.
    destruct (Registry.discover_loop broken (Registry.glob_py entries) []) as [log v].
    simpl in *. by subst.
Qed.

(** A missing directory, and one that holds two files that are no engines. *)
Lemma missing_directory_raises_witness :
  Registry.__init__ Sample.fs "/nowhere"
  = ([], Raise (mk_exn ValueError "Engines directory not found: /nowhere")) /\
  value (Registry.__init__ Sample.fs "/srv/broken") = Ok (Registry.mk_registry "/srv/broken" []).
Proof.
  apply (missing_directory_raises Sample.fs "/nowhere" "/srv/broken"
           [Registry.mk_file "broken.py"
              (Registry.ExecRaises (mk_exn OtherException "invalid syntax"));
            Registry.mk_file "helper.py" (Registry.Loaded Sample.helper)]).
  - reflexivity.
  - reflexivity.
  - constructor; [exact I|]. constructor; [right; reflexivity | constructor].
Defined.

(** ** The protocol loop *)

Section ProtocolProperties.

Variable S : Type.
Variable handlers : list (string * Protocol.handler S).
Variable json_loads : string -> result json.
Variable json_dumps : json -> string.
Variable py_repr : json -> string.
Variable format_exc : exn -> string.
Variable uuid4 : nat -> string.

#[local] Abbreviation run :=
  (Protocol.run S handlers json_loads json_dumps py_repr format_exc uuid4).

#[local] Abbreviation written := (Spec.written json_dumps).

(** C3, on the code.  A line of malformed JSON makes the loop write the
    Parse-Error response (code -32700, [id] null) without calling any
    handler and without touching the state; the loop then stops, and the
    lines after the malformed one are never read. *)
Theorem parse_error_ends_loop (line : string) (rest : list string) (st : S)
  (uuids : nat) (e : exn) :
  line <> "" ->
  json_loads (strip line) = Raise e ->
  exn_kind e = JSONDecodeError ->
  run (line :: rest) st uuids
  = (Protocol.mk_run S st uuids rest,
     ([written [("jsonrpc", JStr "2.0");
                ("id", JNull);
                ("error", JObj [("code", JInt (-32700));
                                ("message", JStr "Parse error");
                                ("data", JStr (exn_msg e))])]],
      Ok tt)).
Proof.
  intros Hline Hloads Hkind. simpl. unfold Protocol.read_request.
  destruct (String.eqb line "") eqn:E; [by apply String.eqb_eq in E|].
  rewrite Hloads, Hkind. reflexivity.
Qed.

(** C4, on the code.  A request whose [id] is null (or absent) is given
    a fresh identifier when it is decoded; its handler runs, and the loop
    writes a response that carries the fresh identifier. *)
Theorem notification_is_answered (line : string) (st st' : S) (uuids : nat)
  (d kwargs : pydict) (name : string) (h : Protocol.handler S)
  (log : list event) (result : json) :
  line <> "" ->
  json_loads (strip line) = Ok (JObj d) ->
  dict_get_default "id" JNull d = JNull ->
  dict_get_default "method" (JStr "") d = JStr name ->
  py_or (dict_get_default "params" (JObj []) d) (JObj []) = JObj kwargs ->
  dict_get name handlers = Some h ->
  h kwargs st = (st', (log, Ok result)) ->
  run [line] st uuids
  = (Protocol.mk_run S st' (Datatypes.S uuids) [],
     (Call name kwargs :: log
      ++ [written [("jsonrpc", JStr "2.0");
                   ("id", JStr (uuid4 uuids));
                   ("result", result)]],
      Ok tt)).
Proof.
  intros Hline Hloads Hid Hmethod Hparams Hh Hcall. simpl.
  unfold Protocol.read_request.
  destruct (String.eqb line "") eqn:E; [by apply String.eqb_eq in E|].
  rewrite Hloads. unfold Protocol.from_dict, Protocol.new_request.
  rewrite Hid, Hmethod, Hparams. simpl.
  unfold Protocol.handle_request. simpl. rewrite Hh.
  unfold Protocol.call_handler. rewrite Hcall. simpl.
  by rewrite !app_nil_r.
Qed.

End ProtocolProperties.

(** A malformed line followed by a [ping] request: the request stays unread. *)
Lemma parse_error_ends_loop_witness :
  Protocol.run Service.EngineService
    (Service.handlers Sample.http_get Sample.py_repr Sample.clock Sample.signature_error)
    Sample.loads Sample.dumps Sample.py_repr Sample.format_exc Sample.uuid4
    [Sample.malformed_line; Sample.line_of Sample.ping_request] Sample.service 0
  = (Protocol.mk_run Service.EngineService Sample.service 0
       [Sample.line_of Sample.ping_request],
     ([Spec.written Sample.dumps
         [("jsonrpc", JStr "2.0");
          ("id", JNull);
          ("error", JObj [("code", JInt (-32700));
                          ("message", JStr "Parse error");
                          ("data", JStr "Expecting value: line 1 column 1 (char 0)")])]],
      Ok tt)).
Proof.
  apply (parse_error_ends_loop Service.EngineService _ Sample.loads Sample.dumps
           Sample.py_repr Sample.format_exc Sample.uuid4 Sample.malformed_line
           [Sample.line_of Sample.ping_request] Sample.service 0
           (mk_exn JSONDecodeError "Expecting value: line 1 column 1 (char 0)")).
  - discriminate.
  - reflexivity.
  - reflexivity.
Defined.

(** The request of [test_notification_request] is answered under a fresh identifier. *)
Lemma notification_is_answered_witness :
  Protocol.run Service.EngineService
    (Service.handlers Sample.http_get Sample.py_repr Sample.clock Sample.signature_error)
    Sample.loads Sample.dumps Sample.py_repr Sample.format_exc Sample.uuid4
    [Sample.line_of Sample.notification] Sample.service 0
  = (Protocol.mk_run Service.EngineService Sample.service 1 [],
     (Call "list_engines" [] :: []
      ++ [Spec.written Sample.dumps
            [("jsonrpc", JStr "2.0");
             ("id", JStr (Sample.uuid4 0));
             ("result", JArr (Registry.list_engines Sample.registry))]],
      Ok tt)).
Proof.
  apply (notification_is_answered Service.EngineService _ Sample.loads Sample.dumps
           Sample.py_repr Sample.format_exc Sample.uuid4
           (Sample.line_of Sample.notification) Sample.service Sample.service 0
           [("jsonrpc", JStr "2.0"); ("method", JStr "list_engines")] []
           "list_engines"
           (Service.handle_list_engines Sample.signature_error)).
  - discriminate.
  - reflexivity.
  - reflexivity.
  - reflexivity.
  - reflexivity.
  - reflexivity.
  - reflexivity.
Defined.

(** ** The handlers *)

Section ServiceProperties.

Variable http_get : http_request -> result Registry.http_response.
Variable py_repr : json -> string.
Variable clock : nat -> Q.
Variable signature_error : string -> pydict -> string.
Variable format_exc : exn -> string.

#[local] Abbreviation handlers := (Service.handlers http_get py_repr clock signature_error).
#[local] Abbreviation bind_kwargs := (Service.bind_kwargs signature_error).
#[local] Abbreviation handle_request :=
  (Protocol.handle_request Service.EngineService handlers py_repr format_exc).

(** C5, on the code.  A [search] request that names an engine absent
    from the registry is answered with a success envelope: the response
    has no [error] member, and its [result] is a document with
    [success = false] and the text of the exception. *)
Theorem unknown_engine_success_envelope (s : Service.EngineService)
  (kwargs params : pydict) (name : string) (query id : json) :
  bind_kwargs "handle_search" ["engine"; "query"] true kwargs
  = Ok ([JStr name; query], params) ->
  dict_get name (Registry.engines (Service.registry s)) = None ->
  handle_request (Protocol.mk_request "2.0" (JStr "search") (JObj kwargs) id) s
  = (Service.tick 2 s,
     ([Call "search" kwargs],
      Ok (Protocol.success
            (JObj [("success", JBool false);
                   ("engine", JStr name);
                   ("query", query);
                   ("error", JStr ("Engine '" +:+ name +:+ "' not found or disabled"));
                   ("response_time", Service.elapsed clock s)])
            id))).
Proof.
  intros Hbind Hnone. unfold Protocol.handle_request. simpl.
  unfold Protocol.call_handler, Service.handle_search. rewrite Hbind.
  unfold Registry.search. simpl. rewrite Hnone. reflexivity.
Qed.

End ServiceProperties.

(** The request of [test_engine_error_handling]. *)
Lemma unknown_engine_success_envelope_witness :
  Protocol.handle_request Service.EngineService
    (Service.handlers Sample.http_get Sample.py_repr Sample.clock Sample.signature_error)
    Sample.py_repr Sample.format_exc
    (Protocol.mk_request "2.0" (JStr "search")
       (JObj [("engine", JStr "nonexistent_engine"); ("query", JStr "test"); ("page", JInt 1)])
       (JInt 8))
    Sample.service
  = (Service.tick 2 Sample.service,
     ([Call "search"
         [("engine", JStr "nonexistent_engine"); ("query", JStr "test"); ("page", JInt 1)]],
      Ok (Protocol.success
            (JObj [("success", JBool false);
                   ("engine", JStr "nonexistent_engine");
                   ("query", JStr "test");
                   ("error", JStr "Engine 'nonexistent_engine' not found or disabled");
                   ("response_time", Service.elapsed Sample.clock Sample.service)])
            (JInt 8)))).
Proof.
  apply (unknown_engine_success_envelope Sample.http_get Sample.py_repr Sample.clock
           Sample.signature_error Sample.format_exc Sample.service _ [("page", JInt 1)]);
    reflexivity.
Defined.

(** ** The response of [search_all] *)

Section Tags.

Variable http_get : http_request -> result Registry.http_response.
Variable py_repr : json -> string.

Lemma stamp_each_tagged name items items' :
  Registry.stamp_each (JStr name) items = Ok items' ->
  Forall (fun item => Service.engine_tag item = Ok name) items'.
Proof.
  revert items'. induction items as [|x rest IH]; intros items' H; simpl in H.
  - by inversion H.
  - destruct x; simpl in H; try discriminate.
    destruct (Registry.stamp_each (JStr name) rest) as [rest'|e]; [|discriminate].
    inversion H; subst. constructor; [|by apply IH].
    unfold Service.engine_tag, dict_get_default. by rewrite dict_get_set_eq.
Qed.

Lemma stamp_results_tagged name results stamped items :
  Registry.stamp_results (JStr name) results = Ok stamped ->
  py_iter stamped = Ok items ->
  Forall (fun item => Service.engine_tag item = Ok name) items.
Proof.
  intros Hstamp Hiter. destruct results; simpl in Hstamp; try discriminate.
  - destruct (chars s) as [|c cs] eqn:E; simpl in Hstamp; [|discriminate].
    inversion Hstamp; subst. simpl in Hiter. rewrite E in Hiter.
    inversion Hiter. constructor.
  - destruct (Registry.stamp_each (JStr name) items0) as [l'|e] eqn:E; [|discriminate].
    inversion Hstamp; subst. simpl in Hiter. inversion Hiter; subst.
    by apply (stamp_each_tagged _ _ _ E).
  - destruct fields as [|[k v] rest]; simpl in Hstamp; [|discriminate].
    inversion Hstamp; subst. simpl in Hiter. inversion Hiter. constructor.
Qed.

Lemma searxng_fetch_tagged name query params results items :
  value (Registry.searxng_fetch http_get (JStr name) query params) = Ok results ->
  py_iter results = Ok items ->
  Forall (fun item => Service.engine_tag item = Ok name) items.
Proof.
  unfold Registry.searxng_fetch, Registry.requests_get. simpl.
  destruct (http_get _) as [resp|e]; simpl; [|discriminate].
  destruct (Registry.raise_for_status resp); simpl; [|discriminate].
  destruct (Registry.body_json resp) as [data|e]; simpl; [|discriminate].
  destruct data; simpl; try discriminate.
  destruct (Registry.stamp_results (JStr name) _) as [v|e] eqn:E; simpl; [|discriminate].
  intros H; inversion H; subst. by apply (stamp_results_tagged _ _ _ _ E).
Qed.

Lemma direct_execution_tagged m name query params results items :
  value (Registry.direct_execution http_get m (JStr name) query params) = Ok results ->
  py_iter results = Ok items ->
  Forall (fun item => Service.engine_tag item = Ok name) items.
Proof.
  unfold Registry.direct_execution. simpl.
  destruct (Registry.call_request m query _) as [request_result|e]; simpl; [|discriminate].
  destruct (dict_get "url" request_result) as [target|].
  - unfold Registry.requests_get. simpl.
    destruct (http_get _) as [resp|e]; simpl.
    + destruct (Registry.call_response m (Registry.Response resp)) as [v|e]; simpl.
      * destruct (Registry.stamp_results (JStr name) v) as [v'|e] eqn:E; simpl.
        -- intros H; inversion H; subst. by apply (stamp_results_tagged _ _ _ _ E).
        -- intros H; inversion H; subst. intros H'; inversion H'. constructor.
      * intros H; inversion H; subst. intros H'; inversion H'. constructor.
    + intros H; inversion H; subst. intros H'; inversion H'. constructor.
  - destruct (Registry.call_response m Registry.MinimalResponse) as [v|e]; simpl; [|discriminate].
    destruct (Registry.stamp_results (JStr name) v) as [v'|e] eqn:E; simpl; [|discriminate].
    intros H; inversion H; subst. by apply (stamp_results_tagged _ _ _ _ E).
Qed.

Lemma search_tagged r name query params results items :
  value (Registry.search http_get py_repr r (JStr name) query params) = Ok results ->
  py_iter results = Ok items ->
  Forall (fun item => Service.engine_tag item = Ok name) items.
Proof.
  unfold Registry.search. simpl.
  destruct (dict_get name (Registry.engines r)) as [engine|]; simpl; [|discriminate].
  destruct (Registry.enabled engine); simpl; [|discriminate].
  destruct (Registry.module engine) as [m|]; simpl; [|discriminate].
  destruct (Registry.searxng_fetch http_get (JStr name) query params) as [log [v|e]] eqn:E;
    simpl.
  - intros H; inversion H; subst. apply (searxng_fetch_tagged name query params).
    by rewrite E.
  - destruct (Registry.direct_execution http_get m (JStr name) query params)
      as [log' v'] eqn:E'. simpl. intros H. apply (direct_execution_tagged m name query params).
    by rewrite E'.
Qed.

Lemma contribution_tagged r query params engine :
  Forall (fun item => Service.engine_tag item = Ok (Registry.name engine))
         (Spec.contribution http_get py_repr r query params engine).
Proof.
  unfold Spec.contribution, Spec.pipeline.
  destruct (value (Registry.search http_get py_repr r (JStr (Registry.name engine)) query params))
    as [results|e] eqn:E; [|constructor].
  destruct (py_iter results) as [items|e] eqn:E'; [|constructor].
  by apply (search_tagged _ _ _ _ _ _ E E').
Qed.

End Tags.

Lemma group_by_engine_spec results :
  Forall (fun item => exists tag, Service.engine_tag item = Ok tag) results ->
  forall acc, exists groups,
    Service.group_by_engine results acc = Ok groups /\
    forall name,
      dict_get name groups
      = match dict_get name acc, List.filter (Spec.tagged_with name) results with
        | None, [] => None
        | old, items => Some (default [] old ++ items)
        end.
Proof.
  induction 1 as [|item rest [tag Htag] _ IH]; intros acc;
    cbn [Service.group_by_engine List.filter].
  - exists acc. split; [done|]. intros name.
    destruct (dict_get name acc); simpl; by rewrite ?app_nil_r.
  - rewrite Htag.
    destruct (IH (dict_set tag (dict_get_default tag [] acc ++ [item]) acc))
      as (groups & Hgroups & Hspec).
    exists groups. split; [done|]. intros name. rewrite Hspec.
    assert (Ht : Spec.tagged_with name item = String.eqb tag name).
    { unfold Spec.tagged_with. by rewrite Htag. }
    rewrite Ht. clear Ht.
    destruct (String.eqb tag name) eqn:E.
    + apply String.eqb_eq in E. subst tag. rewrite dict_get_set_eq.
      unfold dict_get_default. simpl.
      destruct (dict_get name acc); simpl; [by rewrite <- app_assoc | done].
    + rewrite dict_get_set_ne; [done|]. intros ->. by rewrite String.eqb_refl in E.
Qed.

Section SearchAllResponse.

Variable http_get : http_request -> result Registry.http_response.
Variable py_repr : json -> string.
Variable clock : nat -> Q.
Variable signature_error : string -> pydict -> string.

#[local] Abbreviation search_all := (Registry.search_all http_get py_repr).
#[local] Abbreviation handle_search_all :=
  (Service.handle_search_all http_get py_repr clock signature_error).
#[local] Abbreviation contribution := (Spec.contribution http_get py_repr).

Lemma search_all_tagged r query params results :
  value (search_all r query params) = Ok results ->
  Forall (fun item => exists engine,
            engine ∈ Registry.get_enabled_engines r /\
            item ∈ contribution r query params engine /\
            Service.engine_tag item = Ok (Registry.name engine))
         results.
Proof.
  unfold Registry.search_all. rewrite search_all_loop_spec. simpl.
  intros H; inversion H; subst. clear H.
  apply Forall_forall. intros item Hitem.
  apply list_elem_of_In, in_concat in Hitem as (items & Hitems & Hin).
  apply in_map_iff in Hitems as (engine & <- & Hengine).
  exists engine. apply list_elem_of_In in Hengine, Hin. split; [done|]. split; [done|].
  pose proof (contribution_tagged http_get py_repr r query params engine) as Htag.
  rewrite Forall_forall in Htag. by apply Htag.
Qed.

(** C2 (as amended).  The response of [search_all] has the fields
    [success], [query], [results], [results_by_engine], [total_count],
    [engine_count] and [response_time], and no other.  [results] is the
    merged list and [total_count] its length.  [results_by_engine] has an
    entry exactly for each engine name that tags a merged result (the
    results with that tag, in order): every entry belongs to an enabled
    adapter that contributed a result, so an adapter that failed or
    found nothing has none.  No status, error text or elapsed time per
    adapter is reported. *)
Theorem search_all_response_fields (s : Service.EngineService)
  (kwargs params : pydict) (query : json) :
  Service.bind_kwargs signature_error "handle_search_all" ["query"] true kwargs
  = Ok ([query], params) ->
  exists results groups,
    value (search_all (Service.registry s) query params) = Ok results /\
    value (snd (handle_search_all kwargs s))
    = Ok (JObj [("success", JBool true);
                ("query", query);
                ("results", JArr results);
                ("results_by_engine", Service.groups_json groups);
                ("total_count", JInt (Z.of_nat (List.length results)));
                ("engine_count", JInt (Z.of_nat (List.length groups)));
                ("response_time", Service.elapsed clock s)]) /\
    (forall name,
        dict_get name groups
        = match List.filter (Spec.tagged_with name) results with
          | [] => None
          | items => Some items
          end) /\
    (forall name,
        dict_has name groups = true ->
        exists engine,
          engine ∈ Registry.get_enabled_engines (Service.registry s) /\
          Registry.name engine = name /\
          contribution (Service.registry s) query params engine <> []).
Proof.
  intros Hbind.
  destruct (search_all (Service.registry s) query params) as [log v] eqn:Hall.
  assert (Hv : exists results, v = Ok results).
  { unfold Registry.search_all in Hall. rewrite search_all_loop_spec in Hall.
    inversion Hall. eauto. }
  destruct Hv as [results ->].
  pose proof (search_all_tagged (Service.registry s) query params results) as Htagged.
  rewrite Hall in Htagged. specialize (Htagged eq_refl).
  destruct (group_by_engine_spec results) with (acc := @nil (string * list json))
    as (groups & Hgroups & Hspec).
  { eapply Forall_impl; [exact Htagged|]. intros item (engine & _ & _ & H). eauto. }
  exists results, groups. split; [done|]. split; [|split].
  - unfold Service.handle_search_all. rewrite Hbind. simpl. rewrite Hall. simpl.
    rewrite Hgroups. simpl. reflexivity.
  - intros name. rewrite Hspec. simpl. by destruct (List.filter _ results).
  - intros name Hhas. unfold dict_has in Hhas. rewrite Hspec in Hhas. simpl in Hhas.
    destruct (List.filter (Spec.tagged_with name) results) as [|item rest] eqn:E; [done|].
    assert (Hin : In item (List.filter (Spec.tagged_with name) results)).
    { rewrite E. by left. }
    apply filter_In in Hin as [Hin Htag].
    rewrite Forall_forall in Htagged. apply list_elem_of_In in Hin.
    destruct (Htagged item Hin) as (engine & Hengine & Hcontrib & Hname).
    exists engine. split; [done|]. split.
    + unfold Spec.tagged_with in Htag. rewrite Hname in Htag. by apply String.eqb_eq in Htag.
    + intros Hnil. rewrite Hnil in Hcontrib. by apply elem_of_nil in Hcontrib.
Qed.

End SearchAllResponse.

(** The response of [search_all] over the sample registry. *)
Lemma search_all_response_fields_witness :
  exists results groups,
    value (Registry.search_all Sample.http_get Sample.py_repr
             (Service.registry Sample.service) (JStr "rock") []) = Ok results /\
    value (snd (Service.handle_search_all Sample.http_get Sample.py_repr Sample.clock
                  Sample.signature_error [("query", JStr "rock")] Sample.service))
    = Ok (JObj [("success", JBool true);
                ("query", JStr "rock");
                ("results", JArr results);
                ("results_by_engine", Service.groups_json groups);
                ("total_count", JInt (Z.of_nat (List.length results)));
                ("engine_count", JInt (Z.of_nat (List.length groups)));
                ("response_time", Service.elapsed Sample.clock Sample.service)]) /\
    (forall name,
        dict_get name groups
        = match List.filter (Spec.tagged_with name) results with
          | [] => None
          | items => Some items
          end) /\
    (forall name,
        dict_has name groups = true ->
        exists engine,
          engine ∈ Registry.get_enabled_engines (Service.registry Sample.service) /\
          Registry.name engine = name /\
          Spec.contribution Sample.http_get Sample.py_repr (Service.registry Sample.service)
            (JStr "rock") [] engine <> []).
Proof.
  apply (search_all_response_fields Sample.http_get Sample.py_repr Sample.clock
           Sample.signature_error Sample.service [("query", JStr "rock")] [] (JStr "rock")).
  reflexivity.
Defined.

(** C2, as stated, fails.  Three adapters are searched and [beta] fails.
    The response has seven fields; the only one that is a map from engine
    names is [results_by_engine], and it has no entry for [beta]: no field
    of the response holds an entry for every target adapter. *)
Lemma search_all_reports_no_status :
  exists d,
    value (snd (Service.handle_search_all Sample.http_get Sample.py_repr Sample.clock
                  Sample.signature_error [("query", JStr "rock")] Sample.service))
    = Ok (JObj d) /\
    dict_keys d = ["success"; "query"; "results"; "results_by_engine";
                   "total_count"; "engine_count"; "response_time"] /\
    Registry.get_enabled_engines (Service.registry Sample.service)
    = [Sample.alpha_info; Sample.beta_info; Sample.gamma_info] /\
    ~ exists key status,
        dict_get key d = Some (JObj status) /\
        Forall (fun engine => dict_has (Registry.name engine) status = true)
               (Registry.get_enabled_engines (Service.registry Sample.service)).
Proof.
  eexists. split; [vm_compute; reflexivity|]. split; [reflexivity|]. split; [reflexivity|].
  intros (key & status & Hget & Hall).
  apply Forall_cons in Hall as [_ Hall]. apply Forall_cons in Hall as [Hbeta _].
  simpl in Hbeta.
  unfold dict_get in Hget.
  repeat match type of Hget with
         | (if ?b then _ else _) = _ => destruct b; [try discriminate Hget|]
         end; try discriminate Hget.
  inversion Hget; subst status. vm_compute in Hbeta. discriminate Hbeta.
Qed.

(** ** Further properties of the cache *)

Section CacheDegradation.

Variable wire : Type.
Variable json_dumps : json -> wire.
Variable json_loads : wire -> result json.
Variable wire_truthy : wire -> bool.

(** Without a connection the cache is switched off: every [get] is a
    miss, every [set] does nothing and says so, and the statistics only
    report the missing connection. *)
Theorem disconnected_cache_is_off (c : Cache.CacheService wire) (now : Z)
  (utcnow query : string) (results : pydict)
  (engines categories : option (list string)) (ttl : option Z) :
  Cache.redis_client wire c = None ->
  Cache.get wire json_loads wire_truthy c now query engines categories = (c, None) /\
  Cache.set wire json_dumps c now utcnow query results engines categories ttl = (c, false) /\
  Cache.get_stats wire c now = [("status", JStr "disconnected")].
Proof.
  intros Hc. unfold Cache.get, Cache.set, Cache.get_stats. by rewrite Hc.
Qed.

(** An entry is gone once its time to live has passed: after a [set]
    that succeeded, a [get] of the same request at or after the instant
    of expiry is a miss. *)
Theorem get_after_expiry_misses (c : Cache.CacheService wire) (now t : Z)
  (utcnow query : string) (results : pydict)
  (engines categories : option (list string)) (ttl : option Z) :
  let after := Cache.set wire json_dumps c now utcnow query results engines categories ttl in
  snd after = true ->
  (now + Cache.effective_ttl wire c ttl <= t)%Z ->
  snd (Cache.get wire json_loads wire_truthy (fst after) t query engines categories) = None.
Proof.
  unfold Cache.set. destruct (Cache.redis_client wire c) as [srv|] eqn:Hc; [|done].
  destruct (Cache.limit_results _ results) as [capped|e]; [|done].
  unfold Cache.redis_setex.
  destruct (Cache.effective_ttl wire c ttl <=? 0)%Z; [done|].
  simpl. intros _ Ht. unfold Cache.get. simpl. unfold Cache.redis_get. simpl.
  rewrite dict_get_set_eq.
  destruct (t <? now + Cache.effective_ttl wire c ttl)%Z eqn:E; [lia|done].
Qed.

End CacheDegradation.

(** A cache whose connection failed. *)
Lemma disconnected_cache_is_off_witness :
  let c := Cache.mk_cache json "redis://localhost:6379/2" 3600 100 None in
  Sample.cache_get c 1000 "rock" None None = (c, None) /\
  Sample.cache_set c 1000 "2024-01-01T00:00:00" "rock" [("results", JArr [])] None None None
  = (c, false) /\
  Cache.get_stats json c 1000 = [("status", JStr "disconnected")].
Proof.
  apply (disconnected_cache_is_off json Sample.store Sample.fetch Sample.stored_truthy).
  reflexivity.
Defined.

(** The sample entry, read at the instant it expires. *)
Lemma get_after_expiry_misses_witness :
  snd (Sample.cache_get
         (fst (Sample.cache_set Sample.cache 1000 "2024-01-01T00:00:00" "rock"
                 [("results", JArr [Sample.hit "x"])] None None None))
         4600 "rock" None None) = None.
Proof.
  apply (get_after_expiry_misses json Sample.store Sample.fetch Sample.stored_truthy
           Sample.cache 1000 4600).
  - reflexivity.
  - discriminate.
Defined.

(** ** Further properties of the protocol and the handlers *)

Section UnknownMethod.

Variable S : Type.
Variable handlers : list (string * Protocol.handler S).
Variable py_repr : json -> string.
Variable format_exc : exn -> string.

(** A request for a method that has no handler is answered with the
    error Method-Not-Found (code -32601) under the request's [id]; no
    handler runs and the state is untouched. *)
Theorem unknown_method_not_found (request : Protocol.JsonRpcRequest) (name : string) (st : S) :
  Protocol.method request = JStr name ->
  dict_get name handlers = None ->
  Protocol.handle_request S handlers py_repr format_exc request st
  = (st, ([], Ok (Protocol.mk_response "2.0" JNull
                    (Some [("code", JInt (-32601));
                           ("message", JStr ("Method '" +:+ name +:+ "' not found"))])
                    (Protocol.id request)))).
Proof.
  intros Hmethod Hnone. unfold Protocol.handle_request. by rewrite Hmethod, Hnone.
Qed.

End UnknownMethod.

(** The request of [test_invalid_method]. *)
Lemma unknown_method_not_found_witness :
  Protocol.handle_request Service.EngineService
    (Service.handlers Sample.http_get Sample.py_repr Sample.clock Sample.signature_error)
    Sample.py_repr Sample.format_exc
    (Protocol.mk_request "2.0" (JStr "invalid_method") (JObj []) (JInt 4)) Sample.service
  = (Sample.service,
     ([], Ok (Protocol.mk_response "2.0" JNull
                (Some [("code", JInt (-32601));
                       ("message", JStr "Method 'invalid_method' not found")])
                (JInt 4)))).
Proof.
  apply (unknown_method_not_found Service.EngineService _ Sample.py_repr Sample.format_exc
           (Protocol.mk_request "2.0" (JStr "invalid_method") (JObj []) (JInt 4))
           "invalid_method" Sample.service);
    reflexivity.
Defined.

Section EmptyFanOut.

Variable http_get : http_request -> result Registry.http_response.
Variable py_repr : json -> string.
Variable clock : nat -> Q.
Variable signature_error : string -> pydict -> string.

(** With no enabled adapter, [search_all] answers with an empty result
    list and a count of zero, and not with an error; it issues no request. *)
Theorem search_all_without_adapters (s : Service.EngineService)
  (kwargs params : pydict) (query : json) :
  Service.bind_kwargs signature_error "handle_search_all" ["query"] true kwargs
  = Ok ([query], params) ->
  Registry.get_enabled_engines (Service.registry s) = [] ->
  snd (Service.handle_search_all http_get py_repr clock signature_error kwargs s)
  = ([], Ok (JObj [("success", JBool true);
                   ("query", query);
                   ("results", JArr []);
                   ("results_by_engine", JObj []);
                   ("total_count", JInt 0);
                   ("engine_count", JInt 0);
                   ("response_time", Service.elapsed clock s)])).
Proof.
  intros Hbind Hnone. unfold Service.handle_search_all. rewrite Hbind.
  unfold Registry.search_all. rewrite Hnone. reflexivity.
Qed.

End EmptyFanOut.

(** A service over an empty registry. *)
Lemma search_all_without_adapters_witness :
  snd (Service.handle_search_all Sample.http_get Sample.py_repr Sample.clock
         Sample.signature_error [("query", JStr "rock")]
         (Service.mk_service (Registry.mk_registry "/srv/broken" []) 0))
  = ([], Ok (JObj [("success", JBool true);
                   ("query", JStr "rock");
                   ("results", JArr []);
                   ("results_by_engine", JObj []);
                   ("total_count", JInt 0);
                   ("engine_count", JInt 0);
                   ("response_time",
                    Service.elapsed Sample.clock
                      (Service.mk_service (Registry.mk_registry "/srv/broken" []) 0))])).
Proof.
  apply (search_all_without_adapters Sample.http_get Sample.py_repr Sample.clock
           Sample.signature_error _ [("query", JStr "rock")] []);
    reflexivity.
Defined.

(** ** Further properties of the registry *)

Lemma dict_has_set {V} (k k' : string) (v : V) d :
  dict_has k' (dict_set k v d) = String.eqb k' k || dict_has k' d.
Proof.
  unfold dict_has. destruct (String.eqb k' k) eqn:E.
  - apply String.eqb_eq in E. subst. by rewrite dict_get_set_eq.
  - rewrite dict_get_set_ne; [done|]. intros ->. by rewrite String.eqb_refl in E.
Qed.

(** Whether a file of the loop ends the interpreter when it is imported. *)
Lemma exits_on_import_glob (entries : list Registry.py_file) :
  existsb Spec.exits_on_import (Registry.glob_py entries)
  = existsb Spec.exits_on_import entries.
Proof.
  unfold Registry.glob_py. induction entries as [|f rest IH]; simpl; [done|].
  destruct (Registry.ends_with ".py" (Registry.file_name f)) eqn:Hpy; simpl; rewrite IH.
  - done.
  - unfold Spec.exits_on_import. by rewrite Hpy.
Qed.

Lemma discover_loop_exits dir files :
  Forall (fun f => Registry.ends_with ".py" (Registry.file_name f) = true) files ->
  existsb Spec.exits_on_import files = true ->
  forall acc, is_ok (value (Registry.discover_loop dir files acc)) = false.
Proof.
  induction 1 as [|f rest Hpy _ IH]; simpl; [done|]. intros Hexit acc.
  unfold Spec.exits_on_import in Hexit at 1. rewrite Hpy in Hexit. simpl in Hexit.
  destruct (Registry.skipped f); simpl in *; [by apply IH|].
  unfold Registry._load_engine_info.
  destruct (Registry.file_load f) as [|e|e|m]; simpl in *; try done.
  - specialize (IH Hexit acc).
    by destruct (Registry.discover_loop dir rest acc) as [log [v|e]].
  - specialize (IH Hexit acc).
    by destruct (Registry.discover_loop dir rest acc) as [log [v|e']].
  - destruct (Registry.attr_request m), (Registry.attr_response m); simpl;
      match goal with
      | |- context [Registry.discover_loop dir rest ?a] =>
          specialize (IH Hexit a);
          by destruct (Registry.discover_loop dir rest a) as [log [v|e]]
      end.
Qed.

Lemma discover_loop_keys dir files :
  existsb Spec.exits_on_import files = false ->
  Forall (fun f => Registry.ends_with ".py" (Registry.file_name f) = true) files ->
  forall acc, exists engines,
    value (Registry.discover_loop dir files acc) = Ok engines /\
    forall key,
      dict_has key engines
      = dict_has key acc
        || existsb (fun f => negb (Registry.skipped f)
                             && match Registry._load_engine_info dir f with
                                | Ok (Some info) => String.eqb key (Registry.name info)
                                | _ => false
                                end) files.
Proof.
  intros Hexit Hfiles. induction Hfiles as [|f rest Hpy _ IH]; intros acc; simpl.
  - exists acc. split; [done|]. intros key. by rewrite orb_false_r.
  - simpl in Hexit. apply orb_false_elim in Hexit as [Hf Hrest]. specialize (IH Hrest).
    unfold Spec.exits_on_import in Hf. rewrite Hpy in Hf. simpl in Hf.
    destruct (Registry.skipped f); simpl in *; [apply IH|].
    unfold Registry._load_engine_info.
    destruct (Registry.file_load f) as [|e|e|m]; simpl in *; try done.
    + destruct (IH acc) as (engines & Hv & Hkeys). exists engines.
      destruct (Registry.discover_loop dir rest acc) as [log v]. simpl in *. done.
    + destruct (IH acc) as (engines & Hv & Hkeys). exists engines.
      destruct (Registry.discover_loop dir rest acc) as [log v]. simpl in *. done.
    + destruct (Registry.attr_request m), (Registry.attr_response m); simpl;
        try (destruct (IH acc) as (engines & Hv & Hkeys); exists engines;
             destruct (Registry.discover_loop dir rest acc) as [log v]; simpl in *; done).
      set (info := Registry.mk_engine _ _ _ _ _ _).
      destruct (IH (dict_set (Registry.name info) info acc)) as (engines & Hv & Hkeys).
      exists engines.
      destruct (Registry.discover_loop dir rest _) as [log v]. simpl in *.
      split; [done|]. intros key. rewrite Hkeys, dict_has_set.
      by destruct (String.eqb key (Registry.stem (Registry.file_name f))), (dict_has key acc).
Qed.

(** Discovery over a directory that exists is ended by a file only when
    the import of that file ends the interpreter; an exception that a
    file raises is logged and the file left out.  When no file ends the
    interpreter the registry is built, and it holds exactly the files
    that are engines, each under the stem of its name. *)
Theorem discovery_keeps_the_good_files (fs : Registry.filesystem) (dir : string)
  (entries : list Registry.py_file) :
  fs dir = Some entries ->
  if existsb Spec.exits_on_import entries
  then is_ok (value (Registry.__init__ fs dir)) = false
  else
    exists r,
      value (Registry.__init__ fs dir) = Ok r /\
      forall key,
        dict_has key (Registry.engines r) = true <->
        exists f, f ∈ entries /\ Spec.is_engine_file f = true /\
                  Registry.stem (Registry.file_name f) = key.
Proof.
  intros Hdir. unfold Registry.__init__, Registry._discover_engines. rewrite Hdir.
  assert (Hpy : Forall (fun f => Registry.ends_with ".py" (Registry.file_name f) = true)
                       (Registry.glob_py entries)).
  { apply Forall_forall. intros f Hf. apply list_elem_of_In in Hf.
    unfold Registry.glob_py in Hf. by apply filter_In in Hf as [_ Hf]. }
  destruct (existsb Spec.exits_on_import entries) eqn:Hexit;
    rewrite <- exits_on_import_glob in Hexit.
  { pose proof (discover_loop_exits dir _ Hpy Hexit []) as Hraise.
    unfold mbind, M_bind.
    by destruct (Registry.discover_loop dir (Registry.glob_py entries) []) as [log [v|e]]. }
  destruct (discover_loop_keys dir (Registry.glob_py entries) Hexit Hpy [])
    as (engines & Hv & Hkeys).
  exists (Registry.mk_registry dir engines).
  destruct (Registry.discover_loop dir (Registry.glob_py entries) []) as [log v].
  simpl in *. subst v. split; [done|].
  intros key. rewrite Hkeys. simpl. rewrite existsb_exists. split.
  - intros (f & Hf & Hgood). unfold Registry.glob_py in Hf.
    apply filter_In in Hf as [Hf Hpyf]. exists f.
    split; [by apply list_elem_of_In|].
    apply andb_prop in Hgood as [Hskip Hload].
    unfold Spec.is_engine_file. rewrite Hpyf, Hskip. simpl.
    unfold Registry._load_engine_info in Hload.
    destruct (Registry.file_load f) as [|e|e|m]; try done.
    destruct (Registry.attr_request m), (Registry.attr_response m); try done.
    simpl in Hload. apply String.eqb_eq in Hload. by split.
  - intros (f & Hf & Hgood & Hkey). exists f. unfold Spec.is_engine_file in Hgood.
    apply andb_prop in Hgood as [Hgood Hload]. apply andb_prop in Hgood as [Hpyf Hskip].
    split.
    + unfold Registry.glob_py. apply filter_In. split; [by apply list_elem_of_In|done].
    + rewrite Hskip. simpl. unfold Registry._load_engine_info.
      destruct (Registry.file_load f) as [|e|e|m]; try done.
      destruct (Registry.attr_request m), (Registry.attr_response m); try done.
      simpl. subst key. apply String.eqb_refl.
Qed.

(** Discovery over the sample directory. *)
Lemma discovery_keeps_the_good_files_witness :
  if existsb Spec.exits_on_import (default [] (Sample.fs Sample.engines_path))
  then is_ok (value (Registry.__init__ Sample.fs Sample.engines_path)) = false
  else
    exists r,
      value (Registry.__init__ Sample.fs Sample.engines_path) = Ok r /\
      forall key,
        dict_has key (Registry.engines r) = true <->
        exists f, f ∈ default [] (Sample.fs Sample.engines_path) /\
                  Spec.is_engine_file f = true /\
                  Registry.stem (Registry.file_name f) = key.
Proof.
  apply (discovery_keeps_the_good_files Sample.fs Sample.engines_path). reflexivity.
Defined.

Lemma dict_set_same {V} (k : string) (v : V) d :
  dict_get k d = Some v -> dict_set k v d = d.
Proof.
  induction d as [|[k' v'] d IH]; simpl; [done|].
  destruct (String.eqb k k') eqn:E.
  - apply String.eqb_eq in E. subst. by intros [= ->].
  - intros H. by rewrite IH.
Qed.

Lemma dict_set_twice {V} (k : string) (v v' : V) d :
  dict_set k v' (dict_set k v d) = dict_set k v' d.
Proof.
  induction d as [|[k0 v0] d IH]; simpl.
  - by rewrite String.eqb_refl.
  - destruct (String.eqb k k0) eqn:E; simpl; rewrite ?E, ?String.eqb_refl; [done|].
    by rewrite IH.
Qed.

Lemma dict_set_entries {V} (k : string) (v : V) d (entry : string * V) :
  NoDup (dict_keys d) ->
  entry ∈ dict_set k v d ->
  entry = (k, v) \/ (entry ∈ d /\ fst entry <> k).
Proof.
  induction d as [|[k0 v0] d IH]; simpl; intros Hnd Hin.
  - apply list_elem_of_singleton in Hin. by left.
  - apply NoDup_cons in Hnd as [Hk0 Hnd].
    destruct (String.eqb k k0) eqn:E.
    + apply String.eqb_eq in E. subst k0.
      apply elem_of_cons in Hin as [->|Hin]; [by left|]. right.
      split; [by apply elem_of_cons; right|].
      intros <-. apply Hk0. unfold dict_keys.
      apply list_elem_of_fmap. by exists entry.
    + apply elem_of_cons in Hin as [->|Hin].
      * right. split; [by apply elem_of_cons; left|]. simpl.
        intros ->. by rewrite String.eqb_refl in E.
      * destruct (IH Hnd Hin) as [->|[Hd Hne]]; [by left|]. right.
        split; [by apply elem_of_cons; right|done].
Qed.

Section EnableDisable.

Variable py_repr : json -> string.
Variable signature_error : string -> pydict -> string.

#[local] Abbreviation disable := (Service.handle_disable_engine py_repr signature_error).
#[local] Abbreviation enable := (Service.handle_enable_engine py_repr signature_error).

(** Disabling an engine removes it from the enabled engines, which
    [search_all] fans out to; enabling it again puts the registry back
    as it was. *)
Theorem disable_then_enable (s : Service.EngineService) (key : string)
  (info : Registry.EngineInfo) :
  Spec.well_formed (Service.registry s) ->
  dict_get key (Registry.engines (Service.registry s)) = Some info ->
  Registry.enabled info = true ->
  let disabled := fst (disable [("engine", JStr key)] s) in
  Forall (fun engine => Registry.name engine <> key)
         (Registry.get_enabled_engines (Service.registry disabled)) /\
  fst (enable [("engine", JStr key)] disabled) = s.
Proof.
  intros [Hnd Hnames] Hget Henabled.
  unfold Service.handle_disable_engine, Service.handle_enable_engine, Service.toggle_engine.
  simpl. rewrite Hget. simpl. rewrite dict_get_set_eq. simpl. split.
  - unfold Registry.get_enabled_engines. simpl.
    apply Forall_forall. intros engine Hin. apply list_elem_of_In in Hin.
    apply filter_In in Hin as [Hin Hon].
    apply in_map_iff in Hin as ([k e] & <- & Hentry). simpl in *.
    apply list_elem_of_In in Hentry.
    apply dict_set_entries in Hentry as [[= -> ->]|[Hentry Hne]]; [done| |done].
    rewrite Forall_forall in Hnames. specialize (Hnames _ Hentry). simpl in *.
    congruence.
  - unfold Service.set_engine_enabled. simpl. rewrite dict_set_twice.
    assert (Hinfo : Registry.set_enabled true (Registry.set_enabled false info) = info).
    { destruct info. simpl in *. by subst. }
    rewrite Hinfo, (dict_set_same _ _ _ Hget).
    by destruct s as [[dir engines] ticks].
Qed.

End EnableDisable.

(** Disabling and enabling [beta] in the sample registry. *)
Lemma disable_then_enable_witness :
  let disabled := fst (Service.handle_disable_engine Sample.py_repr Sample.signature_error
                         [("engine", JStr "beta")] Sample.service) in
  Forall (fun engine => Registry.name engine <> "beta")
         (Registry.get_enabled_engines (Service.registry disabled)) /\
  fst (Service.handle_enable_engine Sample.py_repr Sample.signature_error
         [("engine", JStr "beta")] disabled) = Sample.service.
Proof.
  apply (disable_then_enable Sample.py_repr Sample.signature_error Sample.service "beta"
           Sample.beta_info).
  - split.
    + repeat constructor; vm_compute; intros H;
        repeat (apply elem_of_cons in H as [H|H]; [discriminate H|]);
        by apply elem_of_nil in H.
    + repeat constructor.
  - reflexivity.
  - reflexivity.
Defined.

(** * Further properties *)

(** ** Dictionaries, continued *)

Lemma dict_get_remove_eq {V} (k : string) (d : list (string * V)) :
  dict_get k (dict_remove k d) = None.
Proof.
  induction d as [|[k' v] d IH]; simpl; [done|].
  destruct (String.eqb k k') eqn:E; simpl; [done|]. by rewrite E.
Qed.

Lemma dict_get_remove_ne {V} (k k' : string) (d : list (string * V)) :
  k <> k' -> dict_get k' (dict_remove k d) = dict_get k' d.
Proof.
  intros Hne. induction d as [|[k0 v] d IH]; simpl; [done|].
  destruct (String.eqb k k0) eqn:E; simpl.
  - apply String.eqb_eq in E. subst k0.
    destruct (String.eqb k' k) eqn:E'; [|done]. apply String.eqb_eq in E'. congruence.
  - by rewrite IH.
Qed.

Lemma dict_get_In {V} (k : string) (v : V) d : dict_get k d = Some v -> In (k, v) d.
Proof.
  induction d as [|[k' v'] d IH]; simpl; [done|].
  destruct (String.eqb k k') eqn:E.
  - apply String.eqb_eq in E. subst. intros [= ->]. by left.
  - intros H. right. by apply IH.
Qed.

Lemma dict_has_keys {V} (k : string) (d : list (string * V)) :
  dict_has k d = true <-> k ∈ dict_keys d.
Proof.
  unfold dict_has. induction d as [|[k' v] d IH]; simpl.
  - split; [done|]. by intros ?%elem_of_nil.
  - destruct (String.eqb k k') eqn:E.
    + apply String.eqb_eq in E. subst. split; [intros _; by left|done].
    + rewrite IH. split; [by right|].
      intros [->|H]%elem_of_cons; [by rewrite String.eqb_refl in E|done].
Qed.

Lemma dict_set_NoDup {V} (k : string) (v : V) d :
  NoDup (dict_keys d) -> NoDup (dict_keys (dict_set k v d)).
Proof.
  induction d as [|[k0 v0] d IH]; simpl; intros Hnd.
  - apply NoDup_singleton.
  - apply NoDup_cons in Hnd as [Hk0 Hnd]. destruct (String.eqb k k0) eqn:E; simpl.
    + apply String.eqb_eq in E. subst. by apply NoDup_cons.
    + apply NoDup_cons. split; [|by apply IH].
      intros Hin. apply dict_has_keys in Hin. rewrite dict_has_set in Hin.
      apply orb_prop in Hin as [Hin|Hin].
      * apply String.eqb_eq in Hin. subst. by rewrite String.eqb_refl in E.
      * by apply dict_has_keys in Hin.
Qed.

(** ** The cache: invalidation *)

Section Invalidation.

Variable wire : Type.
Variable json_loads : wire -> result json.
Variable wire_truthy : wire -> bool.
Variable glob_match : string -> string -> bool.

#[local] Abbreviation redis_get := (Cache.redis_get wire).
#[local] Abbreviation redis_delete := (Cache.redis_delete wire).
#[local] Abbreviation redis_keys := (Cache.redis_keys wire glob_match).
#[local] Abbreviation invalidate := (Cache.invalidate wire glob_match).

(** What DEL leaves of the string keys. *)
Lemma redis_delete_get now t keys srv key :
  redis_get t key (fst (redis_delete now keys srv))
  = if existsb (String.eqb key) keys then None else redis_get t key srv.
Proof.
  revert srv. induction keys as [|k rest IH]; intros srv; simpl; [done|].
  destruct (redis_delete now rest _) as [srv'' n] eqn:E. simpl.
  specialize (IH (Cache.mk_server wire (dict_remove k (Cache.strings wire srv))
                    (dict_remove k (Cache.hashes wire srv))
                    (dict_remove k (Cache.zsets wire srv)))).
  rewrite E in IH. simpl in IH. rewrite IH.
  destruct (existsb (String.eqb key) rest); [by rewrite orb_true_r|].
  rewrite orb_false_r. unfold Cache.redis_get. simpl.
  destruct (String.eqb key k) eqn:Ek.
  - apply String.eqb_eq in Ek. subst. by rewrite dict_get_remove_eq.
  - rewrite dict_get_remove_ne; [done|]. intros ->. by rewrite String.eqb_refl in Ek.
Qed.

(** A string key that KEYS does not list although the pattern matches it
    is not readable from [now] on. *)
Lemma unlisted_key_is_dead now t pattern srv key :
  (now <= t)%Z ->
  glob_match pattern key = true ->
  existsb (String.eqb key) (redis_keys now pattern srv) = false ->
  redis_get t key srv = None.
Proof.
  intros Ht Hmatch Hnot. unfold Cache.redis_get.
  destruct (dict_get key (Cache.strings wire srv)) as [[v expires]|] eqn:E; [|done].
  destruct (t <? expires)%Z eqn:Et; [|done]. exfalso.
  apply dict_get_In in E.
  assert (Hin : In key (redis_keys now pattern srv)).
  { unfold Cache.redis_keys. apply filter_In. split; [|done].
    apply in_or_app. left. unfold Cache.live_strings.
    apply in_map_iff. exists (key, (v, expires)). split; [done|].
    apply filter_In. split; [done|]. simpl. apply Z.ltb_lt. apply Z.ltb_lt in Et. lia. }
  assert (Hex : existsb (String.eqb key) (redis_keys now pattern srv) = true).
  { apply existsb_exists. exists key. split; [done|apply String.eqb_refl]. }
  congruence.
Qed.

Lemma redis_delete_hash now keys srv name :
  dict_get name (Cache.hashes wire (fst (redis_delete now keys srv)))
  = if existsb (String.eqb name) keys then None
    else dict_get name (Cache.hashes wire srv).
Proof.
  revert srv. induction keys as [|k rest IH]; intros srv; simpl; [done|].
  destruct (redis_delete now rest _) as [srv'' n] eqn:E. simpl.
  specialize (IH (Cache.mk_server wire (dict_remove k (Cache.strings wire srv))
                    (dict_remove k (Cache.hashes wire srv))
                    (dict_remove k (Cache.zsets wire srv)))).
  rewrite E in IH. simpl in IH. rewrite IH.
  destruct (existsb (String.eqb name) rest); [by rewrite orb_true_r|].
  rewrite orb_false_r.
  destruct (String.eqb name k) eqn:Ek.
  - apply String.eqb_eq in Ek. subst. by rewrite dict_get_remove_eq.
  - rewrite dict_get_remove_ne; [done|]. intros ->. by rewrite String.eqb_refl in Ek.
Qed.

Lemma dict_remove_In {V} (k : string) (d : list (string * V)) entry :
  In entry (dict_remove k d) -> In entry d /\ fst entry <> k.
Proof.
  induction d as [|[k' v] d IH]; simpl; [done|].
  destruct (String.eqb k k') eqn:E; simpl; intros H.
  - destruct (IH H). split; [by right|done].
  - destruct H as [<-|H].
    + split; [by left|]. simpl. intros ->. by rewrite String.eqb_refl in E.
    + destruct (IH H). split; [by right|done].
Qed.

Lemma redis_delete_strings now keys srv entry :
  In entry (Cache.strings wire (fst (redis_delete now keys srv))) ->
  In entry (Cache.strings wire srv) /\ existsb (String.eqb (fst entry)) keys = false.
Proof.
  revert srv. induction keys as [|k rest IH]; intros srv; simpl; [done|].
  destruct (redis_delete now rest _) as [srv'' n] eqn:E. simpl. intros H.
  specialize (IH (Cache.mk_server wire (dict_remove k (Cache.strings wire srv))
                    (dict_remove k (Cache.hashes wire srv))
                    (dict_remove k (Cache.zsets wire srv)))).
  rewrite E in IH. simpl in IH. destruct (IH H) as [Hin Hrest].
  apply dict_remove_In in Hin as [Hin Hne]. split; [done|].
  rewrite Hrest, orb_false_r. destruct (String.eqb (fst entry) k) eqn:Ek; [|done].
  by apply String.eqb_eq in Ek.
Qed.

(** The server [invalidate] leaves: every key KEYS lists is deleted. *)
Lemma invalidate_server (c : Cache.CacheService wire) (srv : Cache.server wire)
  (now : Z) (pattern : option string) :
  Cache.redis_client wire c = Some srv ->
  Cache.redis_client wire (fst (invalidate c now pattern))
  = Some (fst (redis_delete now (redis_keys now (Spec.used_pattern pattern) srv) srv)).
Proof.
  intros Hc. unfold Cache.invalidate, Spec.used_pattern. rewrite Hc.
  destruct pattern as [p|]; cbn -[Cache.redis_delete Cache.redis_keys].
  - destruct (String.eqb p ""); cbn -[Cache.redis_delete Cache.redis_keys].
    + destruct (redis_keys now "search:v1:*" srv) as [|k keys]; [done|].
      by destruct (redis_delete now (k :: keys) srv).
    + destruct (redis_keys now p srv) as [|k keys]; [done|].
      by destruct (redis_delete now (k :: keys) srv).
  - destruct (redis_keys now "search:v1:*" srv) as [|k keys]; [done|].
    by destruct (redis_delete now (k :: keys) srv).
Qed.

Lemma invalidate_reads (c : Cache.CacheService wire) (srv srv' : Cache.server wire)
  (now t : Z) (pattern : option string) (key : string) :
  Cache.redis_client wire c = Some srv ->
  Cache.redis_client wire (fst (invalidate c now pattern)) = Some srv' ->
  (now <= t)%Z ->
  redis_get t key srv'
  = if glob_match (Spec.used_pattern pattern) key then None else redis_get t key srv.
Proof.
  intros Hc Hafter Ht. rewrite (invalidate_server c srv now pattern Hc) in Hafter.
  injection Hafter as <-. rewrite redis_delete_get.
  destruct (existsb (String.eqb key) (redis_keys now (Spec.used_pattern pattern) srv)) eqn:Hex.
  - apply existsb_exists in Hex as (k' & Hin & Heq). apply String.eqb_eq in Heq. subst k'.
    unfold Cache.redis_keys in Hin. apply filter_In in Hin as [_ Hm]. by rewrite Hm.
  - destruct (glob_match (Spec.used_pattern pattern) key) eqn:Hm; [|done].
    by apply (unlisted_key_is_dead now t (Spec.used_pattern pattern)).
Qed.

(** After [invalidate] with a pattern, no key that the pattern matches
    can be read any more, and every string key that the pattern does not
    match reads as before. *)
Theorem invalidate_removes_the_matching_keys (c : Cache.CacheService wire)
  (srv srv' : Cache.server wire) (now t : Z) (pattern key : string) :
  Cache.redis_client wire c = Some srv ->
  Cache.redis_client wire (fst (invalidate c now (Some pattern))) = Some srv' ->
  pattern <> "" ->
  (now <= t)%Z ->
  redis_get t key srv'
  = if glob_match pattern key then None else redis_get t key srv.
Proof.
  intros Hc Hafter Hp Ht.
  rewrite (invalidate_reads c srv srv' now t (Some pattern) key Hc Hafter Ht).
  unfold Spec.used_pattern. destruct (String.eqb pattern "") eqn:E; [|done].
  by apply String.eqb_eq in E.
Qed.

Lemma dict_get_not_key {V} (k : string) (d : list (string * V)) :
  ~ In k (dict_keys d) -> dict_get k d = None.
Proof.
  induction d as [|[k' v] d IH]; simpl; [done|]. intros Hnot.
  destruct (String.eqb k k') eqn:E.
  - apply String.eqb_eq in E. subst. exfalso. apply Hnot. by left.
  - apply IH. intros H. apply Hnot. by right.
Qed.

(** [invalidate] is not confined to the search entries: a pattern that
    matches the key of the counters deletes them too, and the statistics
    start again from zero. *)
Theorem invalidate_can_reset_the_counters (c : Cache.CacheService wire)
  (srv : Cache.server wire) (now t : Z) (pattern : string) :
  Cache.redis_client wire c = Some srv ->
  pattern <> "" ->
  glob_match pattern "cache:stats" = true ->
  let stats := Cache.get_stats wire (fst (invalidate c now (Some pattern))) t in
  dict_get "hits" stats = Some (JInt 0) /\
  dict_get "misses" stats = Some (JInt 0) /\
  dict_get "sets" stats = Some (JInt 0) /\
  dict_get "hit_rate" stats = Some (JFloat 0).
Proof.
  intros Hc Hp Hm stats. unfold stats, Cache.get_stats.
  rewrite (invalidate_server c srv now (Some pattern) Hc).
  assert (Hused : Spec.used_pattern (Some pattern) = pattern).
  { unfold Spec.used_pattern. destruct (String.eqb pattern "") eqn:E; [|done].
    by apply String.eqb_eq in E. }
  rewrite Hused.
  assert (Hstats : Cache.redis_hgetall wire "cache:stats"
                     (fst (redis_delete now (redis_keys now pattern srv) srv)) = []).
  { unfold Cache.redis_hgetall, dict_get_default. rewrite redis_delete_hash.
    destruct (existsb _ (redis_keys now pattern srv)) eqn:Hex; [done|].
    rewrite dict_get_not_key; [done|]. intros Hin.
    assert (Hex' : existsb (String.eqb "cache:stats") (redis_keys now pattern srv) = true).
    { apply existsb_exists. exists "cache:stats". split; [|done].
      unfold Cache.redis_keys. apply filter_In. split; [|done].
      apply in_or_app. right. apply in_or_app. by left. }
    congruence. }
  rewrite Hstats. repeat split; reflexivity.
Qed.

Lemma prefix_app (a b : string) : String.prefix a (a +:+ b) = true.
Proof.
  induction a as [|ch a IH]; simpl; [by destruct b|].
  destruct (ascii_dec ch ch); [done|congruence].
Qed.

(** The star pattern of the cache matches the keys that start with the
    version tag. *)
Hypothesis glob_star :
  forall key, glob_match "search:v1:*" key = String.prefix "search:v1:" key.

(** [invalidate] without a pattern, or with the empty pattern, empties
    the search cache: from then on every [get] is a miss and the
    statistics count no entry, while the counters stay as they were. *)
Theorem invalidate_all_empties_the_cache (c : Cache.CacheService wire)
  (srv : Cache.server wire) (now t : Z) (pattern : option string)
  (query : string) (engines categories : option (list string)) :
  Cache.redis_client wire c = Some srv ->
  pattern = None \/ pattern = Some "" ->
  (now <= t)%Z ->
  let after := fst (invalidate c now pattern) in
  snd (Cache.get wire json_loads wire_truthy after t query engines categories) = None /\
  dict_get "cache_entries" (Cache.get_stats wire after t) = Some (JInt 0) /\
  (forall counter,
      In counter ["hits"; "misses"; "sets"] ->
      dict_get counter (Cache.get_stats wire after t)
      = dict_get counter (Cache.get_stats wire c t)).
Proof.
  intros Hc Hp Ht after.
  assert (Hused : Spec.used_pattern pattern = "search:v1:*") by (by destruct Hp as [-> | ->]).
  pose proof (invalidate_server c srv now pattern Hc) as Hsrv. fold after in Hsrv.
  rewrite Hused in Hsrv.
  set (srv' := fst (redis_delete now (redis_keys now "search:v1:*" srv) srv)) in *.
  split; [|split].
  - unfold Cache.get. rewrite Hsrv.
    assert (Hdead : redis_get t (Cache._generate_cache_key query engines categories) srv'
                    = None).
    { rewrite (invalidate_reads c srv srv' now t pattern _ Hc Hsrv Ht).
      rewrite Hused, glob_star. unfold Cache._generate_cache_key.
      by rewrite prefix_app. }
    by rewrite Hdead.
  - unfold Cache.get_stats. rewrite Hsrv.
    assert (Hnone : Cache.redis_keys_prefix wire t "search:v1:" srv' = []).
    { unfold Cache.redis_keys_prefix.
      destruct (filter _ (Cache.strings wire srv')) as [|[k [v expires]] rest] eqn:E; [done|].
      exfalso.
      assert (Hin : (k, (v, expires)) ∈ filter
                (fun kv : string * (wire * Z) =>
                   String.prefix "search:v1:" (fst kv) = true /\ (t < snd (snd kv))%Z)
                (Cache.strings wire srv')).
      { rewrite E. by left. }
      apply list_elem_of_filter in Hin as [[Hpre Hlive] Hin]. simpl in *.
      apply list_elem_of_In, redis_delete_strings in Hin as [Hin Hnot]. simpl in Hnot.
      assert (Hex : existsb (String.eqb k) (redis_keys now "search:v1:*" srv) = true).
      { apply existsb_exists. exists k. split; [|apply String.eqb_refl].
        unfold Cache.redis_keys. apply filter_In. split; [|by rewrite glob_star].
        apply in_or_app. left. unfold Cache.live_strings.
        apply in_map_iff. exists (k, (v, expires)). split; [done|].
        apply filter_In. split; [done|]. simpl. apply Z.ltb_lt. lia. }
      congruence. }
    rewrite Hnone. reflexivity.
  - intros counter Hcounter. unfold Cache.get_stats. rewrite Hsrv, Hc.
    assert (Hstats : Cache.redis_hgetall wire "cache:stats" srv'
                     = Cache.redis_hgetall wire "cache:stats" srv).
    { unfold Cache.redis_hgetall, dict_get_default. unfold srv'.
      rewrite redis_delete_hash.
      destruct (existsb _ (redis_keys now "search:v1:*" srv)) eqn:Hex; [|done].
      apply existsb_exists in Hex as (k & Hin & Heq). apply String.eqb_eq in Heq. subst k.
      unfold Cache.redis_keys in Hin. apply filter_In in Hin as [_ Hm].
      rewrite glob_star in Hm. discriminate Hm. }
    rewrite Hstats. simpl in Hcounter.
    destruct Hcounter as [<-|[<-|[<-|[]]]]; reflexivity.
Qed.

End Invalidation.

(** ** The cache: counters and popular queries *)

Lemma dict_get_default_set_eq {V} (k : string) (v dflt : V) d :
  dict_get_default k dflt (dict_set k v d) = v.
Proof. unfold dict_get_default. by rewrite dict_get_set_eq. Qed.

Lemma dict_get_default_set_ne {V} (k k' : string) (v dflt : V) d :
  k <> k' -> dict_get_default k' dflt (dict_set k v d) = dict_get_default k' dflt d.
Proof. intros H. unfold dict_get_default. by rewrite dict_get_set_ne. Qed.

Section Counters.

Variable wire : Type.
Variable json_dumps : json -> wire.
Variable json_loads : wire -> result json.
Variable wire_truthy : wire -> bool.

#[local] Abbreviation counter := (Spec.counter wire).



End Counters.

(** Clearing the two entries of [Sample.filled_cache]. *)
Lemma invalidate_removes_the_matching_keys_witness :
  Cache.redis_get json 1020 (Cache._generate_cache_key "rock" None None)
    (Sample.server_of (fst (Sample.cache_invalidate Sample.filled_cache 1020
                              (Some "search:v1:*"))))
  = if Sample.glob "search:v1:*" (Cache._generate_cache_key "rock" None None) then None
    else Cache.redis_get json 1020 (Cache._generate_cache_key "rock" None None)
           (Sample.server_of Sample.filled_cache).
Proof.
  apply (invalidate_removes_the_matching_keys json Sample.glob Sample.filled_cache
           (Sample.server_of Sample.filled_cache) _ 1020 1020 "search:v1:*").
  - vm_compute. reflexivity.
  - vm_compute. reflexivity.
  - discriminate.
  - lia.
Defined.

(** The pattern that matches every key. *)
Lemma invalidate_can_reset_the_counters_witness :
  let stats := Cache.get_stats json
                 (fst (Sample.cache_invalidate Sample.used_cache 1020 (Some "*"))) 1021 in
  dict_get "hits" stats = Some (JInt 0) /\
  dict_get "misses" stats = Some (JInt 0) /\
  dict_get "sets" stats = Some (JInt 0) /\
  dict_get "hit_rate" stats = Some (JFloat 0).
Proof.
  apply (invalidate_can_reset_the_counters json Sample.glob Sample.used_cache
           (Sample.server_of Sample.used_cache) 1020 1021 "*").
  - vm_compute. reflexivity.
  - discriminate.
  - reflexivity.
Defined.

Lemma invalidate_all_empties_the_cache_witness :
  let after := fst (Sample.cache_invalidate Sample.filled_cache 1020 None) in
  snd (Sample.cache_get after 1021 "jazz" None None) = None /\
  dict_get "cache_entries" (Cache.get_stats json after 1021) = Some (JInt 0) /\
  (forall counter,
      In counter ["hits"; "misses"; "sets"] ->
      dict_get counter (Cache.get_stats json after 1021)
      = dict_get counter (Cache.get_stats json Sample.filled_cache 1021)).
Proof.
  apply (invalidate_all_empties_the_cache json Sample.fetch Sample.stored_truthy Sample.glob
           (fun key => eq_refl) Sample.filled_cache (Sample.server_of Sample.filled_cache)
           1020 1021 None "jazz" None None).
  - vm_compute. reflexivity.
  - by left.
  - lia.
Defined.


(** ** The cache: what [invalidate] returns *)

Lemma dict_get_NoDup {V} (k : string) (v : V) d :
  NoDup (dict_keys d) -> In (k, v) d -> dict_get k d = Some v.
Proof.
  induction d as [|[k' v'] d IH]; simpl; intros Hnd Hin; [done|].
  apply NoDup_cons in Hnd as [Hk' Hnd]. destruct Hin as [[= -> ->]|Hin].
  - by rewrite String.eqb_refl.
  - destruct (String.eqb k k') eqn:E; [|by apply IH].
    apply String.eqb_eq in E. subst k'. exfalso. apply Hk'.
    unfold dict_keys. apply list_elem_of_fmap. exists (k, v).
    split; [done|by apply list_elem_of_In].
Qed.

Lemma dict_has_remove_ne {V} (k k' : string) (d : list (string * V)) :
  k <> k' -> dict_has k' (dict_remove k d) = dict_has k' d.
Proof. intros H. unfold dict_has. by rewrite dict_get_remove_ne. Qed.

Section InvalidateCount.

Variable wire : Type.
Variable glob_match : string -> string -> bool.

#[local] Abbreviation redis_delete := (Cache.redis_delete wire).
#[local] Abbreviation redis_keys := (Cache.redis_keys wire glob_match).
#[local] Abbreviation key_exists := (Cache.key_exists wire).
#[local] Abbreviation invalidate := (Cache.invalidate wire glob_match).

(** DEL counts every key of a list without repetition whose keys all exist. *)
Lemma redis_delete_count now keys :
  forall srv,
    NoDup keys ->
    (forall key, key ∈ keys -> key_exists now key srv = true) ->
    snd (redis_delete now keys srv) = Z.of_nat (List.length keys).
Proof.
  induction keys as [|k rest IH]; intros srv Hnd Hall; [done|].
  apply NoDup_cons in Hnd as [Hk Hnd]. cbn [Cache.redis_delete].
  set (srv' := Cache.mk_server wire _ _ _).
  specialize (IH srv' Hnd). destruct (redis_delete now rest srv') as [srv'' n].
  cbn [snd] in *. rewrite (Hall k) by (by left). rewrite IH; [simpl length; lia|].
  intros key Hkey. assert (Hne : k <> key) by (by intros ->).
  rewrite <- (Hall key) by (by right).
  unfold Cache.key_exists, Cache.redis_get, srv'. simpl.
  by rewrite dict_get_remove_ne, !dict_has_remove_ne.
Qed.

Lemma live_strings_sublist now (srv : Cache.server wire) :
  sublist (Cache.live_strings wire now srv) (dict_keys (Cache.strings wire srv)).
Proof.
  unfold Cache.live_strings, dict_keys.
  induction (Cache.strings wire srv) as [|[k [v expires]] d IH]; simpl; [constructor|].
  destruct (now <? expires)%Z; simpl; by constructor.
Qed.

Lemma live_string_exists now (srv : Cache.server wire) key :
  NoDup (dict_keys (Cache.strings wire srv)) ->
  key ∈ Cache.live_strings wire now srv ->
  Cache.redis_get wire now key srv <> None.
Proof.
  intros Hnd Hin. unfold Cache.live_strings in Hin.
  apply list_elem_of_In, in_map_iff in Hin as ([k [v expires]] & <- & Hin).
  apply filter_In in Hin as [Hin Hlive]. simpl in *.
  unfold Cache.redis_get. rewrite (dict_get_NoDup _ _ _ Hnd Hin). by rewrite Hlive.
Qed.

(** [invalidate] returns the number of keys it removed: on a server
    where no key is stored twice, that is the number of live keys its
    pattern matches. *)
Theorem invalidate_counts_the_deleted_keys (c : Cache.CacheService wire)
  (srv : Cache.server wire) (now : Z) (pattern : option string) :
  Cache.redis_client wire c = Some srv ->
  NoDup (dict_keys (Cache.strings wire srv) ++ dict_keys (Cache.hashes wire srv)
         ++ dict_keys (Cache.zsets wire srv)) ->
  snd (invalidate c now pattern)
  = Z.of_nat (List.length (redis_keys now (Spec.used_pattern pattern) srv)).
Proof.
  intros Hc Hnd.
  assert (Hcount : forall p,
             snd (redis_delete now (redis_keys now p srv) srv)
             = Z.of_nat (List.length (redis_keys now p srv))).
  { intros p. apply redis_delete_count.
    - unfold Cache.redis_keys. apply NoDup_ListNoDup, List.NoDup_filter, NoDup_ListNoDup.
      eapply sublist_NoDup; [exact Hnd|].
      apply sublist_app; [apply live_strings_sublist|done].
    - intros key Hkey. unfold Cache.redis_keys in Hkey.
      apply list_elem_of_In, filter_In in Hkey as [Hkey _].
      apply list_elem_of_In in Hkey. unfold Cache.key_exists.
      apply elem_of_app in Hkey as [Hkey|Hkey].
      + apply NoDup_app in Hnd as (Hs & _ & _).
        pose proof (live_string_exists now srv key Hs Hkey) as Hget.
        by destruct (Cache.redis_get wire now key srv).
      + apply elem_of_app in Hkey as [Hkey|Hkey]; apply dict_has_keys in Hkey;
          rewrite Hkey; by rewrite ?orb_true_r. }
  unfold Cache.invalidate, Spec.used_pattern. rewrite Hc.
  destruct pattern as [p|]; cbn -[Cache.redis_delete Cache.redis_keys].
  - destruct (String.eqb p ""); cbn -[Cache.redis_delete Cache.redis_keys].
    + specialize (Hcount "search:v1:*").
      destruct (redis_keys now "search:v1:*" srv) as [|k keys]; [done|].
      by destruct (redis_delete now (k :: keys) srv).
    + specialize (Hcount p).
      destruct (redis_keys now p srv) as [|k keys]; [done|].
      by destruct (redis_delete now (k :: keys) srv).
  - specialize (Hcount "search:v1:*").
    destruct (redis_keys now "search:v1:*" srv) as [|k keys]; [done|].
    by destruct (redis_delete now (k :: keys) srv).
Qed.

End InvalidateCount.

(** The two entries of [Sample.filled_cache]. *)
Lemma invalidate_counts_the_deleted_keys_witness :
  snd (Sample.cache_invalidate Sample.filled_cache 1020 None)
  = Z.of_nat (List.length (Cache.redis_keys json Sample.glob 1020 (Spec.used_pattern None)
                             (Sample.server_of Sample.filled_cache))).
Proof.
  apply (invalidate_counts_the_deleted_keys json Sample.glob Sample.filled_cache
           (Sample.server_of Sample.filled_cache) 1020 None).
  - vm_compute. reflexivity.
  - refine (bool_decide_unpack _ _). vm_compute. exact I.
Defined.

Lemma StronglySorted_weaken {A} (R R' : A -> A -> Prop) l :
  (forall a b, R a b -> R' a b) -> StronglySorted R l -> StronglySorted R' l.
Proof.
  intros Himp. induction 1 as [|a l _ IH Hall]; constructor; [done|].
  eapply Forall_impl; [exact Hall|]. intros b. apply Himp.
Qed.

Section Popularity.

Variable wire : Type.
Variable json_dumps : json -> wire.

#[local] Abbreviation popularity := (Spec.popularity wire).
#[local] Abbreviation set := (Cache.set wire json_dumps).

(** A [set] that succeeds counts the query once, under the text of the
    query as it was given (not lower-cased, not trimmed), and adds one to
    [sets]; the count of every other text is unchanged. *)
Theorem set_counts_the_raw_query (c : Cache.CacheService wire) (now : Z)
  (utcnow query other : string) (results : pydict)
  (engines categories : option (list string)) (ttl : option Z) :
  snd (set c now utcnow query results engines categories ttl) = true ->
  let after := fst (set c now utcnow query results engines categories ttl) in
  popularity query after = (popularity query c + 1)%Z /\
  (other <> query -> popularity other after = popularity other c) /\
  Spec.counter wire "sets" after = (Spec.counter wire "sets" c + 1)%Z.
Proof.
  unfold Cache.set. destruct (Cache.redis_client wire c) as [srv|] eqn:Hc; [|done].
  destruct (Cache.limit_results _ results) as [capped|e]; [|done].
  unfold Cache.redis_setex.
  destruct (Cache.effective_ttl wire c ttl <=? 0)%Z; [done|]. intros _. simpl.
  unfold Spec.popularity, Spec.counter. rewrite Hc. simpl.
  unfold Cache.redis_hgetall, Cache.incr_field. simpl.
  rewrite !dict_get_default_set_eq. split; [done|]. split.
  - intros Hne. rewrite dict_get_default_set_ne; [done|]. congruence.
  - unfold Cache.incr_field. by rewrite dict_get_default_set_eq.
Qed.

(** The popular queries of the statistics: at most ten, each with its
    recorded count, in the order of decreasing count. *)
Theorem popular_queries_are_the_top_ten (c : Cache.CacheService wire)
  (srv : Cache.server wire) (now : Z) :
  Cache.redis_client wire c = Some srv ->
  exists top : list (string * Z),
    dict_get "popular_queries" (Cache.get_stats wire c now)
    = Some (JArr (map Cache.popular_entry top)) /\
    (List.length top <= 10)%nat /\
    StronglySorted (fun a b => (snd b <= snd a)%Z) top /\
    (forall entry, In entry top ->
                   In entry (dict_get_default "popular:queries" [] (Cache.zsets wire srv))).
Proof.
  intros Hc. exists (Cache.redis_zrevrange_top wire "popular:queries" 10 srv).
  unfold Cache.get_stats. rewrite Hc. split; [reflexivity|].
  unfold Cache.redis_zrevrange_top.
  set (members := dict_get_default "popular:queries" [] (Cache.zsets wire srv)).
  assert (Htrans : Transitive Cache.zrev_le).
  { intros [a x] [b y] [d z]. unfold Cache.zrev_le. simpl.
    intros [H1|[H1 H1']] [H2|[H2 H2']]; try (left; lia).
    right. split; [lia|]. by transitivity b. }
  assert (Htotal : Total Cache.zrev_le).
  { intros [a x] [b y]. unfold Cache.zrev_le. simpl.
    destruct (Z.lt_trichotomy x y) as [H|[H|H]]; [right; by left| |left; by left].
    destruct (total String.le a b); [right|left]; right; by split. }
  pose proof (StronglySorted_merge_sort Cache.zrev_le members) as Hsorted.
  split; [|split].
  - rewrite length_take. lia.
  - rewrite <- (take_drop 10 (merge_sort Cache.zrev_le members)) in Hsorted.
    apply StronglySorted_app_1_l in Hsorted.
    apply (StronglySorted_weaken Cache.zrev_le); [|done].
    intros a b. unfold Cache.zrev_le. lia.
  - intros entry Hin. apply list_elem_of_In in Hin. apply list_elem_of_In.
    apply elem_of_take in Hin as (i & Hlook & _).
    apply list_elem_of_lookup_2 in Hlook.
    by rewrite merge_sort_Permutation in Hlook.
Qed.

End Popularity.

(** ** The cache key, continued *)

Lemma chars_prefix n s : chars (prefix n s) = take n (chars s).
Proof.
  unfold prefix, chars. revert s. induction n as [|n IH]; intros s.
  - by destruct s.
  - destruct s as [|ch s]; simpl; [done|]. by rewrite IH.
Qed.

Lemma length_chars s : List.length (chars s) = String.length s.
Proof. induction s as [|ch s IH]; simpl; [done|]. by rewrite IH. Qed.

Lemma hex_digit_is_hex x : (0 <= x < 16)%Z -> Spec.is_hex_digit (MD5.hex_digit x) = true.
Proof.
  intros H.
  assert (Hx : In x (map Z.of_nat (seq 0 16))).
  { apply in_map_iff. exists (Z.to_nat x). split; [lia|]. apply in_seq. lia. }
  simpl in Hx. repeat (destruct Hx as [<-|Hx]; [reflexivity|]). done.
Qed.

Lemma hex_chars bytes :
  Forall (fun b => (0 <= b < 256)%Z) bytes ->
  List.length (chars (MD5.hex bytes)) = (2 * List.length bytes)%nat /\
  Forall (fun ch => Spec.is_hex_digit ch = true) (chars (MD5.hex bytes)).
Proof.
  induction 1 as [|b bytes Hb _ [IHl IHf]]; simpl; [done|]. split; [lia|].
  constructor; [apply hex_digit_is_hex|constructor; [apply hex_digit_is_hex|done]].
  - split; [apply Z.div_pos; lia|]. apply Z.div_lt_upper_bound; lia.
  - apply Z.mod_pos_bound. lia.
Qed.

Lemma le_bytes_spec n x :
  List.length (MD5.le_bytes n x) = n /\
  Forall (fun b => (0 <= b < 256)%Z) (MD5.le_bytes n x).
Proof.
  revert x. induction n as [|n IH]; intros x; simpl; [done|].
  destruct (IH (x / 256)%Z) as [Hl Hf]. split; [lia|].
  constructor; [apply Z.mod_pos_bound; lia|done].
Qed.

Lemma hexdigest_shape s :
  List.length (chars (MD5.hexdigest s)) = 32%nat /\
  Forall (fun ch => Spec.is_hex_digit ch = true) (chars (MD5.hexdigest s)).
Proof.
  unfold MD5.hexdigest, MD5.digest_bytes.
  set (st := MD5.chunks _ _ _).
  destruct (le_bytes_spec 4 (MD5.sa st)) as [La Fa], (le_bytes_spec 4 (MD5.sb st)) as [Lb Fb],
    (le_bytes_spec 4 (MD5.sc st)) as [Lc Fc], (le_bytes_spec 4 (MD5.sd st)) as [Ld Fd].
  destruct (hex_chars (MD5.le_bytes 4 (MD5.sa st) ++ MD5.le_bytes 4 (MD5.sb st)
                       ++ MD5.le_bytes 4 (MD5.sc st) ++ MD5.le_bytes 4 (MD5.sd st)))
    as [Hl Hf].
  { repeat (apply Forall_app; split); done. }
  split; [|done]. rewrite Hl, !length_app. lia.
Qed.

(** Every cache key is the version tag [search:v1:] followed by a token
    of sixteen hexadecimal digits, whatever the request. *)
Theorem cache_key_shape (query : string) (engines categories : option (list string)) :
  exists token,
    Cache._generate_cache_key query engines categories = "search:v1:" +:+ token /\
    String.length token = 16%nat /\
    Forall (fun ch => Spec.is_hex_digit ch = true) (chars token).
Proof.
  unfold Cache._generate_cache_key. eexists. split; [reflexivity|].
  set (key_string := join "|" _).
  destruct (hexdigest_shape key_string) as [Hl Hf].
  rewrite <- length_chars, chars_prefix. split.
  - rewrite length_take. lia.
  - rewrite <- (take_drop 16 (chars (MD5.hexdigest key_string))) in Hf.
    by apply Forall_app in Hf as [Hf _].
Qed.

(** The engine list and the category list enter the key in the same way:
    the order of the categories does not matter, and an empty list, of
    either kind, is keyed like an absent one. *)
Theorem cache_key_lists (query : string) (engines categories : option (list string))
  (cats1 cats2 : list string) :
  cats1 ≡ₚ cats2 ->
  Cache._generate_cache_key query engines (Some cats1)
  = Cache._generate_cache_key query engines (Some cats2) /\
  Cache._generate_cache_key query (Some []) categories
  = Cache._generate_cache_key query None categories /\
  Cache._generate_cache_key query engines (Some [])
  = Cache._generate_cache_key query engines None.
Proof.
  intros Hp. unfold Cache._generate_cache_key.
  by rewrite (names_str_perm _ _ Hp).
Qed.

(** The key sees a list only as its sorted names joined by commas: a
    single name that is such a text is keyed like the list itself. *)
Theorem cache_key_joins_names (query : string) (names : list string)
  (categories : option (list string)) :
  names <> [] ->
  Cache._generate_cache_key query (Some [join "," (sorted names)]) categories
  = Cache._generate_cache_key query (Some names) categories.
Proof.
  intros Hne. unfold Cache._generate_cache_key. do 4 f_equal.
  destruct names as [|a names]; [done|]. reflexivity.
Qed.

(** The first [set] of the examples. *)
Lemma set_counts_the_raw_query_witness :
  let after := fst (Sample.cache_set Sample.cache 1000 "2024-01-01T00:00:00" " Rock"
                      [("results", JArr [Sample.hit "x"])] None None None) in
  Spec.popularity json " Rock" after = (Spec.popularity json " Rock" Sample.cache + 1)%Z /\
  ("rock" <> " Rock" ->
   Spec.popularity json "rock" after = Spec.popularity json "rock" Sample.cache) /\
  Spec.counter json "sets" after = (Spec.counter json "sets" Sample.cache + 1)%Z.
Proof.
  apply (set_counts_the_raw_query json Sample.store Sample.cache 1000
           "2024-01-01T00:00:00" " Rock" "rock" [("results", JArr [Sample.hit "x"])]
           None None None).
  reflexivity.
Defined.

Lemma popular_queries_are_the_top_ten_witness :
  exists top : list (string * Z),
    dict_get "popular_queries" (Cache.get_stats json Sample.filled_cache 1020)
    = Some (JArr (map Cache.popular_entry top)) /\
    (List.length top <= 10)%nat /\
    StronglySorted (fun a b => (snd b <= snd a)%Z) top /\
    (forall entry, In entry top ->
                   In entry (dict_get_default "popular:queries" []
                               (Cache.zsets json (Sample.server_of Sample.filled_cache)))).
Proof.
  apply (popular_queries_are_the_top_ten json Sample.filled_cache
           (Sample.server_of Sample.filled_cache) 1020).
  vm_compute. reflexivity.
Defined.

(** Category lists in two orders. *)
Lemma cache_key_lists_witness :
  Cache._generate_cache_key "rock" None (Some ["music"; "general"])
  = Cache._generate_cache_key "rock" None (Some ["general"; "music"]) /\
  Cache._generate_cache_key "rock" (Some []) None
  = Cache._generate_cache_key "rock" None None /\
  Cache._generate_cache_key "rock" None (Some [])
  = Cache._generate_cache_key "rock" None None.
Proof.
  apply (cache_key_lists "rock" None None ["music"; "general"] ["general"; "music"]).
  apply Permutation_swap.
Defined.

(** One engine whose name holds a comma, against two engines. *)
Lemma cache_key_joins_names_witness :
  Cache._generate_cache_key "rock" (Some [join "," (sorted ["deezer"; "bandcamp"])]) None
  = Cache._generate_cache_key "rock" (Some ["deezer"; "bandcamp"]) None.
Proof.
  apply (cache_key_joins_names "rock" ["deezer"; "bandcamp"] None). discriminate.
Defined.

(** ** The protocol, continued *)

Section ProtocolInvariants.

Variable S : Type.
Variable handlers : list (string * Protocol.handler S).
Variable json_loads : string -> result json.
Variable json_dumps : json -> string.
Variable py_repr : json -> string.
Variable format_exc : exn -> string.
Variable uuid4 : nat -> string.

#[local] Abbreviation run :=
  (Protocol.run S handlers json_loads json_dumps py_repr format_exc uuid4).
#[local] Abbreviation read_request :=
  (Protocol.read_request json_loads json_dumps uuid4).
#[local] Abbreviation handle_request :=
  (Protocol.handle_request S handlers py_repr format_exc).
#[local] Abbreviation send_response := (Protocol.send_response json_dumps).
#[local] Abbreviation writes_envelope := (Spec.writes_envelope json_dumps).

(** A request built by the constructor survives [to_dict] followed by
    [from_dict] unchanged, and no new identifier is drawn for it (an
    identifier from [uuid4] is never the empty string). *)
Theorem request_round_trip (method params id : json) (uuids : nat) :
  (forall n, uuid4 n <> "") ->
  let built := Protocol.new_request uuid4 method params id uuids in
  Protocol.from_dict uuid4 (JObj (Protocol.request_to_dict (fst built))) (snd built)
  = Ok built.
Proof.
  intros Huuid.
  assert (Hfresh : negb (String.eqb (uuid4 uuids) "") = true).
  { destruct (String.eqb (uuid4 uuids) "") eqn:E; [|done].
    apply String.eqb_eq in E. by apply Huuid in E. }
  unfold Protocol.new_request, Protocol.from_dict, Protocol.request_to_dict, py_or.
  destruct (truthy id) eqn:Hid, (truthy params) eqn:Hp; simpl;
    rewrite ?Hp; unfold Protocol.new_request, py_or, dict_get_default; simpl;
    rewrite ?Hid, ?Hp, ?Hfresh; reflexivity.
Qed.

Lemma response_envelope (r : Protocol.JsonRpcResponse) :
  Protocol.resp_jsonrpc r = "2.0" -> Spec.envelope (Protocol.response_to_dict r).
Proof.
  intros H. unfold Protocol.response_to_dict, Spec.envelope. rewrite H.
  by destruct (Protocol.error_ r).
Qed.

Lemma error_version code message data id :
  Protocol.resp_jsonrpc (Protocol.error code message data id) = "2.0".
Proof. reflexivity. Qed.

Lemma send_response_envelope (r : Protocol.JsonRpcResponse) :
  Protocol.resp_jsonrpc r = "2.0" ->
  Forall writes_envelope (events (send_response r)).
Proof.
  intros H. constructor; [|constructor]. simpl. eexists. split; [reflexivity|].
  by apply response_envelope.
Qed.

(** What [read_request] does: it returns a request and writes nothing,
    or it returns nothing and writes at most one envelope; it never raises. *)
Lemma read_request_spec line uuids :
  exists o, value (fst (read_request line uuids)) = Ok o /\
            Forall writes_envelope (events (fst (read_request line uuids))) /\
            List.length (events (fst (read_request line uuids)))
            = match o with Some _ => 0%nat | None => if String.eqb line "" then 0%nat else 1%nat end /\
            forallb Spec.is_stdout (events (fst (read_request line uuids))) = true.
Proof.
  unfold Protocol.read_request.
  destruct (String.eqb line ""); [by exists None|].
  destruct (json_loads (strip line)) as [data|e].
  - destruct (Protocol.from_dict uuid4 data uuids) as [[request uuids']|e] eqn:E.
    + by exists (Some request).
    + exists None. simpl. repeat split; try done.
      by apply send_response_envelope.
  - destruct (exn_kind e); exists None; simpl; repeat split; try done;
      by apply send_response_envelope.
Qed.

Hypothesis quiet : Spec.quiet_handlers handlers.

Lemma quiet_events (log : list event) :
  forallb (fun ev => negb (Spec.is_stdout ev)) log = true ->
  Forall writes_envelope log /\ List.filter Spec.is_stdout log = [].
Proof.
  induction log as [|ev log IH]; simpl; [done|].
  intros H. apply andb_prop in H as [Hev Hlog]. destruct (IH Hlog) as [IH1 IH2].
  destruct ev; simpl in *; try done; by split; [constructor|].
Qed.

Lemma answered_log name kwargs (log : list event) (r : Protocol.JsonRpcResponse) :
  forallb (fun ev => negb (Spec.is_stdout ev)) log = true ->
  Protocol.resp_jsonrpc r = "2.0" ->
  Forall writes_envelope ((Call name kwargs :: log) ++ events (send_response r)) /\
  List.length (List.filter Spec.is_stdout
                 ((Call name kwargs :: log) ++ events (send_response r))) = 1%nat.
Proof.
  intros Hq Hr. destruct (quiet_events log Hq) as [Hw Hf]. split.
  - apply Forall_app. split; [by constructor|]. by apply send_response_envelope.
  - rewrite List.filter_app. simpl. by rewrite Hf.
Qed.

(** What answering one request does: the handler's own events, which
    write nothing, then one envelope, unless the lookup of the method
    raises. *)
Lemma answer_spec (request : Protocol.JsonRpcRequest) (st : S) :
  let answered := bind (snd (handle_request request st)) send_response in
  Forall writes_envelope (events answered) /\
  List.length (List.filter Spec.is_stdout (events answered))
  = (if is_ok (value answered) then 1%nat else 0%nat) /\
  (match Protocol.method request with JArr _ | JObj _ => False | _ => True end ->
   is_ok (value answered) = true).
Proof.
  unfold Protocol.handle_request.
  destruct (Protocol.method request) as [| | | |name| |]; simpl;
    try (repeat split; try done; constructor; [|constructor]; simpl; eexists;
         split; [reflexivity|]; by apply response_envelope);
    try (by repeat split).
  destruct (dict_get name handlers) as [h|] eqn:Hh; simpl.
  - unfold Protocol.call_handler.
    destruct (Protocol.params request) as [| | | | | |kwargs]; simpl;
      try (repeat split; try done; constructor; [|constructor]; simpl; eexists;
           split; [reflexivity|]; by apply response_envelope).
    pose proof (quiet name h kwargs st Hh) as Hq.
    destruct (h kwargs st) as [st' [log [result|e]]]; simpl in *.
    + rewrite !app_nil_r.
      destruct (answered_log name kwargs log
                  (Protocol.success result (Protocol.id request)) Hq eq_refl) as [H1 H2].
      by repeat split.
    + destruct (exn_kind e); simpl; rewrite !app_nil_r;
        match goal with
        | |- context [Protocol.error ?c ?m ?d ?i] =>
            destruct (answered_log name kwargs log (Protocol.error c m d i) Hq eq_refl)
              as [H1 H2]
        end; by repeat split.
  - repeat split; try done. constructor; [|constructor]. simpl. eexists.
    split; [reflexivity|]. by apply response_envelope.
Qed.

(** Every line the loop writes on stdout is a response envelope:
    version 2.0, an [id], and exactly one of [result] and [error]. *)
Theorem run_writes_envelopes (stdin : list string) (st : S) (uuids : nat) :
  Forall writes_envelope (events (snd (run stdin st uuids))).
Proof.
  revert st uuids. induction stdin as [|line rest IH]; intros st uuids.
  - simpl. constructor.
  - cbn [Protocol.run].
    destruct (read_request_spec line uuids) as (o & Hv & Hw & Hlen & _).
    destruct (read_request line uuids) as [[log v] uuids']. simpl in Hv, Hw, Hlen.
    subst v. destruct o as [request|]; [|done].
    destruct log; [|done].
    pose proof (answer_spec request st) as (Ha & _).
    destruct (handle_request request st) as [st' m']. simpl in Ha.
    destruct (bind m' send_response) as [log' [u|e]]; simpl in *; [|done].
    specialize (IH st' uuids').
    destruct (run rest st' uuids') as [final m'']. simpl in *.
    apply Forall_app. by split.
Qed.

(** When every line of the stream is a request the loop can dispatch,
    the loop reads the stream to its end without raising and writes
    exactly one response per line. *)
Theorem run_answers_every_request (stdin : list string) (st : S) (uuids : nat) :
  Forall (Spec.request_line json_loads) stdin ->
  value (snd (run stdin st uuids)) = Ok tt /\
  Protocol.unread S (fst (run stdin st uuids)) = [] /\
  List.length (List.filter Spec.is_stdout (events (snd (run stdin st uuids))))
  = List.length stdin.
Proof.
  intros Hlines. revert st uuids.
  induction Hlines as [|line rest [Hline (d & Hloads & Hmethod)] _ IH]; intros st uuids.
  - by simpl.
  - cbn [Protocol.run]. unfold Protocol.read_request.
    destruct (String.eqb line "") eqn:E; [by apply String.eqb_eq in E|].
    rewrite Hloads. unfold Protocol.from_dict.
    set (built := Protocol.new_request uuid4 _ _ _ uuids).
    assert (Hm : Protocol.method (fst built) = dict_get_default "method" (JStr "") d).
    { unfold built, Protocol.new_request. by destruct (truthy _). }
    destruct built as [request uuids']. simpl in Hm.
    cbn beta iota zeta delta [ret app].
    pose proof (answer_spec request st) as (_ & Hcount & Hok).
    rewrite Hm in Hok. specialize (Hok Hmethod).
    destruct (handle_request request st) as [st' m']. simpl in Hcount, Hok.
    destruct (bind m' send_response) as [log' [u|e]]; simpl in *; [|done].
    specialize (IH st' uuids').
    destruct (run rest st' uuids') as [final m'']. simpl in *.
    destruct IH as (Hv & Hu & Hn). split; [done|]. split; [done|].
    rewrite List.filter_app, length_app. lia.
Qed.

End ProtocolInvariants.

(** ** The service writes nothing on stdout itself

    The handlers of the service print on stderr and ask the network; the
    engine files are taken by the values their functions return. *)

Lemma silent_app (l1 l2 : list event) :
  forallb (fun ev => negb (Spec.is_stdout ev)) l1 = true ->
  forallb (fun ev => negb (Spec.is_stdout ev)) l2 = true ->
  forallb (fun ev => negb (Spec.is_stdout ev)) (l1 ++ l2) = true.
Proof. intros H1 H2. by rewrite forallb_app, H1, H2. Qed.

Lemma silent_bind {A B} (m : M A) (k : A -> M B) :
  forallb (fun ev => negb (Spec.is_stdout ev)) (events m) = true ->
  (forall a, forallb (fun ev => negb (Spec.is_stdout ev)) (events (k a)) = true) ->
  forallb (fun ev => negb (Spec.is_stdout ev)) (events (bind m k)) = true.
Proof.
  intros Hm Hk. destruct m as [log [a|e]]; simpl in *; [|done].
  specialize (Hk a). destruct (k a) as [log' r]. simpl in *. by apply silent_app.
Qed.

Lemma silent_try_except {A} (m : M A) (handler : exn -> M A) :
  forallb (fun ev => negb (Spec.is_stdout ev)) (events m) = true ->
  (forall e, forallb (fun ev => negb (Spec.is_stdout ev)) (events (handler e)) = true) ->
  forallb (fun ev => negb (Spec.is_stdout ev)) (events (try_except m handler)) = true.
Proof.
  intros Hm Hk. destruct m as [log [a|e]]; simpl in *; [done|].
  specialize (Hk e). destruct (handler e) as [log' r]. simpl in *. by apply silent_app.
Qed.

Ltac silent :=
  repeat first
    [ done
    | apply silent_bind; [|intros ?]
    | apply silent_try_except; [|intros ?]
    | progress (unfold mbind, M_bind)
    | case_match ].

Section Silence.

Variable http_get : http_request -> result Registry.http_response.
Variable py_repr : json -> string.
Variable clock : nat -> Q.
Variable signature_error : string -> pydict -> string.

Lemma search_silent r engine_name query params :
  forallb (fun ev => negb (Spec.is_stdout ev))
    (events (Registry.search http_get py_repr r engine_name query params)) = true.
Proof.
  unfold Registry.search, Registry.searxng_fetch, Registry.direct_execution. silent.
Qed.

Lemma search_all_loop_silent r query params targets acc :
  forallb (fun ev => negb (Spec.is_stdout ev))
    (events (Registry.search_all_loop http_get py_repr r query params targets acc)) = true.
Proof.
  revert acc. induction targets as [|engine rest IH]; intros acc; [done|].
  cbn [Registry.search_all_loop]. unfold mbind, M_bind. apply silent_bind; [|done].
  unfold Registry.search_all_step. apply silent_try_except; [|intros e; silent]. unfold mbind, M_bind. apply silent_bind; [apply search_silent|intros results]. silent.
Qed.

Lemma service_handlers_silent :
  Spec.quiet_handlers (Service.handlers http_get py_repr clock signature_error).
Proof.
  intros name h kwargs st Hh. unfold Service.handlers in Hh. simpl in Hh.
  repeat (case_match; [injection Hh as <-|]); [..|done].
  - unfold Service.handle_ping. by case_match.
  - unfold Service.handle_list_engines. by case_match.
  - unfold Service.handle_search. repeat case_match; try done. simpl.
    silent; apply search_silent.
  - unfold Service.handle_search_all. repeat case_match; try done. simpl.
    silent; apply search_all_loop_silent.
  - unfold Service.handle_get_engine_info. by repeat case_match.
  - unfold Service.handle_enable_engine, Service.toggle_engine. by repeat case_match.
  - unfold Service.handle_disable_engine, Service.toggle_engine. by repeat case_match.
Qed.

End Silence.

(** A request without parameters and without an identifier. *)
Lemma request_round_trip_witness :
  let built := Protocol.new_request Sample.uuid4 (JStr "ping") JNull JNull 0 in
  Protocol.from_dict Sample.uuid4 (JObj (Protocol.request_to_dict (fst built))) (snd built)
  = Ok built.
Proof.
  apply (request_round_trip Sample.uuid4 (JStr "ping") JNull JNull 0).
  intros n. unfold Sample.uuid4. discriminate.
Defined.

(** The service, fed a request and then a malformed line. *)
Lemma run_writes_envelopes_witness :
  Forall (Spec.writes_envelope Sample.dumps)
    (events (snd (Protocol.run Service.EngineService
                    (Service.handlers Sample.http_get Sample.py_repr Sample.clock
                                      Sample.signature_error)
                    Sample.loads Sample.dumps Sample.py_repr Sample.format_exc Sample.uuid4
                    [Sample.line_of Sample.search_missing_engine; Sample.malformed_line]
                    Sample.service 0))).
Proof.
  apply (run_writes_envelopes Service.EngineService _ Sample.loads Sample.dumps
           Sample.py_repr Sample.format_exc Sample.uuid4
           (service_handlers_silent Sample.http_get Sample.py_repr Sample.clock
                                    Sample.signature_error)).
Defined.

(** The three requests of the examples, one after the other. *)
Lemma run_answers_every_request_witness :
  let out := Protocol.run Service.EngineService
               (Service.handlers Sample.http_get Sample.py_repr Sample.clock
                                 Sample.signature_error)
               Sample.loads Sample.dumps Sample.py_repr Sample.format_exc Sample.uuid4
               (map Sample.line_of Sample.known_requests) Sample.service 0 in
  value (snd out) = Ok tt /\
  Protocol.unread Service.EngineService (fst out) = [] /\
  List.length (List.filter Spec.is_stdout (events (snd out)))
  = List.length (map Sample.line_of Sample.known_requests).
Proof.
  apply (run_answers_every_request Service.EngineService _ Sample.loads Sample.dumps
           Sample.py_repr Sample.format_exc Sample.uuid4
           (service_handlers_silent Sample.http_get Sample.py_repr Sample.clock
                                    Sample.signature_error)).
  repeat constructor; try discriminate;
    (eexists; split; [vm_compute; reflexivity|exact I]).
Defined.

Section ProtocolFailures.

Variable S : Type.
Variable handlers : list (string * Protocol.handler S).
Variable json_loads : string -> result json.
Variable json_dumps : json -> string.
Variable py_repr : json -> string.
Variable format_exc : exn -> string.
Variable uuid4 : nat -> string.

#[local] Abbreviation run :=
  (Protocol.run S handlers json_loads json_dumps py_repr format_exc uuid4).
#[local] Abbreviation handle_request :=
  (Protocol.handle_request S handlers py_repr format_exc).
#[local] Abbreviation written := (Spec.written json_dumps).

(** A handler that raises does not stop the protocol: the request is
    answered with an error under its [id].  A [TypeError], from the call
    or from inside the handler, is reported as Invalid-Parameters
    (-32602) with its message; any other exception as Internal-Error
    (-32603) with its message and the traceback.  What the handler did to
    the state before it raised stays done. *)
Theorem handler_failure_is_reported (request : Protocol.JsonRpcRequest) (name : string)
  (h : Protocol.handler S) (kwargs : pydict) (st st' : S) (log : list event) (e : exn) :
  Protocol.method request = JStr name ->
  dict_get name handlers = Some h ->
  Protocol.params request = JObj kwargs ->
  h kwargs st = (st', (log, Raise e)) ->
  handle_request request st
  = (st',
     (Call name kwargs :: log,
      Ok (Protocol.mk_response "2.0" JNull
            (Some (match exn_kind e with
                   | TypeError =>
                       [("code", JInt (-32602));
                        ("message", JStr "Invalid parameters");
                        ("data", JStr (exn_msg e))]
                   | _ =>
                       [("code", JInt (-32603));
                        ("message", JStr "Internal error");
                        ("data", JObj [("error", JStr (exn_msg e));
                                       ("traceback", JStr (format_exc e))])]
                   end))
            (Protocol.id request)))).
Proof.
  intros Hmethod Hh Hparams Hcall. unfold Protocol.handle_request.
  rewrite Hmethod, Hh. unfold Protocol.call_handler. rewrite Hparams, Hcall. simpl.
  destruct (exn_kind e); simpl; by rewrite ?app_nil_r.
Qed.

(** A request whose [method] is a JSON list or object stops the service:
    the lookup in the handler table raises [TypeError] outside every
    [try], so the loop ends with that exception, writes no response and
    leaves the following lines unread. *)
Theorem unhashable_method_stops_the_loop (line : string) (rest : list string) (st : S)
  (uuids : nat) (d : pydict) :
  line <> "" ->
  json_loads (strip line) = Ok (JObj d) ->
  match dict_get_default "method" (JStr "") d with
  | JArr _ | JObj _ => True
  | _ => False
  end ->
  let out := run (line :: rest) st uuids in
  events (snd out) = [] /\
  (exists e, value (snd out) = Raise e /\ exn_kind e = TypeError) /\
  Protocol.state S (fst out) = st /\
  Protocol.unread S (fst out) = rest.
Proof.
  intros Hline Hloads Hmethod. cbn [Protocol.run]. unfold Protocol.read_request.
  destruct (String.eqb line "") eqn:E; [by apply String.eqb_eq in E|].
  rewrite Hloads. unfold Protocol.from_dict, Protocol.new_request, Protocol.handle_request.
  destruct (dict_get_default "method" (JStr "") d) eqn:Hm; try done;
    destruct (truthy (dict_get_default "id" JNull d)); simpl;
    repeat split; by eexists.
Qed.

(** A line that holds JSON, but not an object (a number, a string, a
    list), is answered with Internal-Error (-32603) under a null [id],
    and ends the loop like a malformed line: no handler runs and the
    following lines are never read. *)
Theorem non_object_line_ends_loop (line : string) (rest : list string) (st : S)
  (uuids : nat) (data : json) :
  line <> "" ->
  json_loads (strip line) = Ok data ->
  match data with JObj _ => False | _ => True end ->
  exists message,
    run (line :: rest) st uuids
    = (Protocol.mk_run S st uuids rest,
       ([written [("jsonrpc", JStr "2.0");
                  ("id", JNull);
                  ("error", JObj [("code", JInt (-32603));
                                  ("message", JStr "Internal error");
                                  ("data", JStr message)])]],
        Ok tt)).
Proof.
  intros Hline Hloads Hdata. cbn [Protocol.run]. unfold Protocol.read_request.
  destruct (String.eqb line "") eqn:E; [by apply String.eqb_eq in E|].
  rewrite Hloads. destruct data; try done; by eexists.
Qed.

End ProtocolFailures.

(** [get_engine_info] with a list for the engine: the lookup raises
    [TypeError] inside the handler. *)
Lemma handler_failure_is_reported_witness :
  Protocol.handle_request Service.EngineService
    (Service.handlers Sample.http_get Sample.py_repr Sample.clock Sample.signature_error)
    Sample.py_repr Sample.format_exc
    (Protocol.mk_request "2.0" (JStr "get_engine_info") (JObj [("engine", JArr [])]) (JInt 5))
    Sample.service
  = (Sample.service,
     (Call "get_engine_info" [("engine", JArr [])] :: [],
      Ok (Protocol.mk_response "2.0" JNull
            (Some (match exn_kind (mk_exn TypeError "unhashable type: 'list'") with
                   | TypeError =>
                       [("code", JInt (-32602));
                        ("message", JStr "Invalid parameters");
                        ("data", JStr (exn_msg (mk_exn TypeError "unhashable type: 'list'")))]
                   | _ =>
                       [("code", JInt (-32603));
                        ("message", JStr "Internal error");
                        ("data",
                         JObj [("error",
                                JStr (exn_msg (mk_exn TypeError "unhashable type: 'list'")));
                               ("traceback",
                                JStr (Sample.format_exc
                                        (mk_exn TypeError "unhashable type: 'list'")))])]
                   end))
            (JInt 5)))).
Proof.
  apply (handler_failure_is_reported Service.EngineService _ Sample.py_repr Sample.format_exc
           (Protocol.mk_request "2.0" (JStr "get_engine_info")
              (JObj [("engine", JArr [])]) (JInt 5))
           "get_engine_info"
           (Service.handle_get_engine_info Sample.py_repr Sample.signature_error)
           [("engine", JArr [])] Sample.service Sample.service []
           (mk_exn TypeError "unhashable type: 'list'"));
    reflexivity.
Defined.

(** A request whose method is a list, before a [ping]. *)
Lemma unhashable_method_stops_the_loop_witness :
  let doc := JObj [("method", JArr [JStr "ping"]); ("id", JInt 1)] in
  let out := Protocol.run Service.EngineService
               (Service.handlers Sample.http_get Sample.py_repr Sample.clock
                                 Sample.signature_error)
               (Sample.loads_among [doc])
               Sample.dumps Sample.py_repr Sample.format_exc Sample.uuid4
               [Sample.line_of doc; Sample.line_of Sample.ping_request] Sample.service 0 in
  events (snd out) = [] /\
  (exists e, value (snd out) = Raise e /\ exn_kind e = TypeError) /\
  Protocol.state Service.EngineService (fst out) = Sample.service /\
  Protocol.unread Service.EngineService (fst out) = [Sample.line_of Sample.ping_request].
Proof.
  apply (unhashable_method_stops_the_loop Service.EngineService _
           (Sample.loads_among [JObj [("method", JArr [JStr "ping"]); ("id", JInt 1)]])
           Sample.dumps Sample.py_repr Sample.format_exc Sample.uuid4
           (Sample.line_of (JObj [("method", JArr [JStr "ping"]); ("id", JInt 1)]))
           [Sample.line_of Sample.ping_request] Sample.service 0
           [("method", JArr [JStr "ping"]); ("id", JInt 1)]).
  - discriminate.
  - reflexivity.
  - exact I.
Defined.

(** The line [42], before a [ping]. *)
Lemma non_object_line_ends_loop_witness :
  exists message,
    Protocol.run Service.EngineService
      (Service.handlers Sample.http_get Sample.py_repr Sample.clock Sample.signature_error)
      (Sample.loads_among [JInt 42]) Sample.dumps Sample.py_repr Sample.format_exc
      Sample.uuid4
      [Sample.line_of (JInt 42); Sample.line_of Sample.ping_request] Sample.service 0
    = (Protocol.mk_run Service.EngineService Sample.service 0
         [Sample.line_of Sample.ping_request],
       ([Spec.written Sample.dumps
           [("jsonrpc", JStr "2.0");
            ("id", JNull);
            ("error", JObj [("code", JInt (-32603));
                            ("message", JStr "Internal error");
                            ("data", JStr message)])]],
        Ok tt)).
Proof.
  apply (non_object_line_ends_loop Service.EngineService _ (Sample.loads_among [JInt 42])
           Sample.dumps Sample.py_repr Sample.format_exc Sample.uuid4
           (Sample.line_of (JInt 42)) [Sample.line_of Sample.ping_request]
           Sample.service 0 (JInt 42)).
  - discriminate.
  - reflexivity.
  - exact I.
Defined.

(** ** The handlers, continued *)

Section HandlerInvariants.

Variable http_get : http_request -> result Registry.http_response.
Variable py_repr : json -> string.
Variable clock : nat -> Q.
Variable signature_error : string -> pydict -> string.
Variable format_exc : exn -> string.

#[local] Abbreviation handlers := (Service.handlers http_get py_repr clock signature_error).
#[local] Abbreviation handle_search :=
  (Service.handle_search http_get py_repr clock signature_error).
#[local] Abbreviation handle_disable_engine :=
  (Service.handle_disable_engine py_repr signature_error).
#[local] Abbreviation bind_kwargs := (Service.bind_kwargs signature_error).

(** [handle_search] never raises when it is given an engine and a
    query, and causes no event but those of [registry.search].  When the
    search returns results that have a length, the answer is the success
    document with these results and their number.  When the search
    raises (no such engine, a disabled one, a name that cannot be looked
    up, the engine's own code), or the results have no length, the answer
    is [success: false] with the text of that very exception, next to
    the engine and the query of the call.  Either way the clock is read
    twice. *)
Theorem handle_search_reports_failures (s : Service.EngineService)
  (kwargs params : pydict) (engine query : json) :
  bind_kwargs "handle_search" ["engine"; "query"] true kwargs
  = Ok ([engine; query], params) ->
  let attempt := Registry.search http_get py_repr (Service.registry s) engine query params in
  let failure (e : exn) :=
    [("success", JBool false);
     ("engine", engine);
     ("query", query);
     ("error", JStr (exn_msg e));
     ("response_time", Service.elapsed clock s)] in
  fst (handle_search kwargs s) = Service.tick 2 s /\
  events (snd (handle_search kwargs s)) = events attempt /\
  value (snd (handle_search kwargs s))
  = Ok (JObj match value attempt with
             | Ok results =>
                 match py_len results with
                 | Ok count =>
                     [("success", JBool true);
                      ("engine", engine);
                      ("query", query);
                      ("results", results);
                      ("count", JInt count);
                      ("response_time", Service.elapsed clock s)]
                 | Raise e => failure e
                 end
             | Raise e => failure e
             end).
Proof.
  intros Hbind. unfold Service.handle_search. rewrite Hbind. split; [done|].
  cbn [snd]. unfold mbind, M_bind.
  destruct (Registry.search http_get py_repr (Service.registry s) engine query params)
    as [log [results|e]]; simpl.
  - destruct (py_len results) as [count|e]; simpl; by rewrite ?app_nil_r.
  - by rewrite ?app_nil_r.
Qed.

(** A call whose arguments do not fit the handler (one is missing, or
    one is given that the handler does not take) is answered with
    Invalid-Parameters (-32602) and the interpreter's message; the service
    is left as it was and nothing is asked of the network. *)
Theorem misfit_arguments_are_invalid_params (request : Protocol.JsonRpcRequest)
  (s : Service.EngineService) (name fname : string) (required : list string)
  (var_kw : bool) (kwargs : pydict) (e : exn) :
  In (name, (fname, required, var_kw)) Spec.signatures ->
  Protocol.method request = JStr name ->
  Protocol.params request = JObj kwargs ->
  bind_kwargs fname required var_kw kwargs = Raise e ->
  Protocol.handle_request Service.EngineService handlers py_repr format_exc request s
  = (s,
     ([Call name kwargs],
      Ok (Protocol.mk_response "2.0" JNull
            (Some [("code", JInt (-32602));
                   ("message", JStr "Invalid parameters");
                   ("data", JStr (signature_error fname kwargs))])
            (Protocol.id request)))).
Proof.
  intros Hsig Hmethod Hparams Hbind.
  assert (He : e = mk_exn TypeError (signature_error fname kwargs)).
  { unfold Service.bind_kwargs in Hbind. case_match; congruence. }
  subst e. unfold Protocol.handle_request. rewrite Hmethod.
  simpl in Hsig.
  repeat (destruct Hsig as [[= <- <- <- <-]|Hsig];
          [simpl; unfold Protocol.call_handler; rewrite Hparams;
           unfold Service.handle_ping, Service.handle_list_engines, Service.handle_search,
             Service.handle_search_all, Service.handle_get_engine_info,
             Service.handle_enable_engine, Service.handle_disable_engine,
             Service.toggle_engine;
           rewrite Hbind; reflexivity|]).
  done.
Qed.

(** Once an engine is disabled, a search on it is refused before any
    request is made, with the message that also answers a search on an
    engine that does not exist. *)
Theorem disabled_engine_is_not_searched (s : Service.EngineService) (key : string)
  (info : Registry.EngineInfo) (kwargs params : pydict) (query : json) :
  dict_get key (Registry.engines (Service.registry s)) = Some info ->
  bind_kwargs "handle_search" ["engine"; "query"] true kwargs
  = Ok ([JStr key; query], params) ->
  let disabled := fst (handle_disable_engine [("engine", JStr key)] s) in
  snd (handle_search kwargs disabled)
  = ([], Ok (JObj [("success", JBool false);
                   ("engine", JStr key);
                   ("query", query);
                   ("error", JStr ("Engine '" +:+ key +:+ "' not found or disabled"));
                   ("response_time", Service.elapsed clock s)])).
Proof.
  intros Hkey Hbind. unfold Service.handle_disable_engine, Service.toggle_engine.
  simpl. rewrite Hkey. simpl.
  unfold Service.handle_search. rewrite Hbind. simpl.
  unfold Registry.search. simpl. by rewrite dict_get_set_eq.
Qed.

End HandlerInvariants.

(** A search on an engine that is not there. *)
Lemma handle_search_reports_failures_witness :
  let kwargs := [("engine", JStr "nonexistent_engine"); ("query", JStr "test");
                 ("page", JInt 1)] in
  let attempt := Registry.search Sample.http_get Sample.py_repr
                   (Service.registry Sample.service) (JStr "nonexistent_engine")
                   (JStr "test") [("page", JInt 1)] in
  let failure (e : exn) :=
    [("success", JBool false);
     ("engine", JStr "nonexistent_engine");
     ("query", JStr "test");
     ("error", JStr (exn_msg e));
     ("response_time", Service.elapsed Sample.clock Sample.service)] in
  fst (Service.handle_search Sample.http_get Sample.py_repr Sample.clock
         Sample.signature_error kwargs Sample.service)
  = Service.tick 2 Sample.service /\
  events (snd (Service.handle_search Sample.http_get Sample.py_repr Sample.clock
                 Sample.signature_error kwargs Sample.service))
  = events attempt /\
  value (snd (Service.handle_search Sample.http_get Sample.py_repr Sample.clock
                Sample.signature_error kwargs Sample.service))
  = Ok (JObj match value attempt with
             | Ok results =>
                 match py_len results with
                 | Ok count =>
                     [("success", JBool true);
                      ("engine", JStr "nonexistent_engine");
                      ("query", JStr "test");
                      ("results", results);
                      ("count", JInt count);
                      ("response_time", Service.elapsed Sample.clock Sample.service)]
                 | Raise e => failure e
                 end
             | Raise e => failure e
             end).
Proof.
  apply (handle_search_reports_failures Sample.http_get Sample.py_repr Sample.clock
           Sample.signature_error Sample.service
           [("engine", JStr "nonexistent_engine"); ("query", JStr "test"); ("page", JInt 1)]
           [("page", JInt 1)] (JStr "nonexistent_engine") (JStr "test")).
  reflexivity.
Defined.

(** A [search] without its query. *)
Lemma misfit_arguments_are_invalid_params_witness :
  Protocol.handle_request Service.EngineService
    (Service.handlers Sample.http_get Sample.py_repr Sample.clock Sample.signature_error)
    Sample.py_repr Sample.format_exc
    (Protocol.mk_request "2.0" (JStr "search") (JObj [("engine", JStr "alpha")]) (JInt 7))
    Sample.service
  = (Sample.service,
     ([Call "search" [("engine", JStr "alpha")]],
      Ok (Protocol.mk_response "2.0" JNull
            (Some [("code", JInt (-32602));
                   ("message", JStr "Invalid parameters");
                   ("data", JStr (Sample.signature_error "handle_search"
                                    [("engine", JStr "alpha")]))])
            (JInt 7)))).
Proof.
  apply (misfit_arguments_are_invalid_params Sample.http_get Sample.py_repr Sample.clock
           Sample.signature_error Sample.format_exc
           (Protocol.mk_request "2.0" (JStr "search") (JObj [("engine", JStr "alpha")])
              (JInt 7))
           Sample.service "search" "handle_search" ["engine"; "query"] true
           [("engine", JStr "alpha")]
           (mk_exn TypeError (Sample.signature_error "handle_search"
                                [("engine", JStr "alpha")]))).
  - right. right. by left.
  - reflexivity.
  - reflexivity.
  - reflexivity.
Defined.

(** Disabling [alpha], then searching on it. *)
Lemma disabled_engine_is_not_searched_witness :
  let disabled := fst (Service.handle_disable_engine Sample.py_repr Sample.signature_error
                         [("engine", JStr "alpha")] Sample.service) in
  snd (Service.handle_search Sample.http_get Sample.py_repr Sample.clock
         Sample.signature_error [("engine", JStr "alpha"); ("query", JStr "rock")] disabled)
  = ([], Ok (JObj [("success", JBool false);
                   ("engine", JStr "alpha");
                   ("query", JStr "rock");
                   ("error", JStr ("Engine '" +:+ "alpha" +:+ "' not found or disabled"));
                   ("response_time", Service.elapsed Sample.clock Sample.service)])).
Proof.
  apply (disabled_engine_is_not_searched Sample.http_get Sample.py_repr Sample.clock
           Sample.signature_error Sample.service "alpha" Sample.alpha_info
           [("engine", JStr "alpha"); ("query", JStr "rock")] [] (JStr "rock"));
    reflexivity.
Defined.

(** ** The registry, continued *)

Lemma requests_of_app (l1 l2 : list event) :
  Spec.requests_of (l1 ++ l2) = Spec.requests_of l1 ++ Spec.requests_of l2.
Proof. unfold Spec.requests_of. by rewrite flat_map_app. Qed.

Section SearchFallback.

Variable http_get : http_request -> result Registry.http_response.
Variable py_repr : json -> string.

#[local] Abbreviation search := (Registry.search http_get py_repr).
#[local] Abbreviation searxng_fetch := (Registry.searxng_fetch http_get).
#[local] Abbreviation direct_execution := (Registry.direct_execution http_get).

(** The first attempt makes one request, to the SearXNG instance. *)
Lemma searxng_fetch_requests (engine_name query : json) (params : pydict) :
  Spec.requests_of (events (searxng_fetch engine_name query params))
  = [mk_http_request (JStr Registry.searxng_url)
       (Registry.search_params engine_name query params) JNull 5].
Proof.
  unfold Registry.searxng_fetch, Registry.requests_get, mbind, M_bind.
  destruct (http_get _) as [resp|e]; simpl; [|done].
  destruct (Registry.raise_for_status resp) as [[]|e]; simpl; [|done].
  destruct (Registry.body_json resp) as [data|e]; simpl; [|done].
  destruct (match data with JObj d => _ | _ => _ end) as [results|e]; simpl; [|done].
  by destruct (Registry.stamp_results engine_name results).
Qed.

(** The direct execution of an engine that names a URL makes one
    request, to that URL, and returns whatever happens next. *)
Lemma direct_execution_with_url (m : Registry.py_module) (engine_name query : json)
  (params request_result : pydict) (target : json) :
  Registry.call_request m query (Registry.request_params query params) = Ok request_result ->
  dict_get "url" request_result = Some target ->
  is_ok (value (direct_execution m engine_name query params)) = true /\
  Spec.requests_of (events (direct_execution m engine_name query params))
  = [mk_http_request target [] (dict_get_default "headers" (JObj []) request_result) 10].
Proof.
  intros Hrequest Hurl. unfold Registry.direct_execution, mbind, M_bind.
  rewrite Hrequest. simpl. rewrite Hurl. unfold Registry.requests_get.
  destruct (http_get _) as [resp|e]; simpl; [|done].
  destruct (Registry.call_response m (Registry.Response resp)) as [results|e]; simpl; [|done].
  by destruct (Registry.stamp_results engine_name results).
Qed.

(** A search on an enabled engine whose [request] function returns a
    dictionary with a [url] never raises, whatever the network and the
    engine's [response] function do: when both the SearXNG instance and
    the direct execution fail, the result is the empty list.  It asks
    the SearXNG instance first, and the engine's own URL only after that
    has failed; it makes no other request. *)
Theorem search_with_url_never_raises (r : Registry.EngineRegistry) (name : string)
  (info : Registry.EngineInfo) (m : Registry.py_module) (query : json)
  (params request_result : pydict) (target : json) :
  dict_get name (Registry.engines r) = Some info ->
  Registry.enabled info = true ->
  Registry.module info = Some m ->
  Registry.call_request m query (Registry.request_params query params) = Ok request_result ->
  dict_get "url" request_result = Some target ->
  let out := search r (JStr name) query params in
  let asked := mk_http_request (JStr Registry.searxng_url)
                 (Registry.search_params (JStr name) query params) JNull 5 in
  let direct := mk_http_request target []
                  (dict_get_default "headers" (JObj []) request_result) 10 in
  is_ok (value out) = true /\
  Spec.requests_of (events out)
  = if is_ok (value (searxng_fetch (JStr name) query params))
    then [asked] else [asked; direct].
Proof.
  intros Hname Henabled Hmodule Hrequest Hurl.
  unfold Registry.search. simpl. rewrite Hname. simpl. rewrite Henabled, Hmodule. simpl.
  pose proof (searxng_fetch_requests (JStr name) query params) as Hasked.
  destruct (direct_execution_with_url m (JStr name) query params request_result target
              Hrequest Hurl) as [Hok Hdirect].
  destruct (searxng_fetch (JStr name) query params) as [log [results|e]]; simpl in *;
    [done|].
  destruct (direct_execution m (JStr name) query params) as [log' v]. simpl in *.
  split; [done|]. rewrite requests_of_app, Hasked. simpl. by rewrite Hdirect.
Qed.

End SearchFallback.

(** The engine [alpha] of the examples, with no SearXNG instance. *)
Lemma search_with_url_never_raises_witness :
  let out := Registry.search Sample.http_get Sample.py_repr Sample.registry
               (JStr "alpha") (JStr "rock") [] in
  let asked := mk_http_request (JStr Registry.searxng_url)
                 (Registry.search_params (JStr "alpha") (JStr "rock") []) JNull 5 in
  let direct := mk_http_request (JStr "http://alpha.example/search") []
                  (dict_get_default "headers" (JObj [])
                     (dict_set "url" (JStr "http://alpha.example/search")
                        (Registry.request_params (JStr "rock") []))) 10 in
  is_ok (value out) = true /\
  Spec.requests_of (events out)
  = if is_ok (value (Registry.searxng_fetch Sample.http_get (JStr "alpha") (JStr "rock") []))
    then [asked] else [asked; direct].
Proof.
  apply (search_with_url_never_raises Sample.http_get Sample.py_repr Sample.registry
           "alpha" Sample.alpha_info Sample.alpha (JStr "rock") []
           (dict_set "url" (JStr "http://alpha.example/search")
              (Registry.request_params (JStr "rock") []))
           (JStr "http://alpha.example/search"));
    reflexivity.
Defined.

(** What discovery guarantees of every entry it stores: the engine is
    stored under its own name, it is enabled, and its module is loaded. *)
Lemma discover_loop_entries dir files :
  forall acc engines,
    NoDup (dict_keys acc) ->
    Forall (fun kv => Registry.name (snd kv) = fst kv /\
                      Registry.enabled (snd kv) = true /\
                      Registry.module (snd kv) <> None) acc ->
    value (Registry.discover_loop dir files acc) = Ok engines ->
    NoDup (dict_keys engines) /\
    Forall (fun kv => Registry.name (snd kv) = fst kv /\
                      Registry.enabled (snd kv) = true /\
                      Registry.module (snd kv) <> None) engines.
Proof.
  induction files as [|f rest IH]; intros acc engines Hnd Hall; simpl.
  - by intros [= <-].
  - destruct (Registry.skipped f); simpl; [by apply IH|].
    unfold Registry._load_engine_info.
    destruct (Registry.file_load f) as [|e|e|m]; simpl; try done.
    + intros Hv. apply (IH acc engines Hnd Hall).
      by destruct (Registry.discover_loop dir rest acc) as [log v].
    + intros Hv. apply (IH acc engines Hnd Hall).
      by destruct (Registry.discover_loop dir rest acc) as [log v].
    + destruct (Registry.attr_request m), (Registry.attr_response m); simpl;
        try (intros Hv; apply (IH acc engines Hnd Hall);
             by destruct (Registry.discover_loop dir rest acc) as [log v]).
      set (info := Registry.mk_engine _ _ _ _ _ _). intros Hv.
      apply (IH (dict_set (Registry.name info) info acc) engines).
      * by apply dict_set_NoDup.
      * apply Forall_forall. intros entry Hin.
        by apply dict_set_entries in Hin as [->|[Hin _]];
          [|by eapply Forall_forall in Hall|done].
      * by destruct (Registry.discover_loop dir rest _) as [log v].
Qed.

(** The registry that discovery builds stores every engine under its own
    name, no name twice; every engine in it is enabled and has its module
    loaded.  So right after the start [search_all] fans out to every
    engine of the registry. *)
Theorem discovery_builds_a_well_formed_registry (fs : Registry.filesystem) (dir : string)
  (r : Registry.EngineRegistry) :
  value (Registry.__init__ fs dir) = Ok r ->
  Spec.well_formed r /\
  Forall (fun kv => Registry.enabled (snd kv) = true /\ Registry.module (snd kv) <> None)
         (Registry.engines r) /\
  Registry.get_enabled_engines r = map snd (Registry.engines r).
Proof.
  unfold Registry.__init__, Registry._discover_engines.
  destruct (fs dir) as [entries|]; [|done]. unfold mbind, M_bind.
  destruct (Registry.discover_loop dir (Registry.glob_py entries) []) as [log [engines|e]]
    eqn:Hloop; simpl; [|done].
  intros [= <-]. simpl.
  destruct (discover_loop_entries dir (Registry.glob_py entries) [] engines) as [Hnd Hall].
  { constructor. } { constructor. } { by rewrite Hloop. }
  split; [split; [done|]|split].
  - eapply Forall_impl; [exact Hall|]. by intros kv (H & _).
  - eapply Forall_impl; [exact Hall|]. by intros kv (_ & H).
  - unfold Registry.get_enabled_engines. simpl.
    clear Hloop Hnd. induction Hall as [|kv l (_ & Hon & _) _ IH]; simpl; [done|].
    by rewrite Hon, IH.
Qed.

(** The registry of the examples. *)
Lemma discovery_builds_a_well_formed_registry_witness :
  Spec.well_formed Sample.registry /\
  Forall (fun kv => Registry.enabled (snd kv) = true /\ Registry.module (snd kv) <> None)
         (Registry.engines Sample.registry) /\
  Registry.get_enabled_engines Sample.registry = map snd (Registry.engines Sample.registry).
Proof.
  apply (discovery_builds_a_well_formed_registry Sample.fs Sample.engines_path).
  reflexivity.
Defined.

(** ** The MusicBrainz engine *)






Section MusicbrainzProperties.

Variable http_get : http_request -> result Registry.http_response.
Variable py_repr : json -> string.
Variable json_loads : string -> result json.
Variable html_results : string -> list pydict.

#[local] Abbreviation request := (Musicbrainz.request py_repr).
#[local] Abbreviation response := (Musicbrainz.response json_loads html_results).
#[local] Abbreviation module := (Musicbrainz.module py_repr json_loads html_results).

Lemma request_spec (q : string) (params : pydict) (p : Z) :
  dict_get_default "pageno" (JInt 1) params = JInt p ->
  request (JStr q) params
  = Ok (dict_set "url"
          (JStr (if (1 <? p)%Z
                 then Musicbrainz.search_url (Urllib.quote_plus_str q)
                      +:+ "&page=" +:+ str_of_Z p
                 else Musicbrainz.search_url (Urllib.quote_plus_str q)))
          params).
Proof.
  intros Hpage. unfold Musicbrainz.request. simpl.
  assert (Hkeep : dict_get "pageno" (dict_set "url"
                    (JStr (Musicbrainz.search_url (Urllib.quote_plus_str q))) params)
                  = dict_get "pageno" params) by (by apply dict_get_set_ne).
  unfold dict_get_default in *. rewrite Hkeep.
  destruct (dict_get "pageno" params) as [v|] eqn:Hget.
  - subst v. simpl. destruct (1 <? p)%Z; [|done]. by rewrite dict_set_twice.
  - injection Hpage as <-. done.
Qed.


Lemma parse_result_spec (d : pydict) :
  exists result,
    Musicbrainz.parse_result (JObj d) = Some result /\
    Spec.music_result_of (JObj d) result.
Proof.
  eexists. split; [reflexivity|]. exists d. split; [done|].
  destruct (dict_get "artist" d), (dict_get "album" d), (dict_get "duration" d),
    (dict_get "thumbnail" d); simpl; repeat split; try done;
    intros key Hkey; unfold dict_keys in Hkey; simpl in Hkey;
    repeat (apply elem_of_cons in Hkey as [->|Hkey]);
    try (by apply elem_of_nil in Hkey);
    unfold Spec.music_keys; repeat first [apply list_elem_of_here | apply list_elem_of_further].
Qed.

Lemma parse_items_spec (items : list json) :
  Forall2 Spec.music_result_of (List.filter Spec.is_object items)
          (Musicbrainz.parse_items items).
Proof.
  induction items as [|item rest IH]; simpl; [constructor|].
  destruct item as [| | | | | |d]; simpl; try done.
  destruct (parse_result_spec d) as (result & Hparse & Hspec).
  simpl in Hparse. injection Hparse as <-. by constructor.
Qed.

(** When the text of the answer is a JSON object with a list under
    [results], [response] returns one result for every item of the list
    that is an object, in order, and drops the other items; the parsing
    as HTML plays no part.  Each result takes [url] and [title] from its
    item, [content] from [description], [img_src] from [thumbnail],
    [artist], [album] and [duration] when the item has them, and has the
    template [music.html]. *)
Theorem response_maps_the_fields (text : string) (data : pydict) (items : list json) :
  json_loads text = Ok (JObj data) ->
  dict_get "results" data = Some (JArr items) ->
  Forall2 Spec.music_result_of (List.filter Spec.is_object items) (response text).
Proof.
  intros Hloads Hresults. unfold Musicbrainz.response. rewrite Hloads, Hresults. simpl.
  apply parse_items_spec.
Qed.

Lemma stamp_each_objects (name : string) (results : list pydict) :
  Registry.stamp_each (JStr name) (map JObj results) = Ok (map (Spec.stamped name) results).
Proof.
  induction results as [|d rest IH]; simpl; [done|]. by rewrite IH.
Qed.

(** A search on the MusicBrainz engine while no SearXNG instance answers:
    one request goes to the address [request] built, and the results are
    those of [response] on the text that comes back, each with the engine
    tag; the status of the answer is not looked at.  When the request
    fails the result is the empty list. *)
Theorem musicbrainz_direct_search (r : Registry.EngineRegistry) (name : string)
  (info : Registry.EngineInfo) (q : string) (params : pydict) (p : Z) :
  dict_get name (Registry.engines r) = Some info ->
  Registry.enabled info = true ->
  Registry.module info = Some module ->
  dict_get_default "page" (JInt 1) params = JInt p ->
  is_ok (value (Registry.searxng_fetch http_get (JStr name) (JStr q) params)) = false ->
  let address := if (1 <? p)%Z
                 then Musicbrainz.search_url (Urllib.quote_plus_str q)
                      +:+ "&page=" +:+ str_of_Z p
                 else Musicbrainz.search_url (Urllib.quote_plus_str q) in
  value (Registry.search http_get py_repr r (JStr name) (JStr q) params)
  = Ok (JArr (match http_get (mk_http_request (JStr address) [] (JObj []) 10) with
              | Ok resp => map (Spec.stamped name) (response (Registry.text resp))
              | Raise _ => []
              end)).
Proof.
  intros Hname Henabled Hmodule Hpage Hdown.
  unfold Registry.search. simpl. rewrite Hname. simpl. rewrite Henabled, Hmodule. simpl.
  destruct (Registry.searxng_fetch http_get (JStr name) (JStr q) params)
    as [log [results|e]]; [done|]. simpl.
  unfold Registry.direct_execution, Registry.call_request, mbind, M_bind. simpl.
  rewrite (request_spec q (Registry.request_params (JStr q) params) p)
    by (unfold Registry.request_params; simpl; exact Hpage).
  simpl.
  set (headers := dict_get_default "headers" (JObj []) _).
  assert (Hheaders : headers = JObj []) by reflexivity. rewrite Hheaders.
  destruct (http_get _) as [resp|e']; simpl; [|done].
  unfold Registry.stamp_results. by rewrite stamp_each_objects.
Qed.

End MusicbrainzProperties.


(** The answer of the examples: one release, one item that is none. *)
Lemma response_maps_the_fields_witness :
  Forall2 Spec.music_result_of
    (List.filter Spec.is_object [Sample.release; JStr "noise"])
    (Musicbrainz.response (Sample.loads_among [Sample.releases]) Sample.no_html
       (Sample.dumps Sample.releases)).
Proof.
  apply (response_maps_the_fields (Sample.loads_among [Sample.releases]) Sample.no_html
           (Sample.dumps Sample.releases)
           [("results", JArr [Sample.release; JStr "noise"])]
           [Sample.release; JStr "noise"]).
  - vm_compute. reflexivity.
  - reflexivity.
Defined.

(** A search for [daft punk] on the registry of the one engine. *)
Lemma musicbrainz_direct_search_witness :
  let address := if (1 <? 1)%Z
                 then Musicbrainz.search_url (Urllib.quote_plus_str "daft punk")
                      +:+ "&page=" +:+ str_of_Z 1
                 else Musicbrainz.search_url (Urllib.quote_plus_str "daft punk") in
  value (Registry.search Sample.music_http_get Sample.py_repr Sample.music_registry
           (JStr "musicbrainz_adapted") (JStr "daft punk") [])
  = Ok (JArr (match Sample.music_http_get
                      (mk_http_request (JStr address) [] (JObj []) 10) with
              | Ok resp =>
                  map (Spec.stamped "musicbrainz_adapted")
                      (Musicbrainz.response (Sample.loads_among [Sample.releases])
                                            Sample.no_html (Registry.text resp))
              | Raise _ => []
              end)).
Proof.
  apply (musicbrainz_direct_search Sample.music_http_get Sample.py_repr
           (Sample.loads_among [Sample.releases]) Sample.no_html Sample.music_registry
           "musicbrainz_adapted" Sample.musicbrainz_info "daft punk" [] 1);
    reflexivity.
Defined.
